(** * Single-target detection (echopype.mask.single_target_detection)

    A shallow embedding of [detect_esp3.py] and [detect_matecho.py].

    - Python floats are IEEE binary64 numbers: Rocq's primitive [float].
      NaN, the infinities and rounding are therefore the real ones.
    - Python ints are [Z]; positions in an array are [nat].
    - A numpy matrix [samples x pings] is a list of ping columns, each a
      list of floats over the sample axis.
    - Code that can raise returns a [result]; the exception is a value.
    - [np.log10] is not a primitive of the kernel: the detectors are
      parametrised by it (Section variable [log10]), so every theorem holds
      for whatever libm computes.  [log10_series] is an executable instance
      used to run the detectors on concrete data. *)

From Stdlib Require Import ZArith List Bool Lia String Floats FunctionalExtensionality.
Import ListNotations.
Set Warnings "-inexact-float".
Open Scope Z_scope.

(** ** Exceptions *)

Inductive exn : Type :=
| ValueError (msg : string)
| OverflowError (msg : string)
| ZeroDivisionError (msg : string)
| IndexError (msg : string).

Inductive result (A : Type) : Type :=
| Ok (a : A)
| Raise (e : exn).
Arguments Ok {A} a.
Arguments Raise {A} e.

Definition bind {A B : Type} (r : result A) (k : A -> result B) : result B :=
  match r with
  | Ok a => k a
  | Raise e => Raise e
  end.

Notation "x <- r ;; k" := (bind r (fun x => k))
  (at level 61, r at next level, right associativity).

Definition raises {A : Type} (r : result A) : Prop :=
  exists e, r = Raise e.

(** ** Floats as Python and numpy use them *)

Module Py.

Definition isfinite (x : float) : bool := PrimFloat.is_finite x.
Definition isnan (x : float) : bool := PrimFloat.is_nan x.

(** [x < y], [x <= y], [x > y], [x >= y] on floats. *)
Definition lt (x y : float) : bool := PrimFloat.ltb x y.
Definition le (x y : float) : bool := PrimFloat.leb x y.
Definition gt (x y : float) : bool := PrimFloat.ltb y x.
Definition ge (x y : float) : bool := PrimFloat.leb y x.

(** [float(n)] for an int [n]; exact below [2^53]. *)
Definition float_of_Z (n : Z) : float :=
  if n <? 0 then PrimFloat.opp (PrimFloat.of_uint63 (Uint63.of_Z (- n)))
  else PrimFloat.of_uint63 (Uint63.of_Z n).

(** The signed mantissa of a finite float [(-1)^s * m * 2^e]. *)
Definition smant (s : bool) (m : positive) : Z :=
  if s then Z.neg m else Z.pos m.

(** [int(x)]: truncation towards zero. *)
Definition int (x : float) : result Z :=
  match Prim2SF x with
  | S754_nan => Raise (ValueError "cannot convert float NaN to integer")
  | S754_infinity _ => Raise (OverflowError "cannot convert float infinity to integer")
  | S754_zero _ => Ok 0
  | S754_finite s m e =>
      Ok (if 0 <=? e then smant s m * 2 ^ e
          else Z.quot (smant s m) (2 ^ (- e)))
  end.

(** [math.ceil(x)]. *)
Definition ceil (x : float) : result Z :=
  match Prim2SF x with
  | S754_nan => Raise (ValueError "cannot convert float NaN to integer")
  | S754_infinity _ => Raise (OverflowError "cannot convert float infinity to integer")
  | S754_zero _ => Ok 0
  | S754_finite s m e =>
      Ok (if 0 <=? e then smant s m * 2 ^ e
          else - ((- smant s m) / 2 ^ (- e)))
  end.

(** [round(x)]: to the nearest int, ties to the even one. *)
Definition round (x : float) : result Z :=
  match Prim2SF x with
  | S754_nan => Raise (ValueError "cannot convert float NaN to integer")
  | S754_infinity _ => Raise (OverflowError "cannot convert float infinity to integer")
  | S754_zero _ => Ok 0
  | S754_finite s m e =>
      Ok (if 0 <=? e then smant s m * 2 ^ e
          else
            let d := 2 ^ (- e) in
            let q := smant s m / d in
            let r := smant s m mod d in
            match 2 * r ?= d with
            | Lt => q
            | Gt => q + 1
            | Eq => if Z.even q then q else q + 1
            end)
  end.

(** [x / y] on two Python floats: a zero divisor raises. *)
Definition div (x y : float) : result float :=
  if PrimFloat.is_zero y then Raise (ZeroDivisionError "float division by zero")
  else Ok (x / y)%float.

(** [math.ceil(a / b)] for two ints: the true division is correctly
    rounded, so for [0 <= a < 2^53] and [0 < b] its ceiling is the integer
    ceiling.  A zero divisor raises before [math.ceil] is reached; the
    detectors guard against it. *)
Definition ceil_div (a b : Z) : Z := - ((- a) / b).

(** The builtin [max(a, b)] on floats: [b] only when [b > a]. *)
Definition max (a b : float) : float := if gt b a then b else a.

(** [np.maximum]: NaN wins. *)
Definition maximum (a b : float) : float :=
  if isnan a then a else if isnan b then b else if lt a b then b else a.

(** [clip(min=lo)]: NaN stays NaN. *)
Definition clip_min (lo x : float) : float :=
  if isnan x then x else if lt x lo then lo else x.

(** Insertion of a float into a list sorted by [<=]. *)
Fixpoint insert_sorted (x : float) (l : list float) : list float :=
  match l with
  | [] => [x]
  | y :: l' => if le x y then x :: l else y :: insert_sorted x l'
  end.

Definition sort (l : list float) : list float :=
  fold_right insert_sorted [] l.

(** [np.nanmedian]: NaNs are dropped; the mean of the two middle values
    for an even count; NaN when nothing is left. *)
Definition nanmedian (l : list float) : float :=
  let s := sort (filter (fun x => negb (isnan x)) l) in
  let n := List.length s in
  match n with
  | O => nan
  | _ =>
      if Nat.even n
      then ((nth (n / 2 - 1) s nan + nth (n / 2) s nan) / 2)%float
      else nth (n / 2) s nan
  end.

(** [np.diff] along a column. *)
Fixpoint diff (l : list float) : list float :=
  match l with
  | a :: ((b :: _) as t) => (b - a)%float :: diff t
  | _ => []
  end.

End Py.

(** ** An executable base-10 logarithm

    [log10_series] evaluates [log10] from the binary exponent and the
    [atanh] series of the mantissa.  It agrees with libm at the special
    values ([log10 1 = 0], zero, negatives, NaN, infinity) and to a few units
    in the last place elsewhere. *)

Fixpoint atanh_series (t2 : float) (n : nat) (k : Z) : float :=
  match n with
  | O => 0%float
  | S n' => (1 / Py.float_of_Z k + t2 * atanh_series t2 n' (k + 2))%float
  end.

Definition log10_series (x : float) : float :=
  if Py.isnan x then nan
  else if Py.lt x 0 then nan
  else if PrimFloat.is_zero x then neg_infinity
  else if PrimFloat.is_infinity x then infinity
  else
    let (m, e) := Z.frexp x in
    let (m, e) := if Py.lt m 0.70710678118654757 then ((2 * m)%float, e - 1) else (m, e) in
    let t := ((m - 1) / (m + 1))%float in
    let ln_m := (2 * t * atanh_series (t * t) 16 1)%float in
    ((Py.float_of_Z e * 0.69314718055994529 + ln_m) / 2.3025850929940459)%float.

(** ** Small list helpers in the shape numpy and Python use them *)

(** [range(n)] for an int [n]. *)
Definition range (n : Z) : list Z := map Z.of_nat (seq 0 (Z.to_nat n)).

(** [np.arange(n)] used as row or ping positions. *)
Definition arange (n : Z) : list nat := seq 0 (Z.to_nat n).

(** [l[start:stop]] with Python's treatment of negative and overlong
    bounds. *)
Definition py_slice {A : Type} (start stop : Z) (l : list A) : list A :=
  let n := Z.of_nat (List.length l) in
  let norm i := if i <? 0 then Z.max 0 (i + n) else Z.min i n in
  let a := norm start in
  let b := norm stop in
  firstn (Z.to_nat (b - a)) (skipn (Z.to_nat a) l).

(** [col[rows]]: fancy indexing of one column by a list of positions. *)
Definition isel (col : list float) (rows : list nat) : list float :=
  map (fun r => nth r col nan) rows.

(** [np.nanmax] of an int array; an empty array raises. *)
Definition nanmax (l : list Z) : result Z :=
  match l with
  | [] => Raise (ValueError "zero-size array to reduction operation fmax which has no identity")
  | x :: l' => Ok (fold_left Z.max l' x)
  end.

(** [seg.min()] and [seg.max()] of a non-empty array of finite floats. *)
Definition fmin_list (l : list float) : float :=
  match l with
  | [] => nan
  | x :: l' => fold_left (fun m y => if Py.lt y m then y else m) l' x
  end.

Definition fmax_list (l : list float) : float :=
  match l with
  | [] => nan
  | x :: l' => fold_left (fun m y => if Py.lt m y then y else m) l' x
  end.

(** ** The caller's [params] dict and the dataset *)

(** A key that is absent from the dict is [None]. *)
Record Params : Type := mkParams {
  channel : option string;
  bottom_da : option (list float);   (* per-ping bottom depth, on the ping axis *)
  SoundSpeed : option float;
  TS_threshold : option float;
  PLDL : option float;
  MinNormPL : option float;
  MaxNormPL : option float;
  DataType : option string;
  block_len : option float;
  Np : option Z;
  pulse_length : option float;
  MaxAngleOneWayCompression : option float;
  MinEchoLength : option float;
  MaxEchoLength : option float;
  MinEchoSpace : option float;
  MinEchoDepthM : option float;
  MaxEchoDepthM : option float;
  tvg_start_sample : option Z;
  beamwidth_along_3dB_rad : option float;
  beamwidth_athwart_3dB_rad : option float;
  steer_along_rad : option float;
  steer_athwart_rad : option float;
  psi_two_way : option float;
  Sa_correction : option float;
  Sa_EK80_nominal : option float
}.

(** [{**DEFAULTS, **params}[key]]: the caller's value, else the default. *)
Definition merged {A : Type} (given : option A) (default : A) : A :=
  match given with
  | Some v => v
  | None => default
  end.

(** A one-dimensional variable of the dataset: its dimension names, the
    coordinate of its time-like dimension and its values. *)
Record DataArray : Type := mkDataArray {
  dims : list string;
  time_coord : list Z;
  values : list float
}.

(** The dataset after [.sel(channel=channel)]: matrices are indexed
    [ping_time][range_sample]; timestamps are integers (nanoseconds). *)
Record Dataset : Type := mkDataset {
  Sv : list (list float);
  depth : list (list float);
  range_sample_size : nat;                       (* Sv.sizes["range_sample"] *)
  ping_time : list Z;
  angle_alongship : option (list (list float));
  angle_athwartship : option (list (list float));
  sound_absorption : option float;               (* None: absent, or .item() failed *)
  transducer_depth : option float;
  data_vars : list (string * DataArray)
}.

Definition ping_size (ds : Dataset) : Z := Z.of_nat (List.length (Sv ds)).

Definition column (m : list (list float)) (ip : nat) : list float := nth ip m [].

(** ** Navigation alignment: [_pull_nav] / [_fallback_1d_aligned] *)

Definition tolerance_500ms : Z := 500 * 1000000.

(** [reindex(ping_time=..., method="nearest", tolerance=...)] on a strictly
    increasing time coordinate: the value at the nearest label (at the later
    of two labels equally near), or NaN when that label is farther than the
    tolerance.  On a coordinate that is not monotonic, or that repeats a
    label, the call raises; such a coordinate is outside what these two
    definitions describe. *)
Fixpoint nearest_from (t : Z) (src : list (Z * float)) (best : Z * float) : Z * float :=
  match src with
  | [] => best
  | (s, v) :: src' =>
      nearest_from t src' (if Z.abs (s - t) <=? Z.abs (fst best - t) then (s, v) else best)
  end.

Definition reindex_nearest (coord : list Z) (vals : list float) (tol : Z) (t : Z) : float :=
  match combine coord vals with
  | [] => nan
  | b :: src =>
      let (s, v) := nearest_from t src b in
      if Z.abs (s - t) <=? tol then v else nan
  end.

Definition lookup_var (ds : Dataset) (nm : string) : option DataArray :=
  option_map snd (find (fun kv => String.eqb (fst kv) nm) (data_vars ds)).

Definition time_like : list string := ["ping_time"; "time"; "time1"; "time2"]%string.

Definition has_time_dim (da : DataArray) : bool :=
  existsb (fun tdim => existsb (String.eqb tdim) (dims da)) time_like.

Fixpoint _pull_nav (ds : Dataset) (name_candidates : list string) (ping_time_ref : list Z)
  : option (list float) :=
  match name_candidates with
  | [] => None
  | nm :: rest =>
      match lookup_var ds nm with
      | Some da =>
          if has_time_dim da
          then Some (map (reindex_nearest (time_coord da) (values da) tolerance_500ms)
                         ping_time_ref)
          else if (List.length (dims da) =? 1)%nat
                  && (List.length (values da) =? List.length ping_time_ref)%nat
          then Some (values da)
          else _pull_nav ds rest ping_time_ref
      | None => _pull_nav ds rest ping_time_ref
      end
  end.

Definition _fallback_1d_aligned := _pull_nav.

(** [a if a is not None else np.zeros(n)]. *)
Definition _fallback (a : option (list float)) (n : Z) : list float :=
  match a with
  | Some v => v
  | None => repeat 0%float (Z.to_nat n)
  end.

Definition nav_field (ds : Dataset) (names : list string) : list float :=
  _fallback (_pull_nav ds names (ping_time ds)) (ping_size ds).

(** ** The output structure: [init_st_struct] *)

Record st_struct : Type := mk_st_struct {
  TS_comp : list float;
  TS_uncomp : list float;
  Target_range : list float;
  Target_range_disp : list float;
  Target_range_min : list float;
  Target_range_max : list float;
  idx_r : list Z;
  StandDev_Angles_Minor_Axis : list float;
  StandDev_Angles_Major_Axis : list float;
  Angle_minor_axis : list float;
  Angle_major_axis : list float;
  Ping_number : list Z;
  Time : list Z;
  nb_valid_targets : Z;
  idx_target_lin : list Z;
  pulse_env_before_lin : list Z;
  pulse_env_after_lin : list Z;
  PulseLength_Normalized_PLDL : list float;
  Transmitted_pulse_length : list Z;
  Heave : list float;
  Roll : list float;
  Pitch : list float;
  Heading : list float;
  Dist : list float
}.

Definition init_st_struct : st_struct :=
  mk_st_struct [] [] [] [] [] [] [] [] [] [] [] [] [] 0 [] [] [] [] [] [] [] [] [] [].

(** [out["nb_valid_targets"] = len(out["TS_comp"])]. *)
Definition finalize (out : st_struct) : st_struct :=
  mk_st_struct
    (TS_comp out) (TS_uncomp out) (Target_range out) (Target_range_disp out)
    (Target_range_min out) (Target_range_max out) (idx_r out)
    (StandDev_Angles_Minor_Axis out) (StandDev_Angles_Major_Axis out)
    (Angle_minor_axis out) (Angle_major_axis out) (Ping_number out) (Time out)
    (Z.of_nat (List.length (TS_comp out)))
    (idx_target_lin out) (pulse_env_before_lin out) (pulse_env_after_lin out)
    (PulseLength_Normalized_PLDL out) (Transmitted_pulse_length out)
    (Heave out) (Roll out) (Pitch out) (Heading out) (Dist out).

(** ** Bottom index of a ping

    [under = np.nonzero(np.isfinite(D) & (D >= b))[0]];
    [idx_bot = under[0] if under.size else nb_samples_tot - 1]. *)

Fixpoint first_under (b : float) (d : list float) (i : nat) : option nat :=
  match d with
  | [] => None
  | x :: d' =>
      if Py.isfinite x && Py.ge x b then Some i else first_under b d' (S i)
  end.

Definition idx_bot_ping (nb_samples_tot : Z) (d : list float) (b : float) : Z :=
  match first_under b d 0 with
  | Some i => Z.of_nat i
  | None => nb_samples_tot - 1
  end.

Definition idx_bot (ds : Dataset) (b : list float) (pings : list nat) : list Z :=
  map (fun ip => idx_bot_ping (Z.of_nat (range_sample_size ds))
                   (column (depth ds) ip) (nth ip b nan))
      pings.

(** Global row domain [idx_r_tot]: all rows, or rows [0..max_idx] when a
    bottom line is given. *)
Definition idx_r_tot_of (ds : Dataset) (bottom : option (list float)) : result (list nat) :=
  match bottom with
  | None => Ok (arange (Z.of_nat (range_sample_size ds)))
  | Some b =>
      max_idx <- nanmax (idx_bot ds b (arange (ping_size ds))) ;;
      Ok (arange (max_idx + 1))
  end.

(** Rows of one block: [idx_r[idx_r <= max_idx]] over the block's pings. *)
Definition block_rows (ds : Dataset) (bb : option (list float))
           (idx_r_tot idx_pings : list nat) : list nat :=
  match bb with
  | None => idx_r_tot
  | Some b =>
      match idx_bot ds b idx_pings with
      | [] => idx_r_tot
      | x :: l =>
          let max_idx := fold_left Z.max l x in
          filter (fun r => Z.of_nat r <=? max_idx) idx_r_tot
      end
  end.

(** ** Block sizing and the ping ranges of the block loop *)

Definition block_size_of (block_len : float) (idx_r_tot_size nb_pings : Z) : result Z :=
  let cells_per_ping := Z.max 1 idx_r_tot_size in
  c <- Py.ceil (block_len / Py.float_of_Z cells_per_ping)%float ;;
  Ok (Z.min c nb_pings).

(** [detect_esp3]: [ceil(n / block_size) if block_size > 0 else 0]. *)
Definition num_ite_esp3 (nb_pings block_size : Z) : Z :=
  if block_size >? 0 then Py.ceil_div nb_pings block_size else 0.

(** [detect_matecho]: [ceil(n / max(block_size, 1))]. *)
Definition num_ite_matecho (nb_pings block_size : Z) : Z :=
  Py.ceil_div nb_pings (Z.max block_size 1).

(** [idx_pings_tot[start:stop]] of iteration [ui]. *)
Definition block_pings (nb_pings block_size ui : Z) : list nat :=
  let start := ui * block_size in
  let stop := Z.min ((ui + 1) * block_size) nb_pings in
  py_slice start stop (arange nb_pings).

Definition blocks (nb_pings block_size num_ite : Z) : list (list nat) :=
  map (block_pings nb_pings block_size) (range num_ite).

(** ** Peak search shared by the two detectors *)

(** [np.where(valid[1:-1] & (z[1:-1] > z[:-2]) & (z[1:-1] >= z[2:]))[0] + 1] *)
Definition local_maxima (valid : list bool) (z : list float) : list nat :=
  filter (fun i => nth i valid false
                   && Py.gt (nth i z nan) (nth (i - 1) z nan)
                   && Py.ge (nth i z nan) (nth (i + 1) z nan))
         (seq 1 (List.length z - 2)).

(** ** detect_esp3.py *)

Module DEFAULTS.
Definition SoundSpeed : float := 1500.
Definition TS_threshold : float := -50.
Definition PLDL : float := 6.
Definition MinNormPL : float := 0.7.
Definition MaxNormPL : float := 1.5.
Definition DataType : string := "CW".
Definition block_len : float := 1e7 / 3.
End DEFAULTS.

(** The merged dict [p] of [detect_esp3]. *)
Record esp3_p : Type := mk_esp3_p {
  p_SoundSpeed : float;
  p_TS_threshold : float;
  p_PLDL : float;
  p_MinNormPL : float;
  p_MaxNormPL : float;
  p_DataType : string;
  p_block_len : float;
  p_Np : option Z;
  p_pulse_length : option float
}.

Definition merge_defaults (params : Params) : esp3_p :=
  mk_esp3_p
    (merged (SoundSpeed params) DEFAULTS.SoundSpeed)
    (merged (TS_threshold params) DEFAULTS.TS_threshold)
    (merged (PLDL params) DEFAULTS.PLDL)
    (merged (MinNormPL params) DEFAULTS.MinNormPL)
    (merged (MaxNormPL params) DEFAULTS.MaxNormPL)
    (merged (DataType params) DEFAULTS.DataType)
    (merged (block_len params) DEFAULTS.block_len)
    (Np params)
    (pulse_length params).

Definition _validate_params (p : esp3_p) : result unit :=
  if negb (String.eqb (p_DataType p) "CW")
  then Raise (ValueError "Only CW supported at this stage.")
  else if negb (Py.le (-120) (p_TS_threshold p) && Py.le (p_TS_threshold p) (-20))
  then Raise (ValueError "TS_threshold must be in [-120, -20] dB.")
  else if negb (Py.le 1 (p_PLDL p) && Py.le (p_PLDL p) 30)
  then Raise (ValueError "PLDL must be in [1, 30] dB.")
  else if negb (Py.le 0 (p_MinNormPL p) && Py.le (p_MinNormPL p) 10)
  then Raise (ValueError "MinNormPL must be in [0, 10].")
  else if negb (Py.le 0 (p_MaxNormPL p) && Py.le (p_MaxNormPL p) 10)
  then Raise (ValueError "MaxNormPL must be in [0, 10].")
  else if Py.le (p_block_len p) 0
  then Raise (ValueError "block_len must be > 0.")
  else Ok tt.

(** The dict with no key: [params = {}]. *)
Definition no_params : Params :=
  mkParams None None None None None None None None None None None None None
           None None None None None None None None None None None None.

(** Minimum separation: keep a candidate when it is [Np] or more samples
    past the last kept one. *)
Fixpoint min_separation (Np : Z) (cand : list nat) (last : Z) : list nat :=
  match cand with
  | [] => []
  | k :: rest =>
      if Z.of_nat k - last >=? Np
      then k :: min_separation Np rest (Z.of_nat k)
      else min_separation Np rest last
  end.

(** [i = k - 1; while i >= 0 and left < max_len and isfinite(z[i]) and
    z[i] >= thr: left += 1; i -= 1].  [i] counts the samples still to the
    left, so the sample looked at is [i - 1]. *)
Fixpoint expand_left (z : list float) (thr : float) (max_len : Z) (i : nat) (left : Z) : Z :=
  match i with
  | O => left
  | S i' =>
      if (left <? max_len) && Py.isfinite (nth i' z nan) && Py.ge (nth i' z nan) thr
      then expand_left z thr max_len i' (left + 1)
      else left
  end.

(** [i = k + 1; while i < z.size and right < max_len and ...]; [n] is
    [z.size - i]. *)
Fixpoint expand_right (z : list float) (thr : float) (max_len : Z) (n i : nat) (right : Z) : Z :=
  match n with
  | O => right
  | S n' =>
      if (right <? max_len) && Py.isfinite (nth i z nan) && Py.ge (nth i z nan) thr
      then expand_right z thr max_len n' (S i) (right + 1)
      else right
  end.

(** What one accepted peak contributes to the output. *)
Record peak : Type := mk_peak {
  pk_TS_comp : float;
  pk_TS_uncomp : float;
  pk_r_peak : float;
  pk_r_min : float;
  pk_r_max : float;
  pk_left : Z;
  pk_right : Z;
  pk_plen : Z
}.

(** The constants of a run of [detect_esp3]. *)
Record esp3_ctx : Type := mk_esp3_ctx {
  x_c : float;
  x_T : float;
  x_alpha : float;
  x_Np : Z;
  x_TS_thr : float;
  x_PLDL : float;
  x_min_len : Z;
  x_max_len : Z;
  x_nb_samples_tot : Z
}.

(** [TS[mask] = -999.0] on one column; [b] is the ping's bottom depth when
    the under-bottom mask applies. *)
Definition mask_esp3 (b : option float) (ts dep : list float) : list float :=
  map (fun zd => match b with
                 | Some bv => if Py.ge (snd zd) bv then (-999)%float else fst zd
                 | None => fst zd
                 end)
      (combine ts dep).

(** The under-bottom mask is built when [bb is not None and idx_pings.size > 0];
    inside a block's ping loop the block is not empty. *)
Definition bottom_at (bb : option (list float)) (ip : nat) : option float :=
  option_map (fun b => nth ip b nan) bb.

Section Detectors.

Variable log10 : float -> float.

(** Steps 9 of [detect_esp3] for one kept candidate [k] of column [z]
    (signal) and [d] (depth): [None] is a [continue]. *)
Definition esp3_peak (x : esp3_ctx) (z d : list float) (k : nat) : option peak :=
  let pk := nth k z nan in
  if negb (Py.isfinite pk) || Py.le pk (x_TS_thr x) then None else
  let thr := (pk - x_PLDL x)%float in
  let left := expand_left z thr (x_max_len x) k 0 in
  let right := expand_right z thr (x_max_len x) (List.length z - (k + 1)) (k + 1) 0 in
  let plen := 1 + left + right in
  if (plen <? x_min_len x) || (plen >? x_max_len x) then None else
  let i0 := Z.of_nat k - left in
  let i1 := Z.of_nat k + right in
  let seg := filter Py.isfinite (py_slice i0 (i1 + 1) d) in
  match seg with
  | [] => None
  | _ =>
      let r_min := fmin_list seg in
      let r_max := fmax_list seg in
      let r_peak := if Py.isfinite (nth k d nan) then nth k d nan
                    else (0.5 * (r_min + r_max))%float in
      let r_eff_peak := (r_peak - x_c x * x_T x / 4)%float in
      if Py.le r_eff_peak 0 then None else
      let TVG_peak := (40 * log10 r_eff_peak + 2 * x_alpha x * r_eff_peak)%float in
      let TS_uncomp := (pk + TVG_peak)%float in
      let TS_comp := TS_uncomp in
      if Py.le TS_comp (x_TS_thr x) then None else
      Some (mk_peak TS_comp TS_uncomp r_peak r_min r_max left right plen)
  end.

(** The appends of [detect_esp3]: the angle values and the navigation
    fields are not appended (commented out in the source). *)
Definition append_esp3 (x : esp3_ctx) (times : list Z) (out : st_struct)
           (row ping : Z) (h : peak) : st_struct :=
  mk_st_struct
    (TS_comp out ++ [pk_TS_comp h])
    (TS_uncomp out ++ [pk_TS_uncomp h])
    (Target_range out ++ [pk_r_peak h])
    (Target_range_disp out ++ [(pk_r_peak h + x_c x * x_T x / 4)%float])
    (Target_range_min out ++ [pk_r_min h])
    (Target_range_max out ++ [pk_r_max h])
    (idx_r out ++ [row])
    (StandDev_Angles_Minor_Axis out ++ [nan])
    (StandDev_Angles_Major_Axis out ++ [nan])
    (Angle_minor_axis out)
    (Angle_major_axis out)
    (Ping_number out ++ [ping])
    (Time out ++ [nth (Z.to_nat ping) times 0])
    (nb_valid_targets out)
    (idx_target_lin out ++ [ping * x_nb_samples_tot x + row])
    (pulse_env_before_lin out ++ [pk_left h])
    (pulse_env_after_lin out ++ [pk_right h])
    (PulseLength_Normalized_PLDL out
       ++ [(Py.float_of_Z (pk_plen h) / Py.float_of_Z (x_Np x))%float])
    (Transmitted_pulse_length out ++ [pk_plen h])
    (Heave out) (Roll out) (Pitch out) (Heading out) (Dist out).

(** Candidates of one column after the minimum-separation scan. *)
Definition esp3_keep (x : esp3_ctx) (z : list float) : list nat :=
  let valid := map (fun v => Py.gt v (-999)) z in
  min_separation (x_Np x) (local_maxima valid z) (- (10 ^ 9)).

(** One ping column [jp] of a block: [rows] is the block's [idx_r],
    [ping] the global ping index [idx_pings[jp]]. *)
Definition esp3_ping (x : esp3_ctx) (times : list Z) (rows : list nat) (ping : nat)
           (z d : list float) (out : st_struct) : st_struct :=
  if (List.length z <? 3)%nat then out
  else
    fold_left
      (fun out k =>
         match esp3_peak x z d k with
         | Some h => append_esp3 x times out (Z.of_nat (nth k rows 0%nat)) (Z.of_nat ping) h
         | None => out
         end)
      (esp3_keep x z) out.

(** The masked signal columns of a block, before trailing rows are cut.
    The region mask [mask_inter_tot] is all False and adds nothing. *)
Definition esp3_TS (ds : Dataset) (bb : option (list float)) (rows idx_pings : list nat)
  : list (list float) :=
  map (fun ip => mask_esp3 (bottom_at bb ip)
                   (isel (column (Sv ds) ip) rows)
                   (isel (column (depth ds) ip) rows))
      idx_pings.

Definition esp3_DEP (ds : Dataset) (rows idx_pings : list nat) : list (list float) :=
  map (fun ip => isel (column (depth ds) ip) rows) idx_pings.

(** [np.where((TS > -999.0).any(axis=1))[0]] *)
Definition valid_rows (TS : list (list float)) (nrows : nat) : list nat :=
  filter (fun r => existsb (fun col => Py.gt (nth r col nan) (-999)) TS) (seq 0 nrows).

(** One iteration of the block loop (steps 8.1 to 9). *)
Definition esp3_block (x : esp3_ctx) (ds : Dataset) (bb : option (list float))
           (idx_r_tot : list nat) (out : st_struct) (idx_pings : list nat) : st_struct :=
  let rows := block_rows ds bb idx_r_tot idx_pings in
  let TS := esp3_TS ds bb rows idx_pings in
  let DEP := esp3_DEP ds rows idx_pings in
  if negb (existsb (existsb (fun v => Py.gt v (-999))) TS) then out
  else
    let last_row := fold_left Nat.max (valid_rows TS (List.length rows)) 0%nat in
    let TS := map (firstn (S last_row)) TS in
    let DEP := map (firstn (S last_row)) DEP in
    let rows := firstn (S last_row) rows in
    fold_left
      (fun out pzd =>
         esp3_ping x (ping_time ds) rows (fst pzd) (fst (snd pzd)) (snd (snd pzd)) out)
      (combine idx_pings (combine TS DEP)) out.

(** [Np] and [T] (step 6): [Np] as given when it exceeds 2, else derived
    from the median depth step. *)
Definition esp3_Np_derived (ds : Dataset) (c T : float) : result Z :=
  let dstep := Py.nanmedian (List.concat (map Py.diff (depth ds))) in
  dt <- (if Py.gt dstep 0 then Py.div (2 * dstep) c else Ok 1e-4%float) ;;
  q <- Py.div T dt ;;
  r <- Py.round q ;;
  Ok (Z.max 3 r).

Definition esp3_Np_T (ds : Dataset) (p : esp3_p) : result (Z * float) :=
  let T := merged (p_pulse_length p) 1e-3%float in
  match p_Np p with
  | Some n =>
      if n >? 2 then Ok (n, T)
      else Np <- esp3_Np_derived ds (p_SoundSpeed p) T ;; Ok (Np, T)
  | None => Np <- esp3_Np_derived ds (p_SoundSpeed p) T ;; Ok (Np, T)
  end.

Definition esp3_min_len (Np : Z) (p : esp3_p) : result Z :=
  n <- Py.int (Py.float_of_Z Np * p_MinNormPL p)%float ;;
  Ok (Z.max 1 n).

Definition esp3_max_len (Np : Z) (p : esp3_p) : result Z :=
  n <- Py.ceil (Py.float_of_Z Np * p_MaxNormPL p)%float ;;
  Ok (Z.max 1 n).

(** Everything [detect_esp3] fixes before the block loop. *)
Record esp3_plan : Type := mk_esp3_plan {
  plan_ctx : esp3_ctx;
  plan_bb : option (list float);
  plan_idx_r_tot : list nat;
  plan_block_size : Z;
  plan_num_ite : Z
}.

Definition esp3_prepare (ds : Dataset) (params : option Params) : result esp3_plan :=
  let params := merged params no_params in
  match channel params with
  | None => Raise (ValueError "params['channel'] is required.")
  | Some _ =>
      let bottom := bottom_da params in
      let p := merge_defaults params in
      _ <- _validate_params p ;;
      let nb_pings_tot := ping_size ds in
      let nb_samples_tot := Z.of_nat (range_sample_size ds) in
      idx_r_tot <- idx_r_tot_of ds bottom ;;
      block_size <- block_size_of (p_block_len p)
                      (Z.of_nat (List.length idx_r_tot)) nb_pings_tot ;;
      let num_ite := num_ite_esp3 nb_pings_tot block_size in
      let alpha := merged (sound_absorption ds) 0%float in
      NpT <- esp3_Np_T ds p ;;
      min_len <- esp3_min_len (fst NpT) p ;;
      max_len <- esp3_max_len (fst NpT) p ;;
      Ok (mk_esp3_plan
            (mk_esp3_ctx (p_SoundSpeed p) (snd NpT) alpha (fst NpT)
                         (p_TS_threshold p) (p_PLDL p) min_len max_len nb_samples_tot)
            bottom idx_r_tot block_size num_ite)
  end.

Definition esp3_run (ds : Dataset) (pl : esp3_plan) : st_struct :=
  fold_left (esp3_block (plan_ctx pl) ds (plan_bb pl) (plan_idx_r_tot pl))
            (blocks (ping_size ds) (plan_block_size pl) (plan_num_ite pl))
            init_st_struct.

Definition detect_esp3 (ds : Dataset) (params : option Params) : result st_struct :=
  pl <- esp3_prepare ds params ;;
  Ok (finalize (esp3_run ds pl)).

(** ** detect_matecho.py *)

(** The merged dict [p] of [detect_matecho]. *)
Record matecho_p : Type := mk_matecho_p {
  q_SoundSpeed : float;
  q_TS_threshold : float;
  q_MaxAngleOneWayCompression : float;
  q_MinEchoLength : float;
  q_MaxEchoLength : float;
  q_MinEchoSpace : float;
  q_MinEchoDepthM : float;
  q_MaxEchoDepthM : float;
  q_tvg_start_sample : Z;
  q_block_len : float;
  q_beamwidth_along_3dB_rad : float;
  q_beamwidth_athwart_3dB_rad : float;
  q_steer_along_rad : float;
  q_steer_athwart_rad : float;
  q_psi_two_way : float;
  q_Sa_correction : float;
  q_Sa_EK80_nominal : float;
  q_Np : option Z;
  q_pulse_length : option float
}.

(** [MATECHO_DEFAULTS] merged with the caller's dict;
    [np.deg2rad(7.0)] is [0.12217304763960307]. *)
Definition merge_matecho_defaults (params : Params) : matecho_p :=
  mk_matecho_p
    (merged (SoundSpeed params) 1500%float)
    (merged (TS_threshold params) (-50)%float)
    (merged (MaxAngleOneWayCompression params) 6%float)
    (merged (MinEchoLength params) 0.8%float)
    (merged (MaxEchoLength params) 1.8%float)
    (merged (MinEchoSpace params) 1%float)
    (merged (MinEchoDepthM params) 3%float)
    (merged (MaxEchoDepthM params) 38%float)
    (merged (tvg_start_sample params) 3)
    (merged (block_len params) (1e7 / 3)%float)
    (merged (beamwidth_along_3dB_rad params) 0.12217304763960307%float)
    (merged (beamwidth_athwart_3dB_rad params) 0.12217304763960307%float)
    (merged (steer_along_rad params) 0%float)
    (merged (steer_athwart_rad params) 0%float)
    (merged (psi_two_way params) 0%float)
    (merged (Sa_correction params) 0%float)
    (merged (Sa_EK80_nominal params) 0%float)
    (Np params)
    (pulse_length params).

(** The constants of a run of [detect_matecho]. *)
Record matecho_ctx : Type := mk_matecho_ctx {
  m_p : matecho_p;
  m_T : float;
  m_alpha : float;
  m_TD : float;
  m_sv2ts : float;
  m_NechP : Z;
  m_nb_samples_tot : Z;
  m_ts_range : list float;
  m_heading : list float;
  m_pitch : list float;
  m_roll : list float;
  m_heave : list float;
  m_dist : list float
}.

Definition dec_tir : nat := 8.

(** [valid = np.isfinite(zP); valid[:dec_tir] = False] *)
Definition matecho_valid (zP : list float) : list bool :=
  map (fun iv => negb (fst iv <? dec_tir)%nat && Py.isfinite (snd iv))
      (combine (seq 0 (List.length zP)) zP).

(** [while i0 > 0 and isfinite(zP[i0-1]) and zP[i0-1] >= base - 6.0: i0 -= 1] *)
Fixpoint width_left (zP : list float) (lim : float) (i0 : nat) : nat :=
  match i0 with
  | O => O
  | S i' =>
      if Py.isfinite (nth i' zP nan) && Py.ge (nth i' zP nan) lim
      then width_left zP lim i'
      else i0
  end.

(** [while i1 + 1 < nP and isfinite(zP[i1+1]) and zP[i1+1] >= base - 6.0:
    i1 += 1]; [n] is [nP - 1 - i1]. *)
Fixpoint width_right (zP : list float) (lim : float) (n i1 : nat) : nat :=
  match n with
  | O => i1
  | S n' =>
      if Py.isfinite (nth (S i1) zP nan) && Py.ge (nth (S i1) zP nan) lim
      then width_right zP lim n' (S i1)
      else i1
  end.

(** [min(abs(k - kk) for kk in keep)] of a non-empty [keep]. *)
Definition min_gap (k : nat) (keep : list nat) : Z :=
  match map (fun kk => Z.abs (Z.of_nat k - Z.of_nat kk)) keep with
  | [] => 0
  | g :: gs => fold_left Z.min gs g
  end.

(** What the body of [for k in loc] does to [keep], and the detection it
    appends, if any. *)
Definition matecho_candidate (m : matecho_ctx) (zP zTS zTSU rcol : list float)
           (heave_j : float) (keep : list nat) (k : nat)
  : result (list nat * option peak) :=
  let p := m_p m in
  let tsk := nth k zTS nan in
  if negb (Py.isfinite tsk) || Py.le tsk (q_TS_threshold p) then Ok (keep, None) else
  if Py.gt (tsk - nth k zTSU nan)%float (2 * q_MaxAngleOneWayCompression p)%float
  then Ok (keep, None) else
  let base := nth k zP nan in
  let i0 := width_left zP (base - 6)%float k in
  let i1 := width_right zP (base - 6)%float (List.length zP - 1 - k) k in
  let plen := Z.of_nat i1 - Z.of_nat i0 + 1 in
  lo <- Py.round (Py.float_of_Z (m_NechP m) * q_MinEchoLength p)%float ;;
  if plen <? lo then Ok (keep, None) else
  hi <- Py.round (Py.float_of_Z (m_NechP m) * q_MaxEchoLength p)%float ;;
  if plen >? hi then Ok (keep, None) else
  tooclose <- match keep with
              | [] => Ok false
              | _ => sp <- Py.round (q_MinEchoSpace p * Py.float_of_Z (m_NechP m))%float ;;
                     Ok (min_gap k keep <? sp)
              end ;;
  if tooclose : bool then Ok (keep, None) else
  let depth_here := (nth k rcol nan + m_TD m + heave_j)%float in
  if negb (Py.le (q_MinEchoDepthM p) depth_here && Py.le depth_here (q_MaxEchoDepthM p))
  then Ok (keep, None) else
  let keep := keep ++ [k] in
  let r_seg := filter Py.isfinite (py_slice (Z.of_nat i0) (Z.of_nat i1 + 1) rcol) in
  match r_seg with
  | [] => Ok (keep, None)
  | _ =>
      Ok (keep,
          Some (mk_peak tsk (nth k zTSU nan) (nth k rcol nan)
                        (fmin_list r_seg) (fmax_list r_seg)
                        (Z.of_nat k - Z.of_nat i0) (Z.of_nat i1 - Z.of_nat k) plen))
  end.

(** The appends of [detect_matecho]: every list of the structure. *)
Definition append_matecho (m : matecho_ctx) (times : list Z) (out : st_struct)
           (row ping : Z) (h : peak) : st_struct :=
  let j := Z.to_nat ping in
  mk_st_struct
    (TS_comp out ++ [pk_TS_comp h])
    (TS_uncomp out ++ [pk_TS_uncomp h])
    (Target_range out ++ [pk_r_peak h])
    (Target_range_disp out ++ [(pk_r_peak h + q_SoundSpeed (m_p m) * m_T m / 4)%float])
    (Target_range_min out ++ [pk_r_min h])
    (Target_range_max out ++ [pk_r_max h])
    (idx_r out ++ [row])
    (StandDev_Angles_Minor_Axis out ++ [nan])
    (StandDev_Angles_Major_Axis out ++ [nan])
    (Angle_minor_axis out ++ [nan])
    (Angle_major_axis out ++ [nan])
    (Ping_number out ++ [ping])
    (Time out ++ [nth j times 0])
    (nb_valid_targets out)
    (idx_target_lin out ++ [ping * m_nb_samples_tot m + row])
    (pulse_env_before_lin out ++ [pk_left h])
    (pulse_env_after_lin out ++ [pk_right h])
    (PulseLength_Normalized_PLDL out
       ++ [(Py.float_of_Z (pk_plen h) / Py.float_of_Z (m_NechP m))%float])
    (Transmitted_pulse_length out ++ [pk_plen h])
    (Heave out ++ [nth j (m_heave m) nan])
    (Roll out ++ [nth j (m_roll m) nan])
    (Pitch out ++ [nth j (m_pitch m) nan])
    (Heading out ++ [nth j (m_heading m) nan])
    (Dist out ++ [nth j (m_dist m) nan]).

(** [for k in loc]: the candidates of one ping, left to right. *)
Fixpoint matecho_scan (m : matecho_ctx) (times : list Z) (rows : list nat) (ping : nat)
         (zP zTS zTSU rcol : list float) (loc keep : list nat) (out : st_struct)
  : result (list nat * st_struct) :=
  match loc with
  | [] => Ok (keep, out)
  | k :: rest =>
      r <- matecho_candidate m zP zTS zTSU rcol (nth ping (m_heave m) nan) keep k ;;
      matecho_scan m times rows ping zP zTS zTSU rcol rest (fst r)
        (match snd r with
         | Some h => append_matecho m times out (Z.of_nat (nth k rows 0%nat))
                       (Z.of_nat ping) h
         | None => out
         end)
  end.

(** Cells of the block matrices at global row [r] of ping [ip]. *)
Definition cell_r_eff (m : matecho_ctx) (r : nat) : float :=
  Py.maximum (nth r (m_ts_range m) nan) 1e-6.

Definition cell_tsu (m : matecho_ctx) (ds : Dataset) (ip r : nat) : float :=
  (nth r (column (Sv ds) ip) nan + 20 * log10 (cell_r_eff m r) + m_sv2ts m)%float.

Definition cell_Plike (m : matecho_ctx) (ds : Dataset) (ip r : nat) : float :=
  (cell_tsu m ds ip r - 40 * log10 (cell_r_eff m r)
   - 2 * m_alpha m * nth r (m_ts_range m) nan)%float.

Definition one_way_comp (m : matecho_ctx) (ds : Dataset) (ip r : nat) : float :=
  match angle_alongship ds, angle_athwartship ds with
  | Some along, Some athwt =>
      let p := m_p m in
      let x := (2 * ((nth r (column along ip) nan - q_steer_along_rad p)
                     / q_beamwidth_along_3dB_rad p))%float in
      let y := (2 * ((nth r (column athwt ip) nan - q_steer_athwart_rad p)
                     / q_beamwidth_athwart_3dB_rad p))%float in
      (6.0206 * ((x * x + y * y) - (0.18 * (x * x)) * (y * y)))%float
  | _, _ => 0%float
  end.

Definition cell_ts (m : matecho_ctx) (ds : Dataset) (ip r : nat) : float :=
  (cell_tsu m ds ip r + one_way_comp m ds ip r)%float.

(** [R = (Depth - (TD + heave)).clip(min=0.0)] *)
Definition cell_R (m : matecho_ctx) (ds : Dataset) (ip r : nat) : float :=
  Py.clip_min 0 (nth r (column (depth ds) ip) nan
                 - (m_TD m + nth ip (m_heave m) nan))%float.

(** [mask |= DEPblk >= bcol] *)
Definition under_bottom (ds : Dataset) (bb : option (list float)) (ip r : nat) : bool :=
  match bottom_at bb ip with
  | Some b => Py.ge (nth r (column (depth ds) ip) nan) b
  | None => false
  end.

(** A column of a block matrix with [x[mask] = np.nan] applied. *)
Definition masked_column (cell : nat -> nat -> float) (ds : Dataset)
           (bb : option (list float)) (rows : list nat) (ip : nat) : list float :=
  map (fun r => if under_bottom ds bb ip r then nan else cell ip r) rows.

(** Per-ping detection of one column [j] of a block. *)
Definition matecho_ping (m : matecho_ctx) (ds : Dataset) (bb : option (list float))
           (rows : list nat) (out : st_struct) (ip : nat) : result st_struct :=
  let zP := masked_column (cell_Plike m ds) ds bb rows ip in
  let zTS := masked_column (cell_ts m ds) ds bb rows ip in
  let zTSU := masked_column (cell_tsu m ds) ds bb rows ip in
  let rcol := map (cell_R m ds ip) rows in
  if negb (existsb Py.isfinite zP) then Ok out
  else
    r <- matecho_scan m (ping_time ds) rows ip zP zTS zTSU rcol
           (local_maxima (matecho_valid zP) zP) [] out ;;
    Ok (snd r).

(** A [for] loop whose body can raise. *)
Fixpoint for_each {A S : Type} (body : S -> A -> result S) (l : list A) (s : S) : result S :=
  match l with
  | [] => Ok s
  | a :: l' => s' <- body s a ;; for_each body l' s'
  end.

Definition matecho_block (m : matecho_ctx) (ds : Dataset) (bb : option (list float))
           (idx_r_tot : list nat) (out : st_struct) (idx_pings : list nat)
  : result st_struct :=
  let rows := block_rows ds bb idx_r_tot idx_pings in
  for_each (matecho_ping m ds bb rows) idx_pings out.

(** [dstep] of [detect_matecho]: the median step of ping 0, NaN when it is
    not finite; no ping at all is an [IndexError]. *)
Definition matecho_dstep (ds : Dataset) : result float :=
  match depth ds with
  | [] => Raise (IndexError "index 0 is out of bounds for axis 0 with size 0")
  | d0 :: _ =>
      let v := Py.nanmedian (Py.diff d0) in
      Ok (if Py.isfinite v then v else nan)
  end.

(** [max(3, int(round(T / max(dt, 1e-6))))] *)
Definition samples_per_pulse (T dt : float) : result Z :=
  q <- Py.div T (Py.max dt 1e-6) ;;
  r <- Py.round q ;;
  Ok (Z.max 3 r).

Record matecho_plan : Type := mk_matecho_plan {
  mplan_ctx : matecho_ctx;
  mplan_bb : option (list float);
  mplan_idx_r_tot : list nat;
  mplan_block_size : Z;
  mplan_num_ite : Z
}.

Definition matecho_prepare (ds : Dataset) (params : option Params) : result matecho_plan :=
  match params with
  | None => Raise (ValueError "params is required.")
  | Some params =>
      match channel params with
      | None => Raise (ValueError "params['channel'] is required.")
      | Some _ =>
          let bottom := bottom_da params in
          let p := merge_matecho_defaults params in
          let c := q_SoundSpeed p in
          let heading := nav_field ds ["heading"; "Heading"]%string in
          let pitch := nav_field ds ["pitch"; "Pitch"]%string in
          let roll := nav_field ds ["roll"; "Roll"]%string in
          let heave := nav_field ds ["heave"; "Heave"; "vertical_offset"]%string in
          let dist := nav_field ds ["dist"; "Dist"; "distance"]%string in
          let alpha := merged (sound_absorption ds) 0%float in
          let TD := merged (transducer_depth ds) 0%float in
          dstep <- matecho_dstep ds ;;
          dt <- (if Py.gt dstep 0 then Py.div (2 * dstep) c else Ok 1e-4%float) ;;
          let T := merged (q_pulse_length p) 1e-3%float in
          _ <- match q_Np p with
               | Some n => if n >? 2 then Ok n else samples_per_pulse T dt
               | None => samples_per_pulse T dt
               end ;;
          let sv2ts := (10 * log10 (c * T / 2) + q_psi_two_way p
                        + 2 * q_Sa_correction p + 2 * q_Sa_EK80_nominal p)%float in
          let nb_pings_tot := ping_size ds in
          let nb_samples_tot := Z.of_nat (range_sample_size ds) in
          idx_r_tot <- idx_r_tot_of ds bottom ;;
          block_size <- block_size_of (q_block_len p)
                          (Z.of_nat (List.length idx_r_tot)) nb_pings_tot ;;
          let num_ite := num_ite_matecho nb_pings_tot block_size in
          let ind_range0 := q_tvg_start_sample p in
          let ts_range :=
            map (fun i => Py.maximum dstep (Py.float_of_Z (i - ind_range0) * dstep)%float)
                (range nb_samples_tot) in
          NechP <- samples_per_pulse T dt ;;
          Ok (mk_matecho_plan
                (mk_matecho_ctx p T alpha TD sv2ts NechP nb_samples_tot ts_range
                                heading pitch roll heave dist)
                bottom idx_r_tot block_size num_ite)
      end
  end.

Definition matecho_run (ds : Dataset) (pl : matecho_plan) : result st_struct :=
  for_each (matecho_block (mplan_ctx pl) ds (mplan_bb pl) (mplan_idx_r_tot pl))
           (blocks (ping_size ds) (mplan_block_size pl) (mplan_num_ite pl))
           init_st_struct.

Definition detect_matecho (ds : Dataset) (params : option Params) : result st_struct :=
  pl <- matecho_prepare ds params ;;
  out <- matecho_run ds pl ;;
  Ok (finalize out).

(** ** The detections of a run as one list

    The source keeps a structure of parallel lists.  For the proofs the same
    run is also described by the list of its accepted peaks, in the order
    they are appended; [esp3_run] and [matecho_run] are shown to append
    exactly these. *)

Record hit : Type := mk_hit {
  hit_ping : nat;     (* idx_pings[j] *)
  hit_k : nat;        (* position of the peak in the block column *)
  hit_row : Z;        (* idx_r[k] *)
  hit_peak : peak
}.

Definition record_esp3 (x : esp3_ctx) (times : list Z) (out : st_struct) (h : hit)
  : st_struct :=
  append_esp3 x times out (hit_row h) (Z.of_nat (hit_ping h)) (hit_peak h).

Definition record_matecho (m : matecho_ctx) (times : list Z) (out : st_struct) (h : hit)
  : st_struct :=
  append_matecho m times out (hit_row h) (Z.of_nat (hit_ping h)) (hit_peak h).

Definition esp3_ping_hits (x : esp3_ctx) (rows : list nat) (ping : nat)
           (z d : list float) : list hit :=
  if (List.length z <? 3)%nat then []
  else
    flat_map
      (fun k =>
         match esp3_peak x z d k with
         | Some h => [mk_hit ping k (Z.of_nat (nth k rows 0%nat)) h]
         | None => []
         end)
      (esp3_keep x z).

Definition esp3_block_hits (x : esp3_ctx) (ds : Dataset) (bb : option (list float))
           (idx_r_tot idx_pings : list nat) : list hit :=
  let rows := block_rows ds bb idx_r_tot idx_pings in
  let TS := esp3_TS ds bb rows idx_pings in
  let DEP := esp3_DEP ds rows idx_pings in
  if negb (existsb (existsb (fun v => Py.gt v (-999))) TS) then []
  else
    let last_row := fold_left Nat.max (valid_rows TS (List.length rows)) 0%nat in
    flat_map
      (fun pzd =>
         esp3_ping_hits x (firstn (S last_row) rows) (fst pzd) (fst (snd pzd)) (snd (snd pzd)))
      (combine idx_pings
               (combine (map (firstn (S last_row)) TS) (map (firstn (S last_row)) DEP))).

Definition esp3_hits (ds : Dataset) (pl : esp3_plan) : list hit :=
  flat_map (esp3_block_hits (plan_ctx pl) ds (plan_bb pl) (plan_idx_r_tot pl))
           (blocks (ping_size ds) (plan_block_size pl) (plan_num_ite pl)).

Fixpoint matecho_scan_hits (m : matecho_ctx) (rows : list nat) (ping : nat)
         (zP zTS zTSU rcol : list float) (loc keep : list nat)
  : result (list nat * list hit) :=
  match loc with
  | [] => Ok (keep, [])
  | k :: rest =>
      r <- matecho_candidate m zP zTS zTSU rcol (nth ping (m_heave m) nan) keep k ;;
      r' <- matecho_scan_hits m rows ping zP zTS zTSU rcol rest (fst r) ;;
      Ok (fst r',
          match snd r with
          | Some h => mk_hit ping k (Z.of_nat (nth k rows 0%nat)) h :: snd r'
          | None => snd r'
          end)
  end.

Definition matecho_ping_hits (m : matecho_ctx) (ds : Dataset) (bb : option (list float))
           (rows : list nat) (ip : nat) : result (list hit) :=
  let zP := masked_column (cell_Plike m ds) ds bb rows ip in
  let zTS := masked_column (cell_ts m ds) ds bb rows ip in
  let zTSU := masked_column (cell_tsu m ds) ds bb rows ip in
  let rcol := map (cell_R m ds ip) rows in
  if negb (existsb Py.isfinite zP) then Ok []
  else
    r <- matecho_scan_hits m rows ip zP zTS zTSU rcol
           (local_maxima (matecho_valid zP) zP) [] ;;
    Ok (snd r).

(** The lists a raising loop body yields, one after the other. *)
Fixpoint collect {A B : Type} (f : A -> result (list B)) (l : list A) : result (list B) :=
  match l with
  | [] => Ok []
  | a :: l' => hs <- f a ;; hs' <- collect f l' ;; Ok (hs ++ hs')
  end.

Definition matecho_block_hits (m : matecho_ctx) (ds : Dataset) (bb : option (list float))
           (idx_r_tot idx_pings : list nat) : result (list hit) :=
  collect (matecho_ping_hits m ds bb (block_rows ds bb idx_r_tot idx_pings)) idx_pings.

Definition matecho_hits (ds : Dataset) (pl : matecho_plan) : result (list hit) :=
  collect (matecho_block_hits (mplan_ctx pl) ds (mplan_bb pl) (mplan_idx_r_tot pl))
          (blocks (ping_size ds) (mplan_block_size pl) (mplan_num_ite pl)).

End Detectors.

(** ** Proof devices *)

(** A key that orders the numbers among the floats: the sign class, then
    exponent and mantissa.  [SFcompare] on two numbers is the lexicographic
    comparison of their keys. *)
Definition SFkey (x : spec_float) : Z * Z * Z :=
  match x with
  | S754_nan => (0, 0, 0)
  | S754_infinity true => (-2, 0, 0)
  | S754_infinity false => (2, 0, 0)
  | S754_zero _ => (0, 0, 0)
  | S754_finite true m e => (-1, - e, Z.neg m)
  | S754_finite false m e => (1, e, Z.pos m)
  end.

Definition lex3 (a b : Z * Z * Z) : comparison :=
  let '(a1, a2, a3) := a in
  let '(b1, b2, b3) := b in
  match a1 ?= b1 with
  | Eq => match a2 ?= b2 with Eq => a3 ?= b3 | c => c end
  | c => c
  end.

(** The lengths of the per-detection lists of the structure: the sixteen
    lists both detectors append to, and the seven (angles at the peak and
    navigation) that only [detect_matecho] appends to. *)
Definition lengths_common (out : st_struct) : list nat :=
  [ List.length (TS_comp out); List.length (TS_uncomp out);
    List.length (Target_range out); List.length (Target_range_disp out);
    List.length (Target_range_min out); List.length (Target_range_max out);
    List.length (idx_r out);
    List.length (StandDev_Angles_Minor_Axis out);
    List.length (StandDev_Angles_Major_Axis out);
    List.length (Ping_number out); List.length (Time out);
    List.length (idx_target_lin out);
    List.length (pulse_env_before_lin out); List.length (pulse_env_after_lin out);
    List.length (PulseLength_Normalized_PLDL out);
    List.length (Transmitted_pulse_length out) ].

Definition lengths_angle_nav (out : st_struct) : list nat :=
  [ List.length (Angle_minor_axis out); List.length (Angle_major_axis out);
    List.length (Heave out); List.length (Roll out); List.length (Pitch out);
    List.length (Heading out); List.length (Dist out) ].

Definition lengths_all (out : st_struct) : list nat :=
  lengths_common out ++ lengths_angle_nav out.

(** Two peak positions of one ping of [detect_matecho] respect the minimum
    spacing: [round(MinEchoSpace * NechP)] is defined and does not exceed
    their distance. *)
Definition spaced (m : matecho_ctx) (a b : nat) : Prop :=
  exists sp,
    Py.round (q_MinEchoSpace (m_p m) * Py.float_of_Z (m_NechP m))%float = Ok sp
    /\ sp <= Z.abs (Z.of_nat a - Z.of_nat b).

(** The data-model invariant of a depth column: depth strictly increases
    with the sample index. *)
Fixpoint strictly_increasing (l : list float) : bool :=
  match l with
  | a :: ((b :: _) as t) => Py.lt a b && strictly_increasing t
  | _ => true
  end.

(** [NechP], the samples per pulse of [detect_matecho], from the dataset and
    the merged dict: [max(3, int(round(T / max(dt, 1e-6))))] with [dt] from
    the median depth step of ping 0. *)
Definition matecho_NechP (ds : Dataset) (p : matecho_p) : result Z :=
  dstep <- matecho_dstep ds ;;
  dt <- (if Py.gt dstep 0 then Py.div (2 * dstep) (q_SoundSpeed p) else Ok 1e-4%float) ;;
  samples_per_pulse (merged (q_pulse_length p) 1e-3%float) dt.

(** A cell of the block matrix [TS] of [detect_esp3] once [TS[mask] = -999.0]
    has been applied: the mask is the under-bottom mask. *)
Definition esp3_cell (ds : Dataset) (bb : option (list float)) (ip r : nat) : float :=
  if under_bottom ds bb ip r then (-999)%float else nth r (column (Sv ds) ip) nan.

(** A cell of a block matrix of [detect_matecho] once [x[mask] = np.nan] has
    been applied. *)
Definition matecho_cell (cell : nat -> nat -> float) (ds : Dataset)
           (bb : option (list float)) (ip r : nat) : float :=
  if under_bottom ds bb ip r then nan else cell ip r.

(** The caller's dict with the key [Np] set, or removed. *)
Definition set_Np (n : option Z) (p : Params) : Params :=
  mkParams (channel p) (bottom_da p) (SoundSpeed p) (TS_threshold p) (PLDL p) (MinNormPL p)
           (MaxNormPL p) (DataType p) (block_len p) n (pulse_length p)
           (MaxAngleOneWayCompression p) (MinEchoLength p) (MaxEchoLength p)
           (MinEchoSpace p) (MinEchoDepthM p) (MaxEchoDepthM p) (tvg_start_sample p)
           (beamwidth_along_3dB_rad p) (beamwidth_athwart_3dB_rad p) (steer_along_rad p)
           (steer_athwart_rad p) (psi_two_way p) (Sa_correction p) (Sa_EK80_nominal p).

(** The order in which the loops visit the cells: ping after ping, and down
    the column within a ping. *)
Definition visited_before (ping1 row1 ping2 row2 : Z) : Prop :=
  ping1 < ping2 \/ (ping1 = ping2 /\ row1 < row2).

(** The same order on the detections of a run. *)
Definition hit_before (h1 h2 : hit) : Prop :=
  (hit_ping h1 < hit_ping h2)%nat
  \/ (hit_ping h1 = hit_ping h2 /\ (hit_k h1 < hit_k h2)%nat).

(** The caller's dict with the key [block_len] set, or removed. *)
Definition set_block_len (b : option float) (p : Params) : Params :=
  mkParams (channel p) (bottom_da p) (SoundSpeed p) (TS_threshold p) (PLDL p) (MinNormPL p)
           (MaxNormPL p) (DataType p) b (Np p) (pulse_length p)
           (MaxAngleOneWayCompression p) (MinEchoLength p) (MaxEchoLength p)
           (MinEchoSpace p) (MinEchoDepthM p) (MaxEchoDepthM p) (tvg_start_sample p)
           (beamwidth_along_3dB_rad p) (beamwidth_athwart_3dB_rad p) (steer_along_rad p)
           (steer_athwart_rad p) (psi_two_way p) (Sa_correction p) (Sa_EK80_nominal p).

(** The constants of a run of [detect_matecho] without the two keys the
    per-ping detection never reads: [block_len] and [Np]. *)
Definition without_blocking (m : matecho_ctx) : matecho_ctx :=
  let p := m_p m in
  mk_matecho_ctx
    (mk_matecho_p
       (q_SoundSpeed p) (q_TS_threshold p) (q_MaxAngleOneWayCompression p)
       (q_MinEchoLength p) (q_MaxEchoLength p) (q_MinEchoSpace p) (q_MinEchoDepthM p)
       (q_MaxEchoDepthM p) (q_tvg_start_sample p) 0%float
       (q_beamwidth_along_3dB_rad p) (q_beamwidth_athwart_3dB_rad p)
       (q_steer_along_rad p) (q_steer_athwart_rad p) (q_psi_two_way p)
       (q_Sa_correction p) (q_Sa_EK80_nominal p) None (q_pulse_length p))
    (m_T m) (m_alpha m) (m_TD m) (m_sv2ts m) (m_NechP m) (m_nb_samples_tot m)
    (m_ts_range m) (m_heading m) (m_pitch m) (m_roll m) (m_heave m) (m_dist m).

(** A float that is a number: zero or finite. *)
Definition SFfinite (x : spec_float) : bool :=
  match x with
  | S754_zero _ | S754_finite _ _ _ => true
  | _ => false
  end.

(** A cell of the matrix [Plike] of [detect_matecho] before the mask, from
    the dataset and the merged dict: [tsu - 40 log10(r_eff) - 2 alpha r] with
    [tsu = Sv + 20 log10(r_eff) + sv2ts]; [dstep] is the depth step. *)
Definition Plike_cell (log10 : float -> float) (ds : Dataset) (p : matecho_p)
           (dstep : float) (ip r : nat) : float :=
  let T := merged (q_pulse_length p) 1e-3%float in
  let alpha := merged (sound_absorption ds) 0%float in
  let sv2ts := (10 * log10 (q_SoundSpeed p * T / 2) + q_psi_two_way p
                + 2 * q_Sa_correction p + 2 * q_Sa_EK80_nominal p)%float in
  let ts_range :=
    Py.maximum dstep (Py.float_of_Z (Z.of_nat r - q_tvg_start_sample p) * dstep)%float in
  let r_eff := Py.maximum ts_range 1e-6 in
  let tsu := (nth r (column (Sv ds) ip) nan + 20 * log10 r_eff + sv2ts)%float in
  (tsu - 40 * log10 r_eff - 2 * alpha * ts_range)%float.

(** The caller's dict with the key [bottom_da] set, or removed. *)
Definition set_bottom_da (b : option (list float)) (p : Params) : Params :=
  mkParams (channel p) b (SoundSpeed p) (TS_threshold p) (PLDL p) (MinNormPL p)
           (MaxNormPL p) (DataType p) (block_len p) (Np p) (pulse_length p)
           (MaxAngleOneWayCompression p) (MinEchoLength p) (MaxEchoLength p)
           (MinEchoSpace p) (MinEchoDepthM p) (MaxEchoDepthM p) (tvg_start_sample p)
           (beamwidth_along_3dB_rad p) (beamwidth_athwart_3dB_rad p) (steer_along_rad p)
           (steer_athwart_rad p) (psi_two_way p) (Sa_correction p) (Sa_EK80_nominal p).

(** The candidates of one ping of [detect_esp3] that reach the appends: the
    peaks kept by the separation filter on which no test of the loop body
    says [continue]; none on a column of less than three samples. *)
Definition esp3_accepted (log10 : float -> float) (x : esp3_ctx) (z d : list float)
  : list nat :=
  if (List.length z <? 3)%nat then []
  else
    filter (fun k => match esp3_peak log10 x z d k with Some _ => true | None => false end)
           (esp3_keep x z).

(** A time coordinate whose labels strictly increase, the coordinate
    [reindex(method="nearest")] is modelled on. *)
Fixpoint increasing_times (coord : list Z) : bool :=
  match coord with
  | [] => true
  | s :: rest =>
      match rest with
      | [] => true
      | s' :: _ => (s <? s') && increasing_times rest
      end
  end.

(** ** Concrete data for the examples *)

Module Sample.

(** A dict with only the channel selector, and ways to add a key. *)
Definition only_channel : Params :=
  mkParams (Some "38kHz"%string) None None None None None None None None None None None None
           None None None None None None None None None None None None.

Definition with_bottom_da (b : list float) (p : Params) : Params :=
  mkParams (channel p) (Some b) (SoundSpeed p) (TS_threshold p) (PLDL p) (MinNormPL p)
           (MaxNormPL p) (DataType p) (block_len p) (Np p) (pulse_length p)
           (MaxAngleOneWayCompression p) (MinEchoLength p) (MaxEchoLength p)
           (MinEchoSpace p) (MinEchoDepthM p) (MaxEchoDepthM p) (tvg_start_sample p)
           (beamwidth_along_3dB_rad p) (beamwidth_athwart_3dB_rad p) (steer_along_rad p)
           (steer_athwart_rad p) (psi_two_way p) (Sa_correction p) (Sa_EK80_nominal p).

Definition with_SoundSpeed (c : float) (p : Params) : Params :=
  mkParams (channel p) (bottom_da p) (Some c) (TS_threshold p) (PLDL p) (MinNormPL p)
           (MaxNormPL p) (DataType p) (block_len p) (Np p) (pulse_length p)
           (MaxAngleOneWayCompression p) (MinEchoLength p) (MaxEchoLength p)
           (MinEchoSpace p) (MinEchoDepthM p) (MaxEchoDepthM p) (tvg_start_sample p)
           (beamwidth_along_3dB_rad p) (beamwidth_athwart_3dB_rad p) (steer_along_rad p)
           (steer_athwart_rad p) (psi_two_way p) (Sa_correction p) (Sa_EK80_nominal p).

Definition with_TS_threshold (t : float) (p : Params) : Params :=
  mkParams (channel p) (bottom_da p) (SoundSpeed p) (Some t) (PLDL p) (MinNormPL p)
           (MaxNormPL p) (DataType p) (block_len p) (Np p) (pulse_length p)
           (MaxAngleOneWayCompression p) (MinEchoLength p) (MaxEchoLength p)
           (MinEchoSpace p) (MinEchoDepthM p) (MaxEchoDepthM p) (tvg_start_sample p)
           (beamwidth_along_3dB_rad p) (beamwidth_athwart_3dB_rad p) (steer_along_rad p)
           (steer_athwart_rad p) (psi_two_way p) (Sa_correction p) (Sa_EK80_nominal p).

Definition with_block_len (b : float) (p : Params) : Params :=
  mkParams (channel p) (bottom_da p) (SoundSpeed p) (TS_threshold p) (PLDL p) (MinNormPL p)
           (MaxNormPL p) (DataType p) (Some b) (Np p) (pulse_length p)
           (MaxAngleOneWayCompression p) (MinEchoLength p) (MaxEchoLength p)
           (MinEchoSpace p) (MinEchoDepthM p) (MaxEchoDepthM p) (tvg_start_sample p)
           (beamwidth_along_3dB_rad p) (beamwidth_athwart_3dB_rad p) (steer_along_rad p)
           (steer_athwart_rad p) (psi_two_way p) (Sa_correction p) (Sa_EK80_nominal p).

Definition with_Np (n : Z) (p : Params) : Params :=
  mkParams (channel p) (bottom_da p) (SoundSpeed p) (TS_threshold p) (PLDL p) (MinNormPL p)
           (MaxNormPL p) (DataType p) (block_len p) (Some n) (pulse_length p)
           (MaxAngleOneWayCompression p) (MinEchoLength p) (MaxEchoLength p)
           (MinEchoSpace p) (MinEchoDepthM p) (MaxEchoDepthM p) (tvg_start_sample p)
           (beamwidth_along_3dB_rad p) (beamwidth_athwart_3dB_rad p) (steer_along_rad p)
           (steer_athwart_rad p) (psi_two_way p) (Sa_correction p) (Sa_EK80_nominal p).

Definition with_MinEchoSpace (s : float) (p : Params) : Params :=
  mkParams (channel p) (bottom_da p) (SoundSpeed p) (TS_threshold p) (PLDL p) (MinNormPL p)
           (MaxNormPL p) (DataType p) (block_len p) (Np p) (pulse_length p)
           (MaxAngleOneWayCompression p) (MinEchoLength p) (MaxEchoLength p)
           (Some s) (MinEchoDepthM p) (MaxEchoDepthM p) (tvg_start_sample p)
           (beamwidth_along_3dB_rad p) (beamwidth_athwart_3dB_rad p) (steer_along_rad p)
           (steer_athwart_rad p) (psi_two_way p) (Sa_correction p) (Sa_EK80_nominal p).

Definition with_MaxEchoDepthM (d : float) (p : Params) : Params :=
  mkParams (channel p) (bottom_da p) (SoundSpeed p) (TS_threshold p) (PLDL p) (MinNormPL p)
           (MaxNormPL p) (DataType p) (block_len p) (Np p) (pulse_length p)
           (MaxAngleOneWayCompression p) (MinEchoLength p) (MaxEchoLength p)
           (MinEchoSpace p) (MinEchoDepthM p) (Some d) (tvg_start_sample p)
           (beamwidth_along_3dB_rad p) (beamwidth_athwart_3dB_rad p) (steer_along_rad p)
           (steer_athwart_rad p) (psi_two_way p) (Sa_correction p) (Sa_EK80_nominal p).

Definition with_tvg_start_sample (n : Z) (p : Params) : Params :=
  mkParams (channel p) (bottom_da p) (SoundSpeed p) (TS_threshold p) (PLDL p) (MinNormPL p)
           (MaxNormPL p) (DataType p) (block_len p) (Np p) (pulse_length p)
           (MaxAngleOneWayCompression p) (MinEchoLength p) (MaxEchoLength p)
           (MinEchoSpace p) (MinEchoDepthM p) (MaxEchoDepthM p) (Some n)
           (beamwidth_along_3dB_rad p) (beamwidth_athwart_3dB_rad p) (steer_along_rad p)
           (steer_athwart_rad p) (psi_two_way p) (Sa_correction p) (Sa_EK80_nominal p).

(** A column that is [base] everywhere except at the listed samples. *)
Definition column_of (n : nat) (base : float) (at_samples : list nat)
           (vals : list float) : list float :=
  map (fun i => match find (fun kv => Nat.eqb (fst kv) i) (combine at_samples vals) with
                | Some kv => snd kv
                | None => base
                end)
      (seq 0 n).

(** Depth [1, 2, ..., n] in metres. *)
Definition ramp (n : nat) : list float :=
  map (fun i => Py.float_of_Z (Z.of_nat i + 1)) (seq 0 n).

(** One ping of 50 samples with a single echo of -30 dB at sample 25. *)
Definition echo25 : list float :=
  column_of 50 (-70) [22; 23; 24; 25; 26; 27; 28]%nat [-45; -35; -32; -30; -32; -35; -45]%float.

Definition one_ping : Dataset :=
  mkDataset [echo25] [ramp 50] 50 [0] None None None None [].

Definition Np5 : Params := with_Np 5 only_channel.

(** One ping with an echo three samples wide. *)
Definition narrow_echo : Dataset :=
  mkDataset [column_of 50 (-70) [24; 25; 26]%nat [-32; -30; -32]%float] [ramp 50] 50 [0]
            None None None None [].

(** One ping with echoes at samples 25 and 40, and a bottom line at 30.5 m:
    the first sample at or under the bottom is sample 30 (depth 31 m). *)
Definition two_echoes : Dataset :=
  mkDataset [column_of 50 (-70) [24; 25; 26; 39; 40; 41]%nat
                       [-32; -30; -32; -32; -30; -32]%float]
            [ramp 50] 50 [0] None None None None [].

Definition bottom_30_5 : Params := with_bottom_da [30.5%float] Np5.

(** One ping with echoes at samples 15 and 25. *)
Definition shallow_echoes : Dataset :=
  mkDataset [column_of 50 (-70) [14; 15; 16; 24; 25; 26]%nat
                       [-32; -30; -32; -32; -30; -32]%float]
            [ramp 50] 50 [0] None None None None [].

(** One ping with two maxima three samples apart, at samples 25 and 28. *)
Definition close_maxima : Dataset :=
  mkDataset [column_of 50 (-70) [24; 25; 26; 27; 28; 29]%nat
                       [-32; -30; -33; -33; -30; -32]%float]
            [ramp 50] 50 [0] None None None None [].

(** A threshold outside [-120, -20] dB. *)
Definition threshold_minus_10 : Params := with_TS_threshold (-10) Np5.

(** One ping at time 0 and a [roll] variable whose only sample is 2 s
    later, on its own time axis. *)
Definition late_roll : Dataset :=
  mkDataset [echo25] [ramp 50] 50 [0] None None None None
            [("roll"%string, mkDataArray ["time1"%string] [2000000000] [4.5%float])].

(** The same ping in a dataset whose absorption coefficient is NaN. *)
Definition nan_absorption : Dataset :=
  mkDataset [echo25] [ramp 50] 50 [0] None None (Some nan) None [].

(** A ping whose depth is infinite at samples 11 to 13, with echoes at
    samples 12 and 20.  With a sound speed of 2000 m/s and the gain start
    beyond the last sample, every range of the gain terms is exactly 1, so
    [log10] is only ever taken of 1. *)
Definition infinite_depth : Dataset :=
  mkDataset [column_of 30 (-100) [11; 12; 13; 19; 20; 21]%nat
                       [-45; -40; -45; -45; -40; -45]%float]
            [map (fun i => if ((11 <=? i) && (i <=? 13))%nat then infinity
                           else Py.float_of_Z (Z.of_nat i + 1)) (seq 0 30)]
            30 [0] None None None None [].

Definition no_depth_limit : Params :=
  with_tvg_start_sample 100
    (with_MaxEchoDepthM infinity (with_MinEchoSpace 3 (with_SoundSpeed 2000 only_channel))).

(** Two pings one second apart: echoes at samples 15 and 25 in the first,
    at sample 25 in the second. *)
Definition two_pings : Dataset :=
  mkDataset [column_of 50 (-70) [14; 15; 16; 24; 25; 26]%nat
                       [-32; -30; -32; -32; -30; -32]%float;
             echo25]
            [ramp 50; ramp 50] 50 [0; 1000000000] None None None None [].

(** The ping of [one_ping] in a split-beam dataset: both angles are 0.02 rad
    at every sample. *)
Definition split_beam : Dataset :=
  mkDataset [echo25] [ramp 50] 50 [0]
            (Some [repeat 0.02%float 50]) (Some [repeat 0.02%float 50]) None None [].

(** Two pings with a [roll] variable on the ping times and a [heave]
    variable without a time dimension. *)
Definition with_motion : Dataset :=
  mkDataset (Sv two_pings) (depth two_pings) 50 [0; 1000000000] None None None None
            [("roll"%string, mkDataArray ["ping_time"%string] [0; 1000000000]
                                         [1.5%float; (-2.5)%float]);
             ("heave"%string, mkDataArray ["ping"%string] [] [0.25%float; 0.5%float])].

(** One ping of twelve samples at -70 dB throughout, below the default
    threshold, and one whose signal is NaN throughout. *)
Definition quiet : Dataset :=
  mkDataset [repeat (-70)%float 12] [ramp 12] 12 [0] None None None None [].

Definition blank : Dataset :=
  mkDataset [repeat nan 12] [ramp 12] 12 [0] None None None None [].

(** Constants of a run of [detect_matecho] with the default parameters, four
    samples per pulse and one ping at rest. *)
Definition matecho_constants : matecho_ctx :=
  mk_matecho_ctx (merge_matecho_defaults Np5) 1e-3%float 0 0 0 4 50 (ramp 50)
                 [0%float] [0%float] [0%float] [0%float] [0%float].

End Sample.

(** * Properties *)

(** ** The order of floats *)

Lemma SFcompare_refl (x : spec_float) : x <> S754_nan -> SFcompare x x = Some Eq.
Proof.
  destruct x as [s|s| |s m e]; simpl; intros H; try congruence.
  - destruct s; reflexivity.
  - rewrite Z.compare_refl. 
    change (Pos.compare_cont Eq m m) with (Pos.compare m m).
    rewrite Pos.compare_refl. destruct s; reflexivity.
Qed.

Lemma SFcompare_swap (x y : spec_float) :
  SFcompare y x = option_map CompOpp (SFcompare x y).
Proof.
  destruct x as [sx|sx| |sx mx ex], y as [sy|sy| |sy my ey]; simpl;
    try reflexivity; try (destruct sx; reflexivity); try (destruct sy; reflexivity);
    try (destruct sx, sy; reflexivity).
  change (Pos.compare_cont Eq my mx) with (Pos.compare my mx).
  change (Pos.compare_cont Eq mx my) with (Pos.compare mx my).
  rewrite (Z.compare_antisym ex ey), (Pos.compare_antisym mx my).
  destruct sx, sy; simpl; try reflexivity;
    destruct (ex ?= ey); simpl; try reflexivity;
    destruct (mx ?= my)%positive; reflexivity.
Qed.

Lemma SFleb_false_ltb (x y : spec_float) :
  x <> S754_nan -> y <> S754_nan -> SFleb x y = false -> SFltb y x = true.
Proof.
  intros Hx Hy. unfold SFleb, SFltb. rewrite (SFcompare_swap x y).
  destruct (SFcompare x y) as [[ | | ]|] eqn:E; simpl; try congruence.
  destruct x, y; simpl in E; congruence.
Qed.

Lemma SFcompare_key (x y : spec_float) :
  x <> S754_nan -> y <> S754_nan -> SFcompare x y = Some (lex3 (SFkey x) (SFkey y)).
Proof.
  intros Hx Hy.
  destruct x as [sx|sx| |sx mx ex], y as [sy|sy| |sy my ey]; try congruence;
    try (destruct sx; reflexivity); try (destruct sy; reflexivity);
    try (destruct sx, sy; reflexivity).
  simpl SFcompare. change (Pos.compare_cont Eq mx my) with (Pos.compare mx my).
  destruct sx, sy; simpl; try reflexivity.
  destruct (Z.compare_spec ex ey), (Z.compare_spec (- ex) (- ey)); try lia; reflexivity.
Qed.

Lemma lex3_le_lt_trans (a b c : Z * Z * Z) :
  lex3 c a <> Gt -> lex3 a b = Lt -> lex3 c b <> Gt.
Proof.
  destruct a as [[a1 a2] a3], b as [[b1 b2] b3], c as [[c1 c2] c3]; unfold lex3.
  destruct (Z.compare_spec c1 a1), (Z.compare_spec a1 b1), (Z.compare_spec c1 b1);
    try lia; try congruence;
  destruct (Z.compare_spec c2 a2), (Z.compare_spec a2 b2), (Z.compare_spec c2 b2);
    try lia; try congruence;
  destruct (Z.compare_spec c3 a3), (Z.compare_spec a3 b3), (Z.compare_spec c3 b3);
    try lia; try congruence.
Qed.

Lemma SFleb_ltb_trans (c a b : spec_float) :
  SFleb c a = true -> SFltb a b = true -> SFleb c b = true.
Proof.
  unfold SFleb, SFltb. intros H1 H2.
  assert (Hc : c <> S754_nan) by (intros ->; simpl in H1; discriminate).
  assert (Ha : a <> S754_nan) by (intros ->; destruct c; simpl in H1; discriminate).
  assert (Hb : b <> S754_nan) by (intros ->; destruct a; simpl in H2; discriminate).
  rewrite SFcompare_key in * by assumption.
  pose proof (lex3_le_lt_trans (SFkey a) (SFkey b) (SFkey c)) as T.
  destruct (lex3 (SFkey c) (SFkey a)); try discriminate;
  destruct (lex3 (SFkey a) (SFkey b)); try discriminate;
  destruct (lex3 (SFkey c) (SFkey b)); try reflexivity;
  exfalso; apply T; congruence.
Qed.

Lemma isnan_spec (x : float) : Py.isnan x = true <-> Prim2SF x = S754_nan.
Proof.
  unfold Py.isnan, is_nan. rewrite eqb_spec. unfold SFeqb. split.
  - intros H. destruct (Prim2SF x) as [s|s| |s m e] eqn:E; try reflexivity;
      rewrite SFcompare_refl in H by congruence; discriminate.
  - intros ->. reflexivity.
Qed.

Lemma isnan_false (x : float) : Py.isnan x = false <-> Prim2SF x <> S754_nan.
Proof.
  rewrite <- isnan_spec. destruct (Py.isnan x); split; congruence.
Qed.

Lemma le_not_nan (x y : float) :
  Py.le x y = true -> Py.isnan x = false /\ Py.isnan y = false.
Proof.
  unfold Py.le. rewrite leb_spec. unfold SFleb. intros H.
  rewrite !isnan_false. split; intros E; rewrite E in H.
  - simpl in H. discriminate.
  - destruct (Prim2SF x); simpl in H; discriminate.
Qed.

Lemma lt_not_nan (x y : float) :
  Py.lt x y = true -> Py.isnan x = false /\ Py.isnan y = false.
Proof.
  unfold Py.lt. rewrite ltb_spec. unfold SFltb. intros H.
  rewrite !isnan_false. split; intros E; rewrite E in H.
  - simpl in H. discriminate.
  - destruct (Prim2SF x); simpl in H; discriminate.
Qed.

Lemma not_le_gt (x y : float) :
  Py.isnan x = false -> Py.isnan y = false -> Py.le x y = false -> Py.gt x y = true.
Proof.
  rewrite !isnan_false. unfold Py.le, Py.gt. rewrite leb_spec, ltb_spec.
  apply SFleb_false_ltb.
Qed.

Lemma le_lt_trans (c a b : float) :
  Py.le c a = true -> Py.lt a b = true -> Py.le c b = true.
Proof.
  unfold Py.le, Py.lt. rewrite !leb_spec, ltb_spec. apply SFleb_ltb_trans.
Qed.

Lemma isfinite_not_nan (x : float) : Py.isfinite x = true -> Py.isnan x = false.
Proof.
  unfold Py.isfinite, is_finite, Py.isnan. destruct (is_nan x); simpl; congruence.
Qed.

(** ** The loops append the hits, in order *)

Section Loops.

Variable log10 : float -> float.

Lemma fold_left_flat_map {A B S : Type} (f : S -> B -> S) (g : A -> list B)
      (l : list A) (s : S) :
  fold_left f (flat_map g l) s = fold_left (fun s a => fold_left f (g a) s) l s.
Proof.
  revert s. induction l as [|a l IH]; intros s; simpl.
  - reflexivity.
  - rewrite fold_left_app. apply IH.
Qed.

Lemma fold_left_ext {A S : Type} (f g : S -> A -> S) (l : list A) (s : S) :
  (forall s a, f s a = g s a) -> fold_left f l s = fold_left g l s.
Proof.
  intros E. revert s. induction l as [|a l IH]; intros s; simpl.
  - reflexivity.
  - rewrite E. apply IH.
Qed.

Lemma esp3_ping_spec x times rows ping z d out :
  esp3_ping log10 x times rows ping z d out
  = fold_left (record_esp3 x times) (esp3_ping_hits log10 x rows ping z d) out.
Proof.
  unfold esp3_ping, esp3_ping_hits.
  destruct (List.length z <? 3)%nat; [reflexivity|].
  rewrite fold_left_flat_map. apply fold_left_ext.
  intros s k. destruct (esp3_peak log10 x z d k); reflexivity.
Qed.

Lemma esp3_block_spec x ds bb idx_r_tot out idx_pings :
  esp3_block log10 x ds bb idx_r_tot out idx_pings
  = fold_left (record_esp3 x (ping_time ds))
              (esp3_block_hits log10 x ds bb idx_r_tot idx_pings) out.
Proof.
  unfold esp3_block, esp3_block_hits.
  destruct (negb _); [reflexivity|].
  rewrite fold_left_flat_map. apply fold_left_ext.
  intros s a. apply esp3_ping_spec.
Qed.

Lemma esp3_run_spec ds pl :
  esp3_run log10 ds pl
  = fold_left (record_esp3 (plan_ctx pl) (ping_time ds)) (esp3_hits log10 ds pl)
              init_st_struct.
Proof.
  unfold esp3_run, esp3_hits. rewrite fold_left_flat_map.
  apply fold_left_ext. intros s a. apply esp3_block_spec.
Qed.

Lemma bind_Ok {A B : Type} (r : result A) (k : A -> result B) (b : B) :
  bind r k = Ok b -> exists a, r = Ok a /\ k a = Ok b.
Proof.
  destruct r as [a|e]; simpl; intros H; [eauto | discriminate].
Qed.

Lemma matecho_scan_spec m times rows ping zP zTS zTSU rcol loc keep out :
  matecho_scan m times rows ping zP zTS zTSU rcol loc keep out
  = (r <- matecho_scan_hits m rows ping zP zTS zTSU rcol loc keep ;;
     Ok (fst r, fold_left (record_matecho m times) (snd r) out)).
Proof.
  revert keep out. induction loc as [|k rest IH]; intros keep out; simpl.
  - reflexivity.
  - destruct (matecho_candidate m zP zTS zTSU rcol (nth ping (m_heave m) nan) keep k)
      as [[keep' h]|e]; simpl; [|reflexivity].
    rewrite IH.
    destruct (matecho_scan_hits m rows ping zP zTS zTSU rcol rest keep') as [[k2 hs]|e];
      simpl; [|reflexivity].
    destruct h; reflexivity.
Qed.

Lemma for_each_collect {A B S : Type} (body : S -> A -> result S)
      (H : A -> result (list B)) (rec : S -> B -> S) (l : list A) (s : S) :
  (forall s a, body s a = (hs <- H a ;; Ok (fold_left rec hs s))) ->
  for_each body l s = (hs <- collect H l ;; Ok (fold_left rec hs s)).
Proof.
  intros E. revert s. induction l as [|a l IH]; intros s; simpl.
  - reflexivity.
  - rewrite E. destruct (H a) as [hs|e]; simpl; [|reflexivity].
    rewrite IH. destruct (collect H l) as [hs'|e]; simpl; [|reflexivity].
    rewrite fold_left_app. reflexivity.
Qed.

Lemma matecho_ping_spec m ds bb rows out ip :
  matecho_ping log10 m ds bb rows out ip
  = (hs <- matecho_ping_hits log10 m ds bb rows ip ;;
     Ok (fold_left (record_matecho m (ping_time ds)) hs out)).
Proof.
  unfold matecho_ping, matecho_ping_hits.
  destruct (negb _); [reflexivity|].
  rewrite matecho_scan_spec.
  destruct (matecho_scan_hits _ _ _ _ _ _ _ _ _) as [[k hs]|e]; reflexivity.
Qed.

Lemma matecho_block_spec m ds bb idx_r_tot out idx_pings :
  matecho_block log10 m ds bb idx_r_tot out idx_pings
  = (hs <- matecho_block_hits log10 m ds bb idx_r_tot idx_pings ;;
     Ok (fold_left (record_matecho m (ping_time ds)) hs out)).
Proof.
  unfold matecho_block, matecho_block_hits.
  apply for_each_collect. intros s a. apply matecho_ping_spec.
Qed.

Lemma matecho_run_spec ds pl :
  matecho_run log10 ds pl
  = (hs <- matecho_hits log10 ds pl ;;
     Ok (fold_left (record_matecho (mplan_ctx pl) (ping_time ds)) hs init_st_struct)).
Proof.
  unfold matecho_run, matecho_hits.
  apply for_each_collect. intros s a. apply matecho_block_spec.
Qed.

End Loops.

(** ** What a run leaves in each list *)

Ltac fold_field :=
  let h := fresh "h" in
  let hs := fresh "hs" in
  let IH := fresh "IH" in
  let out := fresh "out" in
  intros hs; induction hs as [|h hs IH]; intros out; simpl;
  [ now rewrite ?app_nil_r
  | rewrite IH; simpl; now rewrite <- ?app_assoc ].

Lemma esp3_TS_comp x times : forall hs out,
  TS_comp (fold_left (record_esp3 x times) hs out)
  = TS_comp out ++ map (fun h => pk_TS_comp (hit_peak h)) hs.
Proof. fold_field. Qed.

Lemma esp3_TS_uncomp x times : forall hs out,
  TS_uncomp (fold_left (record_esp3 x times) hs out)
  = TS_uncomp out ++ map (fun h => pk_TS_uncomp (hit_peak h)) hs.
Proof. fold_field. Qed.

Lemma esp3_Target_range x times : forall hs out,
  Target_range (fold_left (record_esp3 x times) hs out)
  = Target_range out ++ map (fun h => pk_r_peak (hit_peak h)) hs.
Proof. fold_field. Qed.

Lemma esp3_idx_r x times : forall hs out,
  idx_r (fold_left (record_esp3 x times) hs out) = idx_r out ++ map hit_row hs.
Proof. fold_field. Qed.

Lemma esp3_Ping_number x times : forall hs out,
  Ping_number (fold_left (record_esp3 x times) hs out)
  = Ping_number out ++ map (fun h => Z.of_nat (hit_ping h)) hs.
Proof. fold_field. Qed.

Lemma esp3_Transmitted_pulse_length x times : forall hs out,
  Transmitted_pulse_length (fold_left (record_esp3 x times) hs out)
  = Transmitted_pulse_length out ++ map (fun h => pk_plen (hit_peak h)) hs.
Proof. fold_field. Qed.

Lemma matecho_TS_comp m times : forall hs out,
  TS_comp (fold_left (record_matecho m times) hs out)
  = TS_comp out ++ map (fun h => pk_TS_comp (hit_peak h)) hs.
Proof. fold_field. Qed.

Lemma matecho_idx_r m times : forall hs out,
  idx_r (fold_left (record_matecho m times) hs out) = idx_r out ++ map hit_row hs.
Proof. fold_field. Qed.

Lemma matecho_Ping_number m times : forall hs out,
  Ping_number (fold_left (record_matecho m times) hs out)
  = Ping_number out ++ map (fun h => Z.of_nat (hit_ping h)) hs.
Proof. fold_field. Qed.

Lemma esp3_lengths_common x times : forall hs out,
  lengths_common (fold_left (record_esp3 x times) hs out)
  = map (fun n => (n + List.length hs)%nat) (lengths_common out).
Proof.
  intros hs; induction hs as [|h hs IH]; intros out; simpl fold_left.
  - unfold lengths_common; simpl; now rewrite !Nat.add_0_r.
  - rewrite IH. unfold lengths_common, record_esp3, append_esp3; simpl.
    rewrite !length_app; simpl.
    repeat (apply (f_equal2 (@cons nat)); [lia|]); reflexivity.
Qed.

Lemma esp3_lengths_angle_nav x times : forall hs out,
  lengths_angle_nav (fold_left (record_esp3 x times) hs out) = lengths_angle_nav out.
Proof.
  intros hs; induction hs as [|h hs IH]; intros out; simpl fold_left.
  - reflexivity.
  - rewrite IH. reflexivity.
Qed.

Lemma matecho_lengths_all m times : forall hs out,
  lengths_all (fold_left (record_matecho m times) hs out)
  = map (fun n => (n + List.length hs)%nat) (lengths_all out).
Proof.
  intros hs; induction hs as [|h hs IH]; intros out; simpl fold_left.
  - unfold lengths_all, lengths_common, lengths_angle_nav; simpl; now rewrite !Nat.add_0_r.
  - rewrite IH.
    unfold lengths_all, lengths_common, lengths_angle_nav, record_matecho, append_matecho;
      simpl.
    rewrite !length_app; simpl.
    repeat (apply (f_equal2 (@cons nat)); [lia|]); reflexivity.
Qed.

Lemma finalize_lengths_all out : lengths_all (finalize out) = lengths_all out.
Proof. reflexivity. Qed.

(** The two detectors, opened up: the plan, then the hits, then the
    appends. *)
Lemma detect_esp3_Ok log10 ds params out :
  detect_esp3 log10 ds params = Ok out ->
  exists pl, esp3_prepare ds params = Ok pl
             /\ out = finalize (fold_left (record_esp3 (plan_ctx pl) (ping_time ds))
                                         (esp3_hits log10 ds pl) init_st_struct).
Proof.
  unfold detect_esp3. intros H. apply bind_Ok in H as (pl & Hp & H).
  exists pl. split; [assumption|]. rewrite <- esp3_run_spec. congruence.
Qed.

Lemma detect_matecho_Ok log10 ds params out :
  detect_matecho log10 ds params = Ok out ->
  exists pl hs, matecho_prepare log10 ds params = Ok pl
                /\ matecho_hits log10 ds pl = Ok hs
                /\ out = finalize (fold_left (record_matecho (mplan_ctx pl) (ping_time ds))
                                            hs init_st_struct).
Proof.
  unfold detect_matecho. intros H. apply bind_Ok in H as (pl & Hp & H).
  apply bind_Ok in H as (o & Ho & H). rewrite matecho_run_spec in Ho.
  apply bind_Ok in Ho as (hs & Hh & Ho).
  exists pl, hs. repeat split; congruence.
Qed.

(** ** Where a hit of [detect_esp3] comes from *)

Section Esp3Hits.

Variable log10 : float -> float.

(** What [esp3_peak] has checked when it returns a peak. *)
Lemma esp3_peak_inv x z d k pk :
  esp3_peak log10 x z d k = Some pk ->
  let v := nth k z nan in
  let r_eff := (pk_r_peak pk - x_c x * x_T x / 4)%float in
  Py.isfinite v = true
  /\ Py.le v (x_TS_thr x) = false
  /\ pk_left pk = expand_left z (v - x_PLDL x)%float (x_max_len x) k 0
  /\ pk_right pk = expand_right z (v - x_PLDL x)%float (x_max_len x)
                     (List.length z - (k + 1)) (k + 1) 0
  /\ pk_plen pk = 1 + pk_left pk + pk_right pk
  /\ x_min_len x <= pk_plen pk <= x_max_len x
  /\ (Py.isfinite (nth k d nan) = true -> pk_r_peak pk = nth k d nan)
  /\ Py.le r_eff 0 = false
  /\ pk_TS_uncomp pk = (v + (40 * log10 r_eff + 2 * x_alpha x * r_eff))%float
  /\ pk_TS_comp pk = pk_TS_uncomp pk
  /\ Py.le (pk_TS_comp pk) (x_TS_thr x) = false.
Proof.
  unfold esp3_peak. intros H.
  destruct (negb (Py.isfinite (nth k z nan)) || Py.le (nth k z nan) (x_TS_thr x)) eqn:E1;
    [discriminate|].
  apply orb_false_iff in E1 as [E1a E1b]. apply negb_false_iff in E1a.
  match type of H with
  | (if ?c then _ else _) = _ => destruct c eqn:E2; [discriminate|]
  end.
  apply orb_false_iff in E2 as [E2a E2b].
  apply Z.ltb_ge in E2a. rewrite Z.gtb_ltb in E2b. apply Z.ltb_ge in E2b.
  match type of H with
  | match ?s with [] => _ | _ => _ end = _ => destruct s eqn:Es; [discriminate|]
  end.
  match type of H with
  | (if ?c then _ else _) = _ => destruct c eqn:E3; [discriminate|]
  end.
  match type of H with
  | (if ?c then _ else _) = _ => destruct c eqn:E4; [discriminate|]
  end.
  injection H as <-. simpl.
  repeat split; try assumption; try reflexivity.
  intros Hf. rewrite Hf. reflexivity.
Qed.

Lemma In_combine_maps {A B C : Type} (F : A -> B) (G : A -> C) (l : list A) a b c :
  In (a, (b, c)) (combine l (combine (map F l) (map G l))) ->
  In a l /\ b = F a /\ c = G a.
Proof.
  induction l as [|a0 l IH]; simpl; [tauto|].
  intros [H|H].
  - injection H as <- <- <-. auto.
  - destruct (IH H) as (? & ? & ?). auto.
Qed.

Lemma esp3_ping_hits_inv x rows ping z d h :
  In h (esp3_ping_hits log10 x rows ping z d) ->
  (3 <= List.length z)%nat
  /\ hit_ping h = ping
  /\ In (hit_k h) (esp3_keep x z)
  /\ esp3_peak log10 x z d (hit_k h) = Some (hit_peak h)
  /\ hit_row h = Z.of_nat (nth (hit_k h) rows 0%nat).
Proof.
  unfold esp3_ping_hits.
  destruct (List.length z <? 3)%nat eqn:E; [intros []|].
  apply Nat.ltb_ge in E. rewrite in_flat_map. intros (k & Hk & Hin).
  destruct (esp3_peak log10 x z d k) as [pk|] eqn:Ep; [|destruct Hin].
  destruct Hin as [<-|[]]. simpl. auto.
Qed.

Lemma esp3_block_hits_inv x ds bb idx_r_tot idx_pings h :
  In h (esp3_block_hits log10 x ds bb idx_r_tot idx_pings) ->
  exists n,
    let rows := block_rows ds bb idx_r_tot idx_pings in
    let ip := hit_ping h in
    let z := firstn n (mask_esp3 (bottom_at bb ip) (isel (column (Sv ds) ip) rows)
                                 (isel (column (depth ds) ip) rows)) in
    let d := firstn n (isel (column (depth ds) ip) rows) in
    In ip idx_pings
    /\ (3 <= List.length z)%nat
    /\ In (hit_k h) (esp3_keep x z)
    /\ esp3_peak log10 x z d (hit_k h) = Some (hit_peak h)
    /\ hit_row h = Z.of_nat (nth (hit_k h) (firstn n rows) 0%nat).
Proof.
  unfold esp3_block_hits.
  destruct (negb _); [intros []|].
  rewrite in_flat_map. intros ([ip [z d]] & Hin & Hh).
  unfold esp3_TS, esp3_DEP in Hin. rewrite !map_map in Hin.
  apply In_combine_maps in Hin as (Hip & -> & ->).
  apply esp3_ping_hits_inv in Hh as (Hlen & Hping & Hk & Hp & Hr).
  cbn [fst snd] in *. subst ip. eexists. cbv zeta. repeat split; eassumption.
Qed.

Lemma esp3_hits_inv ds pl h :
  In h (esp3_hits log10 ds pl) ->
  exists idx_pings n,
    let rows := block_rows ds (plan_bb pl) (plan_idx_r_tot pl) idx_pings in
    let ip := hit_ping h in
    let z := firstn n (mask_esp3 (bottom_at (plan_bb pl) ip)
                                 (isel (column (Sv ds) ip) rows)
                                 (isel (column (depth ds) ip) rows)) in
    let d := firstn n (isel (column (depth ds) ip) rows) in
    In idx_pings (blocks (ping_size ds) (plan_block_size pl) (plan_num_ite pl))
    /\ In ip idx_pings
    /\ (3 <= List.length z)%nat
    /\ In (hit_k h) (esp3_keep (plan_ctx pl) z)
    /\ esp3_peak log10 (plan_ctx pl) z d (hit_k h) = Some (hit_peak h)
    /\ hit_row h = Z.of_nat (nth (hit_k h) (firstn n rows) 0%nat).
Proof.
  unfold esp3_hits. rewrite in_flat_map. intros (idx_pings & Hb & Hh).
  apply esp3_block_hits_inv in Hh as (n & H).
  exists idx_pings, n. simpl in *. tauto.
Qed.

End Esp3Hits.

(** ** Rows, columns and cells of a block *)

Lemma firstn_seq0 n a m : firstn n (seq a m) = seq a (Nat.min n m).
Proof.
  revert a m. induction n as [|n IH]; intros a [|m]; simpl; try reflexivity.
  f_equal. apply IH.
Qed.

Lemma filter_le_seq0 (M : Z) m :
  filter (fun r => Z.of_nat r <=? M) (seq 0 m) = seq 0 (Nat.min m (Z.to_nat (M + 1))).
Proof.
  induction m as [|m IH].
  - reflexivity.
  - rewrite seq_S, filter_app, IH.
    change (filter (fun r => Z.of_nat r <=? M) [(0 + m)%nat])
      with (if Z.of_nat m <=? M then [m] else []).
    destruct (Z.of_nat m <=? M) eqn:E.
    + apply Z.leb_le in E.
      replace (Nat.min (S m) (Z.to_nat (M + 1))) with (S m) by lia.
      replace (Nat.min m (Z.to_nat (M + 1))) with m by lia.
      rewrite seq_S. reflexivity.
    + apply Z.leb_gt in E. rewrite app_nil_r. f_equal. lia.
Qed.

(** The row set of a block is an initial segment of the sample axis: the
    position in the block column is the global sample index. *)
Lemma block_rows_seq ds bb m idx_pings :
  exists m', block_rows ds bb (seq 0 m) idx_pings = seq 0 m' /\ (m' <= m)%nat.
Proof.
  unfold block_rows. destruct bb as [b|]; [|exists m; auto].
  destruct (idx_bot ds b idx_pings) as [|x l]; [exists m; auto|].
  rewrite filter_le_seq0. eexists. split; [reflexivity|lia].
Qed.

Lemma idx_r_tot_of_seq ds bottom l :
  idx_r_tot_of ds bottom = Ok l -> exists m, l = seq 0 m.
Proof.
  unfold idx_r_tot_of, arange. destruct bottom as [b|].
  - intros H. apply bind_Ok in H as (mx & _ & H). injection H as <-. eauto.
  - intros H. injection H as <-. eauto.
Qed.

Lemma esp3_prepare_rows ds params pl :
  esp3_prepare ds params = Ok pl -> exists m, plan_idx_r_tot pl = seq 0 m.
Proof.
  unfold esp3_prepare. destruct (channel _); [|discriminate].
  intros H.
  apply bind_Ok in H as (? & _ & H).
  apply bind_Ok in H as (rows & Hr & H).
  apply bind_Ok in H as (? & _ & H).
  apply bind_Ok in H as (? & _ & H).
  apply bind_Ok in H as (? & _ & H).
  apply bind_Ok in H as (? & _ & H).
  injection H as <-. simpl. eapply idx_r_tot_of_seq; eassumption.
Qed.

Lemma isel_length col rows : List.length (isel col rows) = List.length rows.
Proof. apply length_map. Qed.

Lemma mask_esp3_length b ts dep :
  List.length ts = List.length dep -> List.length (mask_esp3 b ts dep) = List.length ts.
Proof.
  intros H. unfold mask_esp3. rewrite length_map, length_combine. lia.
Qed.

Lemma isel_seq_nth col m k :
  (k < m)%nat -> nth k (isel col (seq 0 m)) nan = nth k col nan.
Proof.
  intros H. unfold isel.
  rewrite (nth_indep _ nan (nth 0%nat col nan)) by (rewrite length_map, length_seq; lia).
  rewrite (map_nth (fun r => nth r col nan) (seq 0 m) 0%nat k), seq_nth by lia.
  reflexivity.
Qed.

(** A cell of the masked signal column: the sentinel under the bottom, the
    signal itself elsewhere. *)
Lemma mask_esp3_nth b ts dep k :
  List.length ts = List.length dep -> (k < List.length ts)%nat ->
  nth k (mask_esp3 b ts dep) nan
  = match b with
    | Some bv => if Py.ge (nth k dep nan) bv then (-999)%float else nth k ts nan
    | None => nth k ts nan
    end.
Proof.
  intros Hl Hk. unfold mask_esp3.
  rewrite (nth_indep _ nan
             ((fun zd : float * float => match b with
                         | Some bv => if Py.ge (snd zd) bv then (-999)%float else fst zd
                         | None => fst zd
                         end) (nan, nan)))
    by (rewrite length_map, length_combine; lia).
  rewrite (map_nth (fun zd : float * float => match b with
                         | Some bv => if Py.ge (snd zd) bv then (-999)%float else fst zd
                         | None => fst zd
                         end) (combine ts dep) (nan, nan) k), combine_nth by assumption.
  reflexivity.
Qed.

Lemma min_separation_In Np cand last k :
  In k (min_separation Np cand last) -> In k cand.
Proof.
  revert last. induction cand as [|c cand IH]; intros last; simpl; [tauto|].
  destruct (Z.of_nat c - last >=? Np); simpl; intros H.
  - destruct H as [H|H]; [auto | right; eapply IH; eassumption].
  - right; eapply IH; eassumption.
Qed.

Lemma local_maxima_In valid z k :
  In k (local_maxima valid z) ->
  (1 <= k)%nat /\ (k + 1 < List.length z)%nat
  /\ nth k valid false = true
  /\ Py.gt (nth k z nan) (nth (k - 1) z nan) = true
  /\ Py.ge (nth k z nan) (nth (k + 1) z nan) = true.
Proof.
  unfold local_maxima. rewrite filter_In, in_seq.
  intros (Hr & Hc). apply andb_true_iff in Hc as (Hc & H3).
  apply andb_true_iff in Hc as (H1 & H2).
  repeat split; try assumption; lia.
Qed.

Lemma esp3_keep_In x z k :
  In k (esp3_keep x z) ->
  (1 <= k)%nat /\ (k + 1 < List.length z)%nat /\ Py.gt (nth k z nan) (-999) = true.
Proof.
  unfold esp3_keep. intros H. apply min_separation_In in H.
  apply local_maxima_In in H as (H1 & H2 & H3 & _).
  repeat split; try assumption.
  rewrite (nth_indep _ false (Py.gt nan (-999))) in H3 by (rewrite length_map; lia).
  rewrite (map_nth (fun v => Py.gt v (-999)) z nan k) in H3. exact H3.
Qed.

(** ** The plan and the hits of [detect_esp3] *)

Lemma esp3_prepare_inv ds params pl :
  esp3_prepare ds params = Ok pl ->
  let given := merged params no_params in
  let p := merge_defaults given in
  let x := plan_ctx pl in
  channel given <> None
  /\ _validate_params p = Ok tt
  /\ plan_bb pl = bottom_da given
  /\ idx_r_tot_of ds (bottom_da given) = Ok (plan_idx_r_tot pl)
  /\ block_size_of (p_block_len p) (Z.of_nat (List.length (plan_idx_r_tot pl)))
                   (ping_size ds) = Ok (plan_block_size pl)
  /\ plan_num_ite pl = num_ite_esp3 (ping_size ds) (plan_block_size pl)
  /\ esp3_Np_T ds p = Ok (x_Np x, x_T x)
  /\ esp3_min_len (x_Np x) p = Ok (x_min_len x)
  /\ esp3_max_len (x_Np x) p = Ok (x_max_len x)
  /\ x_c x = p_SoundSpeed p
  /\ x_alpha x = merged (sound_absorption ds) 0%float
  /\ x_TS_thr x = p_TS_threshold p
  /\ x_PLDL x = p_PLDL p
  /\ x_nb_samples_tot x = Z.of_nat (range_sample_size ds).
Proof.
  unfold esp3_prepare. cbv zeta.
  destruct (channel (merged params no_params)) eqn:Ech; [|discriminate].
  intros H.
  apply bind_Ok in H as ([] & Hv & H).
  apply bind_Ok in H as (rows & Hr & H).
  apply bind_Ok in H as (bs & Hbs & H).
  apply bind_Ok in H as ([n T] & HN & H).
  apply bind_Ok in H as (mn & Hmn & H).
  apply bind_Ok in H as (mx & Hmx & H).
  injection H as <-. simpl in *.
  repeat split; try assumption; try reflexivity. discriminate.
Qed.

Section Esp3Facts.

Variable log10 : float -> float.

(** Every hit of a run is a kept candidate [k] of its ping column on which
    [esp3_peak] succeeded; the column cell at [k] is the dataset's own
    signal value, it is not under the bottom, and [idx_r] records [k]. *)
Lemma esp3_hit_facts ds params pl h :
  esp3_prepare ds params = Ok pl ->
  In h (esp3_hits log10 ds pl) ->
  exists z d,
    esp3_peak log10 (plan_ctx pl) z d (hit_k h) = Some (hit_peak h)
    /\ In (hit_k h) (esp3_keep (plan_ctx pl) z)
    /\ hit_row h = Z.of_nat (hit_k h)
    /\ nth (hit_k h) z nan = nth (hit_k h) (column (Sv ds) (hit_ping h)) nan
    /\ nth (hit_k h) d nan = nth (hit_k h) (column (depth ds) (hit_ping h)) nan
    /\ (forall b, bottom_at (plan_bb pl) (hit_ping h) = Some b ->
                  Py.ge (nth (hit_k h) (column (depth ds) (hit_ping h)) nan) b = false)
    /\ (hit_k h + 1 < List.length (plan_idx_r_tot pl))%nat.
Proof.
  intros Hp Hin.
  destruct (esp3_prepare_rows _ _ _ Hp) as (m & Hm).
  apply esp3_hits_inv in Hin as (idx_pings & n & H). cbv zeta in H.
  destruct H as (_ & _ & Hlen & Hk & Hpk & Hrow).
  rewrite Hm in *.
  destruct (block_rows_seq ds (plan_bb pl) m idx_pings) as (m' & Hrows & Hm').
  rewrite Hrows in *.
  set (ip := hit_ping h) in *. set (k := hit_k h) in *.
  set (ts := isel (column (Sv ds) ip) (seq 0 m')) in *.
  set (dep := isel (column (depth ds) ip) (seq 0 m')) in *.
  assert (Hld : List.length ts = List.length dep)
    by (unfold ts, dep; rewrite !isel_length; reflexivity).
  assert (Hlt : List.length ts = m')
    by (unfold ts; rewrite isel_length, length_seq; reflexivity).
  pose proof (esp3_keep_In _ _ _ Hk) as (Hk1 & Hk2 & Hgt).
  rewrite length_firstn, mask_esp3_length in Hk2 by assumption.
  assert (Hkn : (k <? n)%nat = true) by (apply Nat.ltb_lt; lia).
  assert (Hkm : (k < m')%nat) by lia.
  rewrite nth_firstn, Hkn, mask_esp3_nth in Hgt by (assumption || lia).
  assert (Hz : nth k (firstn n (mask_esp3 (bottom_at (plan_bb pl) ip) ts dep)) nan
               = nth k (column (Sv ds) ip) nan
               /\ forall b, bottom_at (plan_bb pl) ip = Some b ->
                            Py.ge (nth k (column (depth ds) ip) nan) b = false).
  { rewrite nth_firstn, Hkn, mask_esp3_nth by (assumption || lia).
    unfold ts, dep in *. rewrite !isel_seq_nth in * by assumption.
    destruct (bottom_at (plan_bb pl) ip) as [bv|].
    - destruct (Py.ge (nth k (column (depth ds) ip) nan) bv) eqn:E.
      + vm_compute in Hgt. discriminate.
      + split; [reflexivity|]. intros b Hb. injection Hb as <-. exact E.
    - split; [reflexivity|]. intros b Hb. discriminate. }
  destruct Hz as (Hz1 & Hz2).
  eexists _, _. split; [exact Hpk|]. split; [exact Hk|].
  repeat split.
  - rewrite Hrow, firstn_seq0, seq_nth by lia. reflexivity.
  - exact Hz1.
  - rewrite nth_firstn, Hkn. unfold dep. apply isel_seq_nth. assumption.
  - exact Hz2.
  - rewrite length_seq. lia.
Qed.

End Esp3Facts.

(** ** Where a hit of [detect_matecho] comes from *)

Lemma min_gap_le k keep kk :
  In kk keep -> min_gap k keep <= Z.abs (Z.of_nat k - Z.of_nat kk).
Proof.
  unfold min_gap. intros H.
  apply (in_map (fun kk => Z.abs (Z.of_nat k - Z.of_nat kk))) in H.
  destruct (map (fun kk => Z.abs (Z.of_nat k - Z.of_nat kk)) keep) as [|g gs]; [destruct H|].
  assert (G : forall l a x, In x (a :: l) -> fold_left Z.min l a <= x).
  { clear. induction l as [|y l IH]; intros a x; simpl.
    - intros [<-|[]]. lia.
    - intros [<-|[<-|H]].
      + specialize (IH (Z.min a y) (Z.min a y) (or_introl eq_refl)). lia.
      + specialize (IH (Z.min a y) (Z.min a y) (or_introl eq_refl)). lia.
      + apply IH. right. exact H. }
  apply G. exact H.
Qed.

Ltac skipped H :=
  let Hk := fresh "Hk" in
  injection H as <- <-; split; [left; reflexivity|]; split;
  [ intros Hk; exfalso; apply (f_equal (@List.length nat)) in Hk;
    rewrite length_app in Hk; simpl in Hk; lia
  | intros; discriminate ].

(** What [matecho_candidate] has checked when it appends a detection, and
    what it may do to [keep] in any case. *)
Lemma matecho_candidate_inv m zP zTS zTSU rcol hv keep k keep' o :
  matecho_candidate m zP zTS zTSU rcol hv keep k = Ok (keep', o) ->
  (keep' = keep \/ keep' = keep ++ [k])
  /\ (keep' = keep ++ [k] -> forall kk, In kk keep -> spaced m k kk)
  /\ (forall pk, o = Some pk ->
        keep' = keep ++ [k]
        /\ pk_TS_comp pk = nth k zTS nan
        /\ pk_TS_uncomp pk = nth k zTSU nan
        /\ Py.isfinite (nth k zTS nan) = true
        /\ Py.le (nth k zTS nan) (q_TS_threshold (m_p m)) = false
        /\ (exists lo hi,
              Py.round (Py.float_of_Z (m_NechP m) * q_MinEchoLength (m_p m))%float = Ok lo
              /\ Py.round (Py.float_of_Z (m_NechP m) * q_MaxEchoLength (m_p m))%float = Ok hi
              /\ lo <= pk_plen pk <= hi)).
Proof.
  unfold matecho_candidate. cbv zeta. intros H.
  destruct (negb (Py.isfinite (nth k zTS nan))
            || Py.le (nth k zTS nan) (q_TS_threshold (m_p m))) eqn:E1.
  { skipped H. }
  apply orb_false_iff in E1 as [E1a E1b]. apply negb_false_iff in E1a.
  match type of H with (if ?c then _ else _) = _ => destruct c eqn:E2 end.
  { skipped H. }
  apply bind_Ok in H as (lo & Hlo & H).
  match type of H with (if ?c then _ else _) = _ => destruct c eqn:E3 end.
  { skipped H. }
  apply bind_Ok in H as (hi & Hhi & H).
  match type of H with (if ?c then _ else _) = _ => destruct c eqn:E4 end.
  { skipped H. }
  apply bind_Ok in H as (tc & Htc & H).
  destruct tc.
  { skipped H. }
  assert (Hsp : forall kk, In kk keep -> spaced m k kk).
  { intros kk Hkk. destruct keep as [|k0 keep0]; [destruct Hkk|].
    apply bind_Ok in Htc as (sp & Hsp & Htc). injection Htc as Htc.
    apply Z.ltb_ge in Htc. exists sp. split; [exact Hsp|].
    pose proof (min_gap_le k (k0 :: keep0) kk Hkk). lia. }
  match type of H with (if ?c then _ else _) = _ => destruct c eqn:E5 end.
  { skipped H. }
  apply Z.ltb_ge in E3. rewrite Z.gtb_ltb in E4. apply Z.ltb_ge in E4.
  match type of H with
  | match ?s with [] => _ | _ => _ end = _ => destruct s eqn:Es
  end.
  - injection H as <- <-. split; [auto|]. split; [auto|]. intros; discriminate.
  - injection H as <- <-. split; [auto|]. split; [auto|].
    intros pk Hpk. injection Hpk as <-. simpl.
    repeat split; try assumption.
    exists lo, hi. repeat split; assumption.
Qed.

Lemma spaced_sym m a b : spaced m a b -> spaced m b a.
Proof.
  intros (sp & H & Hle). exists sp. split; [exact H|]. lia.
Qed.

(** The hits of one ping: each is a candidate of [loc] on which
    [matecho_candidate] appended, spaced from everything kept before it and
    from every other hit of the ping. *)
Lemma matecho_scan_hits_inv m rows ping zP zTS zTSU rcol :
  forall loc keep keep' hs,
  matecho_scan_hits m rows ping zP zTS zTSU rcol loc keep = Ok (keep', hs) ->
  (forall h, In h hs ->
     hit_ping h = ping
     /\ hit_row h = Z.of_nat (nth (hit_k h) rows 0%nat)
     /\ In (hit_k h) loc
     /\ pk_TS_comp (hit_peak h) = nth (hit_k h) zTS nan
     /\ Py.isfinite (nth (hit_k h) zTS nan) = true
     /\ Py.le (nth (hit_k h) zTS nan) (q_TS_threshold (m_p m)) = false
     /\ (forall kk, In kk keep -> spaced m (hit_k h) kk))
  /\ ForallOrdPairs (fun h1 h2 => spaced m (hit_k h1) (hit_k h2)) hs
  /\ (forall kk, In kk keep -> In kk keep').
Proof.
  induction loc as [|k rest IH]; intros keep keep' hs H; simpl in H.
  - injection H as <- <-. split; [intros h []|]. split; [constructor|auto].
  - apply bind_Ok in H as ([keep1 o] & Hc & H).
    apply bind_Ok in H as ([keep2 hs'] & Hs & H).
    injection H as <- <-. simpl in *.
    apply matecho_candidate_inv in Hc as (Hk1 & Hsp & Ho).
    apply IH in Hs as (Hh & Hfop & Hsub).
    assert (Hsub1 : forall kk, In kk keep -> In kk keep1).
    { intros kk Hkk. destruct Hk1 as [->| ->]; [assumption|]. apply in_or_app; auto. }
    destruct o as [pk|].
    + destruct (Ho pk eq_refl) as (Hk & Hts & _ & Hfin & Hle & _).
      split; [|split].
      * intros h0 [<-|Hin]; simpl.
        -- repeat split; auto.
        -- destruct (Hh h0 Hin) as (? & ? & ? & ? & ? & ? & Hs').
           repeat split; auto.
      * constructor; [|exact Hfop].
        apply Forall_forall. intros h0 Hin. simpl.
        destruct (Hh h0 Hin) as (_ & _ & _ & _ & _ & _ & Hs').
        apply spaced_sym. apply Hs'. rewrite Hk. apply in_or_app. right. left. reflexivity.
      * auto.
    + split; [|split].
      * intros h0 Hin. destruct (Hh h0 Hin) as (? & ? & ? & ? & ? & ? & Hs').
        repeat split; auto.
      * exact Hfop.
      * auto.
Qed.

Lemma map_seq_nth {A : Type} (F : nat -> A) m k d :
  (k < m)%nat -> nth k (map F (seq 0 m)) d = F k.
Proof.
  intros H. rewrite (nth_indep _ d (F 0%nat)) by (rewrite length_map, length_seq; lia).
  rewrite (map_nth F (seq 0 m) 0%nat k), seq_nth by lia. reflexivity.
Qed.

Lemma collect_In {A B : Type} (f : A -> result (list B)) (l : list A) hs h :
  collect f l = Ok hs -> In h hs -> exists a hs', In a l /\ f a = Ok hs' /\ In h hs'.
Proof.
  revert hs. induction l as [|a l IH]; intros hs H Hin; simpl in H.
  - injection H as <-. destruct Hin.
  - apply bind_Ok in H as (h1 & H1 & H). apply bind_Ok in H as (h2 & H2 & H).
    injection H as <-. apply in_app_or in Hin as [Hin|Hin].
    + exists a, h1. simpl. auto.
    + destruct (IH _ H2 Hin) as (a' & hs' & ? & ? & ?). exists a', hs'. simpl. auto.
Qed.

Section MatechoFacts.

Variable log10 : float -> float.

Lemma matecho_prepare_rows ds params pl :
  matecho_prepare log10 ds params = Ok pl -> exists m, mplan_idx_r_tot pl = seq 0 m.
Proof.
  unfold matecho_prepare. destruct params as [params|]; [|discriminate].
  destruct (channel params); [|discriminate]. cbv zeta.
  intros H.
  apply bind_Ok in H as (? & _ & H).
  apply bind_Ok in H as (? & _ & H).
  apply bind_Ok in H as (? & _ & H).
  apply bind_Ok in H as (rows & Hr & H).
  apply bind_Ok in H as (? & _ & H).
  apply bind_Ok in H as (? & _ & H).
  injection H as <-. simpl. eapply idx_r_tot_of_seq; eassumption.
Qed.

(** Every hit of a run of [detect_matecho]: [idx_r] records the position in
    the ping column, the recorded compensated target strength is the finite
    cell of the [ts] matrix there and is not [<=] the threshold, and the cell
    is not under the bottom. *)
Lemma matecho_hit_facts ds params pl hs h :
  matecho_prepare log10 ds params = Ok pl ->
  matecho_hits log10 ds pl = Ok hs ->
  In h hs ->
  let m := mplan_ctx pl in
  hit_row h = Z.of_nat (hit_k h)
  /\ pk_TS_comp (hit_peak h) = cell_ts log10 m ds (hit_ping h) (hit_k h)
  /\ Py.isfinite (pk_TS_comp (hit_peak h)) = true
  /\ Py.le (pk_TS_comp (hit_peak h)) (q_TS_threshold (m_p m)) = false
  /\ (forall b, bottom_at (mplan_bb pl) (hit_ping h) = Some b ->
                Py.ge (nth (hit_k h) (column (depth ds) (hit_ping h)) nan) b = false)
  /\ (hit_k h + 1 < List.length (mplan_idx_r_tot pl))%nat.
Proof.
  intros Hp Hhs Hin m.
  destruct (matecho_prepare_rows _ _ _ Hp) as (m0 & Hm).
  unfold matecho_hits in Hhs.
  destruct (collect_In _ _ _ _ Hhs Hin) as (idx_pings & hsb & _ & Hb & Hinb).
  unfold matecho_block_hits in Hb.
  destruct (collect_In _ _ _ _ Hb Hinb) as (ip & hsp & _ & Hpi & Hinp).
  rewrite Hm in *.
  destruct (block_rows_seq ds (mplan_bb pl) m0 idx_pings) as (m' & Hrows & Hm').
  rewrite Hrows in Hpi. unfold matecho_ping_hits in Hpi. cbv zeta in Hpi.
  destruct (negb _) in Hpi; [injection Hpi as <-; destruct Hinp|].
  apply bind_Ok in Hpi as ([keep' hs'] & Hs & Hpi). injection Hpi as <-. simpl in Hinp.
  apply matecho_scan_hits_inv in Hs as (Hh & _ & _).
  destruct (Hh h Hinp) as (Hping & Hrow & Hloc & Hts & Hfin & Hle & _).
  apply local_maxima_In in Hloc as (Hk1 & Hk2 & _).
  unfold masked_column in Hk2. rewrite length_map, length_seq in Hk2.
  assert (Hk : (hit_k h < m')%nat) by lia.
  unfold masked_column in Hts, Hfin, Hle.
  rewrite map_seq_nth in Hts, Hfin, Hle by assumption.
  subst ip. fold m in Hts, Hfin, Hle.
  unfold under_bottom in Hts, Hfin, Hle.
  assert (Hub : forall b, bottom_at (mplan_bb pl) (hit_ping h) = Some b ->
                          Py.ge (nth (hit_k h) (column (depth ds) (hit_ping h)) nan) b = false).
  { intros b Hbv. rewrite Hbv in Hfin.
    destruct (Py.ge _ b); [vm_compute in Hfin; discriminate | reflexivity]. }
  assert (Hcell : (match bottom_at (mplan_bb pl) (hit_ping h) with
                   | Some b => Py.ge (nth (hit_k h) (column (depth ds) (hit_ping h)) nan) b
                   | None => false
                   end) = false).
  { destruct (bottom_at (mplan_bb pl) (hit_ping h)) as [b|]; [apply Hub|]; reflexivity. }
  rewrite Hcell in Hts, Hfin, Hle.
  repeat split.
  - rewrite Hrow, seq_nth by assumption. reflexivity.
  - exact Hts.
  - rewrite Hts. exact Hfin.
  - rewrite Hts. exact Hle.
  - exact Hub.
  - rewrite length_seq. lia.
Qed.

End MatechoFacts.

(** ** What validation and preparation establish *)

Lemma _validate_params_Ok p :
  _validate_params p = Ok tt <->
  p_DataType p = "CW"%string
  /\ Py.le (-120) (p_TS_threshold p) = true /\ Py.le (p_TS_threshold p) (-20) = true
  /\ Py.le 1 (p_PLDL p) = true /\ Py.le (p_PLDL p) 30 = true
  /\ Py.le 0 (p_MinNormPL p) = true /\ Py.le (p_MinNormPL p) 10 = true
  /\ Py.le 0 (p_MaxNormPL p) = true /\ Py.le (p_MaxNormPL p) 10 = true
  /\ Py.le (p_block_len p) 0 = false.
Proof.
  unfold _validate_params.
  destruct (String.eqb_spec (p_DataType p) "CW") as [Hd|Hd]; simpl.
  2:{ split; [discriminate|]. intros (H & _). contradiction. }
  destruct (Py.le (-120) (p_TS_threshold p)); simpl;
    [|split; [discriminate | intros (_ & H & _); discriminate]].
  destruct (Py.le (p_TS_threshold p) (-20)); simpl;
    [|split; [discriminate | intros (_ & _ & H & _); discriminate]].
  destruct (Py.le 1 (p_PLDL p)); simpl;
    [|split; [discriminate | intros (_ & _ & _ & H & _); discriminate]].
  destruct (Py.le (p_PLDL p) 30); simpl;
    [|split; [discriminate | intros (_ & _ & _ & _ & H & _); discriminate]].
  destruct (Py.le 0 (p_MinNormPL p)); simpl;
    [|split; [discriminate | intros (_ & _ & _ & _ & _ & H & _); discriminate]].
  destruct (Py.le (p_MinNormPL p) 10); simpl;
    [|split; [discriminate | intros (_ & _ & _ & _ & _ & _ & H & _); discriminate]].
  destruct (Py.le 0 (p_MaxNormPL p)); simpl;
    [|split; [discriminate | intros (_ & _ & _ & _ & _ & _ & _ & H & _); discriminate]].
  destruct (Py.le (p_MaxNormPL p) 10); simpl;
    [|split; [discriminate | intros (_ & _ & _ & _ & _ & _ & _ & _ & H & _); discriminate]].
  destruct (Py.le (p_block_len p) 0); simpl.
  - split; [discriminate | intros (_ & _ & _ & _ & _ & _ & _ & _ & _ & H); discriminate].
  - split; [intros _; repeat split; assumption | reflexivity].
Qed.

Lemma esp3_Np_ge_3 ds p n T : esp3_Np_T ds p = Ok (n, T) -> 3 <= n.
Proof.
  unfold esp3_Np_T, esp3_Np_derived. intros H.
  assert (G : forall c T0 n0 T1,
             (Np <- (dt <- (if Py.gt (Py.nanmedian (List.concat (map Py.diff (depth ds)))) 0
                            then Py.div (2 * Py.nanmedian (List.concat (map Py.diff (depth ds)))) c
                            else Ok 1e-4%float) ;;
                     q <- Py.div T0 dt ;; r <- Py.round q ;; Ok (Z.max 3 r)) ;;
              Ok (Np, T0)) = Ok (n0, T1) -> 3 <= n0).
  { intros c T0 n0 T1 G. apply bind_Ok in G as (Np & G & E). injection E as <- <-.
    apply bind_Ok in G as (dt & _ & G). apply bind_Ok in G as (q & _ & G).
    apply bind_Ok in G as (r & _ & G). injection G as <-. lia. }
  destruct (p_Np p) as [n0|].
  - destruct (n0 >? 2) eqn:E.
    + injection H as <- <-. apply Z.gtb_lt in E. lia.
    + eapply G; exact H.
  - eapply G; exact H.
Qed.

Section Plans.

Variable log10 : float -> float.

Lemma matecho_prepare_inv ds params pl :
  matecho_prepare log10 ds params = Ok pl ->
  exists given,
    params = Some given
    /\ channel given <> None
    /\ m_p (mplan_ctx pl) = merge_matecho_defaults given
    /\ mplan_bb pl = bottom_da given
    /\ idx_r_tot_of ds (bottom_da given) = Ok (mplan_idx_r_tot pl)
    /\ block_size_of (q_block_len (merge_matecho_defaults given))
                     (Z.of_nat (List.length (mplan_idx_r_tot pl)))
                     (ping_size ds) = Ok (mplan_block_size pl)
    /\ mplan_num_ite pl = num_ite_matecho (ping_size ds) (mplan_block_size pl)
    /\ 3 <= m_NechP (mplan_ctx pl)
    /\ m_heading (mplan_ctx pl) = nav_field ds ["heading"; "Heading"]%string
    /\ m_pitch (mplan_ctx pl) = nav_field ds ["pitch"; "Pitch"]%string
    /\ m_roll (mplan_ctx pl) = nav_field ds ["roll"; "Roll"]%string
    /\ m_heave (mplan_ctx pl) = nav_field ds ["heave"; "Heave"; "vertical_offset"]%string
    /\ m_dist (mplan_ctx pl) = nav_field ds ["dist"; "Dist"; "distance"]%string.
Proof.
  unfold matecho_prepare. destruct params as [given|]; [|discriminate].
  destruct (channel given) eqn:Ech; [|discriminate]. cbv zeta.
  intros H.
  apply bind_Ok in H as (dstep & _ & H).
  apply bind_Ok in H as (dt & _ & H).
  apply bind_Ok in H as (? & _ & H).
  apply bind_Ok in H as (rows & Hr & H).
  apply bind_Ok in H as (bs & Hbs & H).
  apply bind_Ok in H as (NechP & HN & H).
  injection H as <-. simpl.
  exists given. repeat split; try assumption; try reflexivity.
  - rewrite Ech. discriminate.
  - unfold samples_per_pulse in HN.
    apply bind_Ok in HN as (q & _ & HN). apply bind_Ok in HN as (r & _ & HN).
    injection HN as <-. lia.
Qed.

End Plans.
(** ** The candidates a ping appends for *)

Lemma esp3_ping_hits_length log10 x rows ping z d :
  List.length (esp3_ping_hits log10 x rows ping z d)
  = List.length (esp3_accepted log10 x z d).
Proof.
  unfold esp3_ping_hits, esp3_accepted.
  destruct (List.length z <? 3)%nat; [reflexivity|].
  induction (esp3_keep x z) as [|k ks IH]; [reflexivity|].
  simpl. rewrite length_app, IH.
  destruct (esp3_peak log10 x z d k); reflexivity.
Qed.

Lemma esp3_ping_hits_rows log10 x rows ping z d :
  map hit_row (esp3_ping_hits log10 x rows ping z d)
  = map (fun k => Z.of_nat (nth k rows 0%nat)) (esp3_accepted log10 x z d).
Proof.
  unfold esp3_ping_hits, esp3_accepted.
  destruct (List.length z <? 3)%nat; [reflexivity|].
  induction (esp3_keep x z) as [|k ks IH]; [reflexivity|].
  simpl. rewrite map_app, IH.
  destruct (esp3_peak log10 x z d k); reflexivity.
Qed.

Lemma esp3_ping_hits_none log10 x rows ping z d :
  (forall k, In k (esp3_keep x z) -> esp3_peak log10 x z d k = None) ->
  esp3_ping_hits log10 x rows ping z d = [].
Proof.
  unfold esp3_ping_hits. intros H.
  destruct (List.length z <? 3)%nat; [reflexivity|].
  induction (esp3_keep x z) as [|k ks IH]; [reflexivity|].
  simpl. rewrite (H k (or_introl eq_refl)). simpl.
  apply IH. intros k' Hk'. apply H. right. exact Hk'.
Qed.

Lemma append_matecho_lengths m times out row ping h :
  lengths_all (append_matecho m times out row ping h) = map S (lengths_all out).
Proof.
  unfold lengths_all, lengths_common, lengths_angle_nav, append_matecho; simpl.
  rewrite !length_app; simpl.
  repeat (apply (f_equal2 (@cons nat)); [lia|]); reflexivity.
Qed.

Lemma esp3_ping_accepted log10 x times rows ping z d st :
  esp3_ping log10 x times rows ping z d st
  = fold_left
      (fun st k =>
         match esp3_peak log10 x z d k with
         | Some h => append_esp3 x times st (Z.of_nat (nth k rows 0%nat)) (Z.of_nat ping) h
         | None => st
         end)
      (esp3_accepted log10 x z d) st.
Proof.
  unfold esp3_ping, esp3_accepted.
  destruct (List.length z <? 3)%nat; [reflexivity|].
  revert st. induction (esp3_keep x z) as [|k ks IH]; intros st; [reflexivity|].
  simpl. destruct (esp3_peak log10 x z d k) as [h|] eqn:E; simpl.
  - rewrite E. apply IH.
  - apply IH.
Qed.

(** * The claims *)

(** ** C1: accepted detections and the threshold *)

(** Every value [detect_esp3] records in [TS_comp] failed the test
    [TS_comp <= TS_thr], and is above the threshold when it is a number.
    The test does not catch NaN. *)
Theorem esp3_threshold_guard log10 ds params out :
  detect_esp3 log10 ds params = Ok out ->
  let thr := p_TS_threshold (merge_defaults (merged params no_params)) in
  Forall (fun t => Py.le t thr = false /\ (Py.isnan t = false -> Py.gt t thr = true))
         (TS_comp out).
Proof.
  intros H thr. apply detect_esp3_Ok in H as (pl & Hp & ->).
  change (TS_comp (finalize ?o)) with (TS_comp o).
  rewrite esp3_TS_comp. simpl. apply Forall_forall. intros t Ht.
  apply in_map_iff in Ht as (h & <- & Hin).
  destruct (esp3_hit_facts log10 _ _ _ _ Hp Hin) as (z & d & Hpk & _).
  apply esp3_peak_inv in Hpk. cbv zeta in Hpk.
  destruct Hpk as (_ & _ & _ & _ & _ & _ & _ & _ & _ & _ & Hle).
  apply esp3_prepare_inv in Hp. cbv zeta in Hp.
  destruct Hp as (_ & Hv & _ & _ & _ & _ & _ & _ & _ & _ & _ & Hthr & _).
  rewrite Hthr in Hle. fold thr in Hle. split; [exact Hle|].
  intros Hn. apply not_le_gt; try assumption.
  apply _validate_params_Ok in Hv. destruct Hv as (_ & H120 & _).
  apply le_not_nan in H120. tauto.
Qed.

Lemma esp3_threshold_guard_example :
  exists out,
    detect_esp3 log10_series Sample.one_ping (Some Sample.Np5) = Ok out
    /\ Forall (fun t => Py.le t (-50) = false /\ (Py.isnan t = false -> Py.gt t (-50) = true))
              (TS_comp out)
    /\ nb_valid_targets out = 1.
Proof.
  eexists. split; [vm_compute; reflexivity|]. split.
  - apply (esp3_threshold_guard log10_series Sample.one_ping (Some Sample.Np5)).
    vm_compute. reflexivity.
  - reflexivity.
Defined.

(** Every value [detect_matecho] records in [TS_comp] is finite and failed
    the test [zTS[k] <= TS_thr]; it is above the threshold when that is a
    number ([detect_matecho] does not validate it). *)
Theorem matecho_threshold_guard log10 ds given out :
  detect_matecho log10 ds (Some given) = Ok out ->
  let thr := q_TS_threshold (merge_matecho_defaults given) in
  Forall (fun t => Py.isfinite t = true /\ Py.le t thr = false
                   /\ (Py.isnan thr = false -> Py.gt t thr = true))
         (TS_comp out).
Proof.
  intros H thr. apply detect_matecho_Ok in H as (pl & hs & Hp & Hh & ->).
  change (TS_comp (finalize ?o)) with (TS_comp o).
  rewrite matecho_TS_comp. simpl. apply Forall_forall. intros t Ht.
  apply in_map_iff in Ht as (h & <- & Hin).
  destruct (matecho_hit_facts log10 _ _ _ _ _ Hp Hh Hin) as (_ & _ & Hfin & Hle & _).
  apply matecho_prepare_inv in Hp as (g & Hg & _ & Hmp & _).
  injection Hg as <-. rewrite Hmp in Hle. fold thr in Hle.
  repeat split; try assumption.
  intros Hn. apply not_le_gt; try assumption. apply isfinite_not_nan. assumption.
Qed.

Lemma matecho_threshold_guard_example :
  exists out,
    detect_matecho log10_series Sample.one_ping (Some Sample.Np5) = Ok out
    /\ Forall (fun t => Py.isfinite t = true /\ Py.le t (-50) = false
                        /\ (Py.isnan (-50) = false -> Py.gt t (-50) = true))
              (TS_comp out)
    /\ nb_valid_targets out = 1.
Proof.
  eexists. split; [vm_compute; reflexivity|]. split.
  - apply (matecho_threshold_guard log10_series Sample.one_ping Sample.Np5).
    vm_compute. reflexivity.
  - reflexivity.
Defined.

(** C1 (defect of the code): claimed is that every recorded [TS_comp] is
    strictly greater than [TS_threshold].  On a dataset whose absorption
    coefficient is NaN, [detect_esp3] appends a detection whose [TS_comp] is
    NaN: [NaN <= TS_thr] is False, so the guard lets it through, and NaN is
    not greater than the threshold. *)
Theorem C1_esp3_records_nan :
  exists out,
    detect_esp3 log10_series Sample.nan_absorption (Some Sample.Np5) = Ok out
    /\ TS_comp out = [nan]
    /\ nb_valid_targets out = 1
    /\ _validate_params (merge_defaults Sample.Np5) = Ok tt
    /\ Py.gt nan (p_TS_threshold (merge_defaults Sample.Np5)) = false.
Proof.
  eexists. split; [vm_compute; reflexivity|].
  repeat split; vm_compute; reflexivity.
Qed.

(** ** C2: the lists of the output structure *)

(** C2 (amended): after a run of [detect_matecho] every per-detection list
    of the structure has [nb_valid_targets] entries.  After a run of
    [detect_esp3] the sixteen lists it appends to have [nb_valid_targets]
    entries, and the lists of the angles at the peak and of the navigation
    fields, whose appends are commented out, are empty.

    A rejected candidate appends to no list.  In [detect_esp3] a ping adds to
    each of the sixteen lists one entry per accepted candidate of its column,
    in the order of the candidates, and nothing to the seven others; the
    structure it leaves is the one the loop over the accepted candidates
    alone would leave, and when every candidate of the column is rejected
    the structure is left as it was.  In [detect_matecho] a candidate on which the loop body says
    [continue] leaves the structure as it was, also when it has been added to
    [keep], and an accepted candidate adds one entry to every list. *)
Theorem C2_lists_of_the_structure log10 ds params out :
  (detect_matecho log10 ds params = Ok out ->
   Forall (fun n => Z.of_nat n = nb_valid_targets out) (lengths_all out))
  /\ (detect_esp3 log10 ds params = Ok out ->
      Forall (fun n => Z.of_nat n = nb_valid_targets out) (lengths_common out)
      /\ Forall (fun n => n = 0%nat) (lengths_angle_nav out))
  /\ (forall x times rows ping z d st,
         let st' := esp3_ping log10 x times rows ping z d st in
         let accepted := esp3_accepted log10 x z d in
         lengths_common st'
         = map (fun n => (n + List.length accepted)%nat) (lengths_common st)
         /\ lengths_angle_nav st' = lengths_angle_nav st
         /\ idx_r st' = idx_r st ++ map (fun k => Z.of_nat (nth k rows 0%nat)) accepted
         /\ st' = fold_left
                    (fun st k =>
                       match esp3_peak log10 x z d k with
                       | Some h => append_esp3 x times st (Z.of_nat (nth k rows 0%nat))
                                     (Z.of_nat ping) h
                       | None => st
                       end)
                    accepted st
         /\ ((forall k, In k (esp3_keep x z) -> esp3_peak log10 x z d k = None) ->
             st' = st))
  /\ (forall m times rows ping zP zTS zTSU rcol k rest keep keep' st,
         matecho_candidate m zP zTS zTSU rcol (nth ping (m_heave m) nan) keep k
         = Ok (keep', None) ->
         matecho_scan m times rows ping zP zTS zTSU rcol (k :: rest) keep st
         = matecho_scan m times rows ping zP zTS zTSU rcol rest keep' st)
  /\ (forall m times rows ping zP zTS zTSU rcol k rest keep keep' st h,
         matecho_candidate m zP zTS zTSU rcol (nth ping (m_heave m) nan) keep k
         = Ok (keep', Some h) ->
         exists st',
           matecho_scan m times rows ping zP zTS zTSU rcol (k :: rest) keep st
           = matecho_scan m times rows ping zP zTS zTSU rcol rest keep' st'
           /\ lengths_all st' = map S (lengths_all st)).
Proof.
  split; [|split; [|split; [|split]]].
  - intros H. apply detect_matecho_Ok in H as (pl & hs & _ & _ & ->).
    rewrite finalize_lengths_all, matecho_lengths_all.
    change (nb_valid_targets (finalize ?o)) with (Z.of_nat (List.length (TS_comp o))).
    rewrite matecho_TS_comp, length_app, length_map. simpl.
    repeat constructor.
  - intros H. apply detect_esp3_Ok in H as (pl & _ & ->).
    change (lengths_common (finalize ?o)) with (lengths_common o).
    change (lengths_angle_nav (finalize ?o)) with (lengths_angle_nav o).
    change (nb_valid_targets (finalize ?o)) with (Z.of_nat (List.length (TS_comp o))).
    rewrite esp3_lengths_common, esp3_lengths_angle_nav, esp3_TS_comp, length_app,
      length_map.
    simpl. split; repeat constructor.
  - intros x times rows ping z d st. cbv zeta.
    rewrite esp3_ping_spec, esp3_lengths_common, esp3_lengths_angle_nav, esp3_idx_r,
      esp3_ping_hits_length, esp3_ping_hits_rows.
    do 3 (split; [reflexivity|]).
    split; [rewrite <- esp3_ping_spec; apply esp3_ping_accepted|].
    intros Hnone. now rewrite (esp3_ping_hits_none _ _ rows ping _ _ Hnone).
  - intros m times rows ping zP zTS zTSU rcol k rest keep keep' st H.
    simpl. rewrite H. reflexivity.
  - intros m times rows ping zP zTS zTSU rcol k rest keep keep' st h H.
    eexists. split.
    + simpl. rewrite H. reflexivity.
    + apply append_matecho_lengths.
Qed.

Lemma C2_lists_of_the_structure_example :
  (exists out,
      detect_matecho log10_series Sample.one_ping (Some Sample.Np5) = Ok out
      /\ nb_valid_targets out = 1
      /\ Forall (fun n => Z.of_nat n = nb_valid_targets out) (lengths_all out))
  /\ (exists out,
         detect_esp3 log10_series Sample.one_ping (Some Sample.Np5) = Ok out
         /\ nb_valid_targets out = 1
         /\ Forall (fun n => Z.of_nat n = nb_valid_targets out) (lengths_common out)
         /\ Forall (fun n => n = 0%nat) (lengths_angle_nav out))
  /\ (let m := Sample.matecho_constants in
      matecho_candidate m Sample.echo25 Sample.echo25 Sample.echo25 (Sample.ramp 50)
                        0 [] 10%nat = Ok ([], None)
      /\ matecho_scan m [0] (seq 0 50) 0 Sample.echo25 Sample.echo25 Sample.echo25
                      (Sample.ramp 50) [10%nat] [] init_st_struct
         = Ok ([], init_st_struct))
  /\ (let m := Sample.matecho_constants in
      exists h st',
        matecho_candidate m Sample.echo25 Sample.echo25 Sample.echo25 (Sample.ramp 50)
                          0 [] 25%nat = Ok ([25%nat], Some h)
        /\ matecho_scan m [0] (seq 0 50) 0 Sample.echo25 Sample.echo25 Sample.echo25
                        (Sample.ramp 50) [25%nat] [] init_st_struct
           = Ok ([25%nat], st')
        /\ Forall (fun n => n = 1%nat) (lengths_all st')).
Proof.
  split; [|split; [|split]].
  - eexists. split; [vm_compute; reflexivity|]. split; [reflexivity|].
    apply (proj1 (C2_lists_of_the_structure log10_series Sample.one_ping
                    (Some Sample.Np5) _)).
    vm_compute. reflexivity.
  - eexists. split; [vm_compute; reflexivity|]. split; [reflexivity|].
    apply (proj1 (proj2 (C2_lists_of_the_structure log10_series Sample.one_ping
                           (Some Sample.Np5) _))).
    vm_compute. reflexivity.
  - cbv zeta.
    assert (H : matecho_candidate Sample.matecho_constants Sample.echo25 Sample.echo25
                  Sample.echo25 (Sample.ramp 50)
                  (nth 0 (m_heave Sample.matecho_constants) nan) [] 10%nat
                = Ok ([], None)) by (vm_compute; reflexivity).
    split; [exact H|].
    exact (proj1 (proj2 (proj2 (proj2
             (C2_lists_of_the_structure log10_series Sample.one_ping None
                init_st_struct))))
             Sample.matecho_constants [0] (seq 0 50) 0%nat Sample.echo25 Sample.echo25
             Sample.echo25 (Sample.ramp 50) 10%nat [] [] [] init_st_struct H).
  - cbv zeta.
    destruct (matecho_candidate Sample.matecho_constants Sample.echo25 Sample.echo25
                Sample.echo25 (Sample.ramp 50)
                (nth 0 (m_heave Sample.matecho_constants) nan) [] 25%nat)
      as [[keep' [h|]]|e] eqn:H; try (vm_compute in H; discriminate).
    assert (keep' = [25%nat]) by (vm_compute in H; congruence). subst keep'.
    destruct (proj2 (proj2 (proj2 (proj2
                (C2_lists_of_the_structure log10_series Sample.one_ping None
                   init_st_struct))))
                Sample.matecho_constants [0] (seq 0 50) 0%nat Sample.echo25 Sample.echo25
                Sample.echo25 (Sample.ramp 50) 25%nat [] [] [25%nat] init_st_struct h H)
      as (st' & Hscan & Hlen).
    exists h, st'. split; [exact H|]. split; [exact Hscan|].
    rewrite Hlen. vm_compute. repeat constructor.
Defined.

(** C2 as stated fails for [detect_esp3]: one detection is recorded, and
    the navigation lists are still empty. *)
Lemma C2_esp3_lists_differ :
  exists out,
    detect_esp3 log10_series Sample.one_ping (Some Sample.Np5) = Ok out
    /\ List.length (TS_comp out) = 1%nat
    /\ List.length (Heave out) = 0%nat
    /\ List.length (Angle_minor_axis out) = 0%nat.
Proof.
  eexists. split; [vm_compute; reflexivity|]. repeat split.
Qed.

(** ** C4: the pulse-length window of [detect_esp3] *)

Lemma nth_map_lt {A B : Type} (f : A -> B) (l : list A) (i : nat) (d : B) (d' : A) :
  (i < List.length l)%nat -> nth i (map f l) d = f (nth i l d').
Proof.
  intros H. rewrite (nth_indep _ d (f d')) by (rewrite length_map; exact H).
  apply map_nth.
Qed.

(** C4 (amended): every [Transmitted_pulse_length] recorded by
    [detect_esp3] lies in [[min_len, max_len]], where
    [min_len = max(1, int(Np * MinNormPL))] (truncation, not rounding) and
    [max_len = max(1, ceil(Np * MaxNormPL))]. *)
Theorem C4_pulse_length_window log10 ds params out :
  detect_esp3 log10 ds params = Ok out ->
  let p := merge_defaults (merged params no_params) in
  exists Np T a b,
    esp3_Np_T ds p = Ok (Np, T)
    /\ Py.int (Py.float_of_Z Np * p_MinNormPL p)%float = Ok a
    /\ Py.ceil (Py.float_of_Z Np * p_MaxNormPL p)%float = Ok b
    /\ Forall (fun plen => Z.max 1 a <= plen <= Z.max 1 b) (Transmitted_pulse_length out).
Proof.
  intros H p. apply detect_esp3_Ok in H as (pl & Hp & ->).
  pose proof (esp3_prepare_inv _ _ _ Hp) as Hi. cbv zeta in Hi. fold p in Hi.
  destruct Hi as (_ & _ & _ & _ & _ & _ & HN & Hmin & Hmax & _).
  unfold esp3_min_len in Hmin. apply bind_Ok in Hmin as (a & Ha & Hmin).
  unfold esp3_max_len in Hmax. apply bind_Ok in Hmax as (b & Hb & Hmax).
  injection Hmin as Hmin. injection Hmax as Hmax.
  exists (x_Np (plan_ctx pl)), (x_T (plan_ctx pl)), a, b.
  repeat split; try assumption.
  change (Transmitted_pulse_length (finalize ?o)) with (Transmitted_pulse_length o).
  rewrite esp3_Transmitted_pulse_length. simpl. apply Forall_forall. intros n Hn.
  apply in_map_iff in Hn as (h & <- & Hin).
  destruct (esp3_hit_facts log10 _ _ _ _ Hp Hin) as (z & d & Hpk & _).
  apply esp3_peak_inv in Hpk. cbv zeta in Hpk.
  destruct Hpk as (_ & _ & _ & _ & _ & Hb' & _). rewrite Hmin, Hmax. exact Hb'.
Qed.

Lemma C4_pulse_length_window_example :
  exists out,
    detect_esp3 log10_series Sample.one_ping (Some Sample.Np5) = Ok out
    /\ Transmitted_pulse_length out = [5]
    /\ exists Np T a b,
        esp3_Np_T Sample.one_ping (merge_defaults Sample.Np5) = Ok (Np, T)
        /\ Py.int (Py.float_of_Z Np * 0.7)%float = Ok a
        /\ Py.ceil (Py.float_of_Z Np * 1.5)%float = Ok b
        /\ Forall (fun plen => Z.max 1 a <= plen <= Z.max 1 b)
                  (Transmitted_pulse_length out).
Proof.
  eexists. split; [vm_compute; reflexivity|]. split; [reflexivity|].
  apply (C4_pulse_length_window log10_series Sample.one_ping (Some Sample.Np5)).
  vm_compute. reflexivity.
Defined.

(** C4 as stated fails: with [Np = 5] and [MinNormPL = 0.7] the claimed
    lower bound is [round(3.5) = 4], and [detect_esp3] accepts an echo of
    pulse length 3, because its [min_len] is [int(3.5) = 3]. *)
Lemma C4_accepts_below_rounded_bound :
  exists out,
    detect_esp3 log10_series Sample.narrow_echo (Some Sample.Np5) = Ok out
    /\ Transmitted_pulse_length out = [3]
    /\ Py.round (Py.float_of_Z 5 * DEFAULTS.MinNormPL)%float = Ok 4
    /\ Py.int (Py.float_of_Z 5 * DEFAULTS.MinNormPL)%float = Ok 3.
Proof.
  eexists. split; [vm_compute; reflexivity|]. repeat split.
Qed.

(** ** C9: the time-varied gain at the peak in [detect_esp3] *)

(** C9: in a run of [detect_esp3] the recorded compensated target strength
    is the uncompensated one, and for the [i]-th detection, at ping
    [Ping_number[i]] and sample [idx_r[i]], the uncompensated target strength
    is the dataset's own signal value there (no compensation was applied to
    the matrix) plus [40 log10(r_eff) + 2 alpha r_eff] at
    [r_eff = Target_range[i] - c T / 4]; [r_eff <= 0] is False; and
    [Target_range[i]] is the depth of that sample when it is finite. *)
Theorem C9_tvg_at_the_peak log10 ds params out :
  detect_esp3 log10 ds params = Ok out ->
  let p := merge_defaults (merged params no_params) in
  let c := p_SoundSpeed p in
  let alpha := merged (sound_absorption ds) 0%float in
  exists Np T,
    esp3_Np_T ds p = Ok (Np, T)
    /\ TS_comp out = TS_uncomp out
    /\ forall i, (i < List.length (TS_uncomp out))%nat ->
         let ping := Z.to_nat (nth i (Ping_number out) 0) in
         let row := Z.to_nat (nth i (idx_r out) 0) in
         let r_eff := (nth i (Target_range out) nan - c * T / 4)%float in
         nth i (TS_uncomp out) nan
         = (nth row (column (Sv ds) ping) nan
            + (40 * log10 r_eff + 2 * alpha * r_eff))%float
         /\ Py.le r_eff 0 = false
         /\ (Py.isfinite (nth row (column (depth ds) ping) nan) = true ->
             nth i (Target_range out) nan = nth row (column (depth ds) ping) nan).
Proof.
  intros H p c alpha. apply detect_esp3_Ok in H as (pl & Hp & ->).
  pose proof (esp3_prepare_inv _ _ _ Hp) as Hi. cbv zeta in Hi. fold p in Hi.
  destruct Hi as (_ & _ & _ & _ & _ & _ & HN & _ & _ & Hc & Hal & _).
  exists (x_Np (plan_ctx pl)), (x_T (plan_ctx pl)).
  split; [exact HN|].
  change (TS_comp (finalize ?o)) with (TS_comp o).
  change (TS_uncomp (finalize ?o)) with (TS_uncomp o).
  change (Target_range (finalize ?o)) with (Target_range o).
  change (Ping_number (finalize ?o)) with (Ping_number o).
  change (idx_r (finalize ?o)) with (idx_r o).
  rewrite esp3_TS_comp, esp3_TS_uncomp, esp3_Target_range, esp3_Ping_number, esp3_idx_r.
  simpl.
  assert (Hall : forall h, In h (esp3_hits log10 ds pl) ->
            pk_TS_comp (hit_peak h) = pk_TS_uncomp (hit_peak h)
            /\ let r_eff := (pk_r_peak (hit_peak h) - c * x_T (plan_ctx pl) / 4)%float in
               pk_TS_uncomp (hit_peak h)
               = (nth (hit_k h) (column (Sv ds) (hit_ping h)) nan
                  + (40 * log10 r_eff + 2 * alpha * r_eff))%float
               /\ Py.le r_eff 0 = false
               /\ (Py.isfinite (nth (hit_k h) (column (depth ds) (hit_ping h)) nan) = true ->
                   pk_r_peak (hit_peak h) = nth (hit_k h) (column (depth ds) (hit_ping h)) nan)
               /\ hit_row h = Z.of_nat (hit_k h)).
  { intros h Hin.
    destruct (esp3_hit_facts log10 _ _ _ _ Hp Hin) as (z & d & Hpk & _ & Hrow & Hz & Hd & _).
    apply esp3_peak_inv in Hpk. cbv zeta in Hpk.
    destruct Hpk as (_ & _ & _ & _ & _ & _ & Hr & Hre & Hu & Hcu & _).
    rewrite Hz, Hc, Hal in Hu. rewrite Hc in Hre. rewrite Hd in Hr.
    fold p c alpha in Hu, Hre. cbv zeta. auto. }
  split.
  - apply map_ext_in. intros h Hin. apply (Hall h Hin).
  - intros i Hi. rewrite length_map in Hi.
    pose (dh := mk_hit 0 0 0 (mk_peak nan nan nan nan nan 0 0 0)).
    rewrite (nth_map_lt _ _ i nan dh), (nth_map_lt _ _ i 0 dh),
      (nth_map_lt _ _ i 0 dh), (nth_map_lt _ _ i nan dh) by assumption.
    destruct (Hall (nth i (esp3_hits log10 ds pl) dh) (nth_In _ _ Hi))
      as (_ & Hu & Hre & Hr & Hrow).
    rewrite Hrow, !Nat2Z.id. auto.
Qed.

Lemma C9_tvg_at_the_peak_example :
  exists out,
    detect_esp3 log10_series Sample.one_ping (Some Sample.Np5) = Ok out
    /\ nb_valid_targets out = 1
    /\ TS_comp out = TS_uncomp out
    /\ nth 0 (TS_uncomp out) nan
       = (nth 25 Sample.echo25 nan
          + (40 * log10_series (26 - 1500 * 1e-3 / 4) + 2 * 0 * (26 - 1500 * 1e-3 / 4)))%float.
Proof.
  eexists. split; [vm_compute; reflexivity|]. split; [reflexivity|].
  destruct (C9_tvg_at_the_peak log10_series Sample.one_ping (Some Sample.Np5) _
              ltac:(vm_compute; reflexivity)) as (Np & T & HN & Heq & Hi).
  split; [exact Heq|].
  injection HN as _ <-.
  exact (proj1 (Hi 0%nat ltac:(vm_compute; lia))).
Defined.

(** ** C3: the block partition of the ping axis *)

Lemma py_slice_seq0 (a b : Z) (N : nat) :
  0 <= a -> 0 <= b ->
  py_slice a b (seq 0 N)
  = seq (Z.to_nat (Z.min a (Z.of_nat N)))
        (Z.to_nat (Z.min b (Z.of_nat N)) - Z.to_nat (Z.min a (Z.of_nat N))).
Proof.
  intros Ha Hb. unfold py_slice. rewrite length_seq.
  destruct (Z.ltb_spec a 0) as [?|_]; [lia|].
  destruct (Z.ltb_spec b 0) as [?|_]; [lia|].
  rewrite skipn_seq, firstn_seq0. simpl. f_equal. lia.
Qed.

(** The pings of block [ui], for a positive block size. *)
Lemma block_pings_pos n bs ui :
  0 <= n -> 1 <= bs -> 0 <= ui ->
  block_pings n bs ui
  = seq (Z.to_nat (Z.min (ui * bs) n))
        (Z.to_nat (Z.min ((ui + 1) * bs) n) - Z.to_nat (Z.min (ui * bs) n)).
Proof.
  intros Hn Hbs Hui. unfold block_pings, arange.
  rewrite py_slice_seq0 by nia. rewrite Z2Nat.id by assumption.
  replace (Z.min (Z.min ((ui + 1) * bs) n) n) with (Z.min ((ui + 1) * bs) n) by lia.
  reflexivity.
Qed.

(** A non-positive block size (only [detect_matecho] lets one through)
    leaves every block after the first empty. *)
Lemma block_pings_nonpos n bs ui :
  0 <= n -> bs <= 0 -> 1 <= ui -> block_pings n bs ui = [].
Proof.
  intros Hn Hbs Hui. unfold block_pings, arange, py_slice.
  rewrite length_seq, Z2Nat.id by assumption.
  assert (ui * bs <= 0) by nia. assert ((ui + 1) * bs <= ui * bs) by nia.
  match goal with |- firstn ?k _ = _ => replace k with 0%nat; [reflexivity|] end.
  destruct (Z.ltb_spec (ui * bs) 0), (Z.ltb_spec (Z.min ((ui + 1) * bs) n) 0); try lia.
  assert (bs = 0) by nia. subst bs. lia.
Qed.

Lemma blocks_concat_pos n bs (k : nat) :
  0 <= n -> 1 <= bs ->
  List.concat (map (block_pings n bs) (map Z.of_nat (seq 0 k)))
  = seq 0 (Z.to_nat (Z.min (Z.of_nat k * bs) n)).
Proof.
  intros Hn Hbs. induction k as [|k IH].
  - simpl. replace (Z.min 0 n) with 0 by lia. reflexivity.
  - rewrite seq_S, !map_app, List.concat_app, IH. simpl List.concat.
    rewrite app_nil_r, block_pings_pos by lia.
    replace (Z.of_nat (S k) * bs) with ((Z.of_nat k + 1) * bs) by lia.
    set (A := Z.to_nat (Z.min (Z.of_nat k * bs) n)).
    set (B := Z.to_nat (Z.min ((Z.of_nat k + 1) * bs) n)).
    assert (A <= B)%nat by (unfold A, B; nia).
    replace B with (A + (B - A))%nat at 2 by lia.
    rewrite seq_app. reflexivity.
Qed.

Lemma ceil_div_bounds n bs :
  1 <= n -> 1 <= bs ->
  1 <= Py.ceil_div n bs /\ (Py.ceil_div n bs - 1) * bs < n <= Py.ceil_div n bs * bs.
Proof.
  intros Hn Hbs. unfold Py.ceil_div.
  pose proof (Z.div_mod (- n) bs ltac:(lia)) as E.
  pose proof (Z.mod_pos_bound (- n) bs ltac:(lia)) as B.
  nia.
Qed.

(** The ceiling of a positive float is at least 1. *)
Lemma ceil_of_positive (q : float) (c : Z) :
  Py.gt q 0 = true -> Py.ceil q = Ok c -> 1 <= c.
Proof.
  unfold Py.gt, Py.lt, Py.ceil. rewrite ltb_spec. unfold SFltb.
  change (Prim2SF 0) with (S754_zero false).
  destruct (Prim2SF q) as [s|s| |s m e]; intros Hlt H; try discriminate.
  destruct s; [discriminate|]. injection H as <-.
  unfold Py.smant. pose proof (Pos2Z.is_pos m) as Hm.
  destruct (Z.leb_spec 0 e) as [He|He].
  - pose proof (Z.pow_pos_nonneg 2 e ltac:(lia) He). destruct (2 ^ e); lia.
  - pose proof (Z.pow_pos_nonneg 2 (- e) ltac:(lia) ltac:(lia)) as Hd.
    pose proof (Z.div_mod (Z.neg m) (2 ^ (- e)) ltac:(lia)) as E.
    pose proof (Z.mod_pos_bound (Z.neg m) (2 ^ (- e)) Hd) as B.
    change (- Z.pos m) with (Z.neg m).
    pose proof (Pos2Z.neg_is_neg m). nia.
Qed.

(** C3 (amended): let the float quotient [block_len / cells_per_ping] be
    positive and let [c], its ceiling, be defined (the quotient is not NaN,
    not infinite and did not underflow to zero), and let [total_pings >= 1].
    Then
    [block_size = min(c, total_pings) >= 1], both detectors run
    [num_blocks = ceil(total_pings / block_size)] iterations, block [ui] is
    the contiguous range starting at [ui * block_size] of length
    [min(block_size, total_pings - ui * block_size)], the blocks in order
    concatenate to [0, 1, ..., total_pings - 1] (each ping once, in
    increasing order, no gap and no overlap), every block but the last has
    [block_size] pings, and the last has between 1 and [block_size]. *)
Theorem C3_block_partition (block_len : float) (idx_r_tot_size total_pings c : Z) :
  1 <= total_pings ->
  Py.gt (block_len / Py.float_of_Z (Z.max 1 idx_r_tot_size))%float 0 = true ->
  Py.ceil (block_len / Py.float_of_Z (Z.max 1 idx_r_tot_size))%float = Ok c ->
  let block_size := Z.min c total_pings in
  let num_blocks := Py.ceil_div total_pings block_size in
  block_size_of block_len idx_r_tot_size total_pings = Ok block_size
  /\ 1 <= block_size
  /\ num_ite_esp3 total_pings block_size = num_blocks
  /\ num_ite_matecho total_pings block_size = num_blocks
  /\ List.concat (blocks total_pings block_size num_blocks) = arange total_pings
  /\ (forall ui, 0 <= ui < num_blocks ->
        block_pings total_pings block_size ui
        = seq (Z.to_nat (ui * block_size))
              (Z.to_nat (Z.min block_size (total_pings - ui * block_size))))
  /\ (forall ui, 0 <= ui < num_blocks - 1 ->
        Z.of_nat (List.length (block_pings total_pings block_size ui)) = block_size)
  /\ 1 <= Z.of_nat (List.length (block_pings total_pings block_size (num_blocks - 1)))
     <= block_size.
Proof.
  intros Hn Hq Hc block_size num_blocks.
  pose proof (ceil_of_positive _ _ Hq Hc) as Hc1.
  assert (Hbs : 1 <= block_size) by (unfold block_size; lia).
  pose proof (ceil_div_bounds total_pings block_size Hn Hbs) as (Hq1 & Hq2 & Hq3).
  fold num_blocks in Hq1, Hq2, Hq3.
  assert (Hblk : forall ui, 0 <= ui < num_blocks ->
            block_pings total_pings block_size ui
            = seq (Z.to_nat (ui * block_size))
                  (Z.to_nat (Z.min block_size (total_pings - ui * block_size)))).
  { intros ui Hui. rewrite block_pings_pos by lia.
    assert (ui * block_size <= (num_blocks - 1) * block_size) by nia.
    f_equal; lia. }
  split; [unfold block_size_of; rewrite Hc; reflexivity|].
  split; [exact Hbs|].
  split; [unfold num_ite_esp3; destruct (Z.gtb_spec block_size 0); [reflexivity|lia]|].
  split; [unfold num_ite_matecho; rewrite Z.max_l by lia; reflexivity|].
  split.
  { unfold blocks, range, arange. rewrite blocks_concat_pos by lia.
    f_equal. rewrite Z2Nat.id by lia. lia. }
  split; [exact Hblk|].
  split.
  - intros ui Hui. rewrite Hblk, length_seq by lia.
    assert ((ui + 1) * block_size <= (num_blocks - 1) * block_size) by nia. lia.
  - rewrite Hblk, length_seq by lia. lia.
Qed.

(** The default budget on a frame of 50 samples and 7 pings: one block. *)
Lemma C3_block_partition_example :
  block_size_of DEFAULTS.block_len 50 7 = Ok 7
  /\ blocks 7 7 1 = [[0; 1; 2; 3; 4; 5; 6]%nat]
  /\ List.concat (blocks 7 (Z.min 66667 7) (Py.ceil_div 7 (Z.min 66667 7))) = arange 7.
Proof.
  pose proof (C3_block_partition DEFAULTS.block_len 50 7 66667
                ltac:(lia) ltac:(vm_compute; reflexivity) ltac:(vm_compute; reflexivity))
    as (H1 & _ & _ & _ & H5 & _).
  split; [exact H1|]. split; [reflexivity|exact H5].
Defined.

(** A budget of 6 cells on a frame of 2 samples and 7 pings: blocks of 3. *)
Lemma blocks_of_three :
  block_size_of 6 2 7 = Ok 3 /\ blocks 7 3 (num_ite_esp3 7 3) = [[0; 1; 2]; [3; 4; 5]; [6]]%nat.
Proof. split; vm_compute; reflexivity. Qed.

(** C3 as stated fails: [block_len = 5e-324] passes [_validate_params], the
    quotient by 50 cells underflows to zero, [block_size] is 0, and the block
    loop of [detect_esp3] visits no ping of a one-ping frame. *)
Lemma C3_block_size_zero :
  let params := Sample.with_block_len 5e-324 Sample.Np5 in
  _validate_params (merge_defaults params) = Ok tt
  /\ block_size_of 5e-324 50 1 = Ok 0
  /\ exists pl,
       esp3_prepare Sample.one_ping (Some params) = Ok pl
       /\ plan_block_size pl = 0
       /\ blocks (ping_size Sample.one_ping) (plan_block_size pl) (plan_num_ite pl) = [].
Proof.
  split; [vm_compute; reflexivity|]. split; [vm_compute; reflexivity|].
  eexists. split; [vm_compute; reflexivity|]. split; reflexivity.
Qed.

(** ** C5: nothing is detected at or under the bottom *)

Lemma first_under_Some b d : forall i0 c,
  first_under b d i0 = Some c ->
  (i0 <= c < i0 + List.length d)%nat
  /\ Py.isfinite (nth (c - i0) d nan) = true
  /\ Py.ge (nth (c - i0) d nan) b = true
  /\ forall i, (i0 <= i < c)%nat ->
               Py.isfinite (nth (i - i0) d nan) && Py.ge (nth (i - i0) d nan) b = false.
Proof.
  induction d as [|x d IH]; intros i0 c H; simpl in H; [discriminate|].
  destruct (Py.isfinite x && Py.ge x b) eqn:E.
  - injection H as <-. apply andb_true_iff in E as (E1 & E2).
    rewrite Nat.sub_diag. simpl. repeat split; try assumption; lia.
  - apply IH in H as (Hr & Hf & Hg & Hbefore).
    replace (c - i0)%nat with (S (c - S i0)) by lia. simpl.
    repeat split; try assumption; try lia.
    intros i Hi. destruct (Nat.eq_dec i i0) as [->|Hne].
    + rewrite Nat.sub_diag. exact E.
    + replace (i - i0)%nat with (S (i - S i0)) by lia. apply Hbefore. lia.
Qed.

Lemma strictly_increasing_step l : forall i,
  strictly_increasing l = true -> (S i < List.length l)%nat ->
  Py.lt (nth i l nan) (nth (S i) l nan) = true.
Proof.
  induction l as [|a l IH]; intros i H Hi; simpl in Hi; [lia|].
  destruct l as [|b l]; [simpl in Hi; lia|].
  simpl in H. apply andb_true_iff in H as (H1 & H2).
  destruct i as [|i]; [exact H1|].
  apply (IH i H2). simpl in *. lia.
Qed.

(** Under an increasing depth column, every sample after one at or under
    the bottom is at or under the bottom. *)
Lemma under_bottom_onwards l b c k :
  strictly_increasing l = true -> (c <= k < List.length l)%nat ->
  Py.ge (nth c l nan) b = true -> Py.ge (nth k l nan) b = true.
Proof.
  intros Hinc (Hck & Hk) Hc. induction k as [|k IH].
  - replace c with 0%nat in Hc by lia. exact Hc.
  - destruct (Nat.eq_dec c (S k)) as [<-|Hne]; [exact Hc|].
    unfold Py.ge in *. eapply le_lt_trans.
    + apply IH; lia.
    + apply strictly_increasing_step; assumption.
Qed.

Lemma fold_left_max_le (N : Z) : forall l x,
  x <= N -> Forall (fun y => y <= N) l -> fold_left Z.max l x <= N.
Proof.
  induction l as [|y l IH]; intros x Hx Hl; simpl; [exact Hx|].
  inversion Hl; subst. apply IH; [lia|assumption].
Qed.

Lemma column_length ds ip :
  Forall (fun col => List.length col = range_sample_size ds) (depth ds) ->
  column (depth ds) ip = [] \/ List.length (column (depth ds) ip) = range_sample_size ds.
Proof.
  intros Hwf. unfold column.
  destruct (Nat.lt_ge_cases ip (List.length (depth ds))) as [H|H].
  - right. rewrite Forall_forall in Hwf. apply Hwf. apply nth_In. exact H.
  - left. apply nth_overflow. exact H.
Qed.

Lemma idx_bot_ping_le ds ip bv :
  Forall (fun col => List.length col = range_sample_size ds) (depth ds) ->
  idx_bot_ping (Z.of_nat (range_sample_size ds)) (column (depth ds) ip) bv
  <= Z.of_nat (range_sample_size ds) - 1.
Proof.
  intros Hwf. unfold idx_bot_ping.
  destruct (first_under bv (column (depth ds) ip) 0) as [c|] eqn:E; [|lia].
  apply first_under_Some in E as (Hc & _).
  destruct (column_length ds ip Hwf) as [H|H]; rewrite H in Hc; simpl in Hc; lia.
Qed.

(** With a bottom line the global row domain stays within the sample axis. *)
Lemma idx_r_tot_of_bottom_length ds b rows :
  Forall (fun col => List.length col = range_sample_size ds) (depth ds) ->
  idx_r_tot_of ds (Some b) = Ok rows ->
  (List.length rows <= range_sample_size ds)%nat.
Proof.
  intros Hwf H. unfold idx_r_tot_of in H. apply bind_Ok in H as (mx & Hmx & H).
  injection H as <-. unfold arange. rewrite length_seq.
  unfold nanmax in Hmx. destruct (idx_bot ds b (arange (ping_size ds))) as [|x l] eqn:E;
    [discriminate|].
  injection Hmx as <-.
  assert (Hall : Forall (fun y => y <= Z.of_nat (range_sample_size ds) - 1) (x :: l)).
  { rewrite <- E. unfold idx_bot. apply Forall_forall. intros y Hy.
    apply in_map_iff in Hy as (ip & <- & _). apply idx_bot_ping_le. exact Hwf. }
  inversion Hall; subst.
  match goal with
  | Hx : x <= _, Hl : Forall _ l |- _ => pose proof (fold_left_max_le _ l x Hx Hl)
  end. lia.
Qed.

Lemma Forall2_map_same {A B C : Type} (R : B -> C -> Prop) (f : A -> B) (g : A -> C) l :
  Forall (fun a => R (f a) (g a)) l -> Forall2 R (map f l) (map g l).
Proof.
  induction 1; simpl; constructor; assumption.
Qed.

(** A detection at position [k] of a ping whose cell is not under the
    bottom lies strictly before the ping's bottom index. *)
Lemma above_first_under ds b ip k c :
  Forall (fun col => List.length col = range_sample_size ds) (depth ds) ->
  Forall (fun col => strictly_increasing col = true) (depth ds) ->
  (k < range_sample_size ds)%nat ->
  Py.ge (nth k (column (depth ds) ip) nan) (nth ip b nan) = false ->
  first_under (nth ip b nan) (column (depth ds) ip) 0 = Some c ->
  Z.of_nat k < Z.of_nat c.
Proof.
  intros Hwf Hinc Hk Hun Hc.
  apply first_under_Some in Hc as (Hr & _ & Hge & _).
  rewrite Nat.sub_0_r in Hge.
  destruct (column_length ds ip Hwf) as [H|H]; [rewrite H in Hr; simpl in Hr; lia|].
  destruct (Nat.lt_ge_cases k c) as [Hlt|Hle]; [lia|]. exfalso.
  assert (Hin : In (column (depth ds) ip) (depth ds)).
  { unfold column. apply nth_In.
    destruct (Nat.lt_ge_cases ip (List.length (depth ds))) as [?|Hov]; [assumption|].
    unfold column in H. rewrite (nth_overflow _ _ Hov) in H. simpl in H. lia. }
  rewrite Forall_forall in Hinc.
  rewrite (under_bottom_onwards _ _ c k (Hinc _ Hin)) in Hun;
    [discriminate | lia | exact Hge].
Qed.

Lemma above_idx_bot ds b ip k :
  Forall (fun col => List.length col = range_sample_size ds) (depth ds) ->
  Forall (fun col => strictly_increasing col = true) (depth ds) ->
  (k + 1 < range_sample_size ds)%nat ->
  Py.ge (nth k (column (depth ds) ip) nan) (nth ip b nan) = false ->
  Z.of_nat k < idx_bot_ping (Z.of_nat (range_sample_size ds)) (column (depth ds) ip)
                            (nth ip b nan).
Proof.
  intros Hwf Hinc Hk Hun. unfold idx_bot_ping.
  destruct (first_under (nth ip b nan) (column (depth ds) ip) 0) as [c|] eqn:E; [|lia].
  eapply above_first_under; try eassumption. lia.
Qed.

(** C5: let a bottom line be supplied, and let the frame satisfy its
    data-model invariants (every depth column has the frame's number of
    samples, and depth strictly increases with the sample index).  The
    bottom index of a ping ([idx_bot_ping]) is the first sample whose depth
    is finite and at or under the ping's bottom depth ([first_under]), and the
    last sample index for a ping without such a sample.  For either
    detector, every recorded [idx_r] is strictly below the bottom index of
    its ping; so for a ping with a crossing it is strictly below the
    crossing index. *)
Theorem C5_no_detection_under_bottom log10 ds given b out :
  bottom_da given = Some b ->
  Forall (fun col => List.length col = range_sample_size ds) (depth ds) ->
  Forall (fun col => strictly_increasing col = true) (depth ds) ->
  detect_esp3 log10 ds (Some given) = Ok out
  \/ detect_matecho log10 ds (Some given) = Ok out ->
  Forall2 (fun ping row =>
             let d := column (depth ds) (Z.to_nat ping) in
             let bv := nth (Z.to_nat ping) b nan in
             row < idx_bot_ping (Z.of_nat (range_sample_size ds)) d bv
             /\ forall c, first_under bv d 0 = Some c -> row < Z.of_nat c)
          (Ping_number out) (idx_r out)
  /\ (forall d bv c,
        first_under bv d 0 = Some c ->
        Py.isfinite (nth c d nan) = true /\ Py.ge (nth c d nan) bv = true
        /\ forall i, (i < c)%nat ->
                     Py.isfinite (nth i d nan) && Py.ge (nth i d nan) bv = false)
  /\ (forall d bv N c, first_under bv d 0 = Some c -> idx_bot_ping N d bv = Z.of_nat c)
  /\ (forall d bv N, first_under bv d 0 = None -> idx_bot_ping N d bv = N - 1).
Proof.
  intros Hb Hwf Hinc H.
  assert (Hkey : forall (ip k : nat),
             (k + 1 < range_sample_size ds)%nat ->
             Py.ge (nth k (column (depth ds) ip) nan) (nth ip b nan) = false ->
             let d := column (depth ds) (Z.to_nat (Z.of_nat ip)) in
             let bv := nth (Z.to_nat (Z.of_nat ip)) b nan in
             Z.of_nat k < idx_bot_ping (Z.of_nat (range_sample_size ds)) d bv
             /\ forall c, first_under bv d 0 = Some c -> Z.of_nat k < Z.of_nat c).
  { intros ip k Hk Hun. cbv zeta. rewrite Nat2Z.id. split.
    - apply above_idx_bot; assumption.
    - intros c Hc. eapply above_first_under; try eassumption. lia. }
  split; [|split; [|split]].
  - destruct H as [H|H].
    + apply detect_esp3_Ok in H as (pl & Hp & ->).
      change (Ping_number (finalize ?o)) with (Ping_number o).
      change (idx_r (finalize ?o)) with (idx_r o).
      rewrite esp3_Ping_number, esp3_idx_r. simpl.
      apply Forall2_map_same, Forall_forall. intros h Hin.
      destruct (esp3_hit_facts log10 _ _ _ _ Hp Hin)
        as (z & d & _ & _ & Hrow & _ & _ & Hun & Hk).
      apply esp3_prepare_inv in Hp. cbv zeta in Hp. simpl merged in Hp.
      destruct Hp as (_ & _ & Hbb & Hrows & _).
      rewrite Hb in Hbb, Hrows. rewrite Hbb in Hun.
      pose proof (idx_r_tot_of_bottom_length _ _ _ Hwf Hrows).
      rewrite Hrow. apply Hkey; [lia|]. apply Hun. reflexivity.
    + apply detect_matecho_Ok in H as (pl & hs & Hp & Hh & ->).
      change (Ping_number (finalize ?o)) with (Ping_number o).
      change (idx_r (finalize ?o)) with (idx_r o).
      rewrite matecho_Ping_number, matecho_idx_r. simpl.
      apply Forall2_map_same, Forall_forall. intros h Hin.
      destruct (matecho_hit_facts log10 _ _ _ _ _ Hp Hh Hin)
        as (Hrow & _ & _ & _ & Hun & Hk).
      apply matecho_prepare_inv in Hp as (g & Hg & _ & _ & Hbb & Hrows & _).
      injection Hg as <-.
      rewrite Hb in Hbb, Hrows. rewrite Hbb in Hun.
      pose proof (idx_r_tot_of_bottom_length _ _ _ Hwf Hrows).
      rewrite Hrow. apply Hkey; [lia|]. apply Hun. reflexivity.
  - intros d bv c Hc. apply first_under_Some in Hc as (_ & Hf & Hg & Hbefore).
    rewrite Nat.sub_0_r in Hf, Hg. repeat split; try assumption.
    intros i Hi. specialize (Hbefore i ltac:(lia)). rewrite Nat.sub_0_r in Hbefore.
    exact Hbefore.
  - intros d bv N c Hc. unfold idx_bot_ping. rewrite Hc. reflexivity.
  - intros d bv N Hn. unfold idx_bot_ping. rewrite Hn. reflexivity.
Qed.

(** Two echoes, at samples 25 and 40, and a bottom index of 30: both
    detectors report sample 25 only. *)
Lemma C5_no_detection_under_bottom_example :
  first_under 30.5 (Sample.ramp 50) 0 = Some 30%nat
  /\ (exists out,
         detect_esp3 log10_series Sample.two_echoes (Some Sample.bottom_30_5) = Ok out
         /\ idx_r out = [25]
         /\ Forall2 (fun ping row =>
                       let d := column (depth Sample.two_echoes) (Z.to_nat ping) in
                       let bv := nth (Z.to_nat ping) [30.5%float] nan in
                       row < idx_bot_ping 50 d bv
                       /\ forall c, first_under bv d 0 = Some c -> row < Z.of_nat c)
                    (Ping_number out) (idx_r out))
  /\ (exists out,
         detect_matecho log10_series Sample.two_echoes (Some Sample.bottom_30_5) = Ok out
         /\ idx_r out = [25]
         /\ Forall2 (fun ping row =>
                       let d := column (depth Sample.two_echoes) (Z.to_nat ping) in
                       let bv := nth (Z.to_nat ping) [30.5%float] nan in
                       row < idx_bot_ping 50 d bv
                       /\ forall c, first_under bv d 0 = Some c -> row < Z.of_nat c)
                    (Ping_number out) (idx_r out)).
Proof.
  split; [vm_compute; reflexivity|]. split.
  - eexists. split; [vm_compute; reflexivity|]. split; [reflexivity|].
    apply (C5_no_detection_under_bottom log10_series Sample.two_echoes
             Sample.bottom_30_5 [30.5%float]).
    + reflexivity.
    + repeat constructor.
    + repeat constructor.
    + left. vm_compute. reflexivity.
  - eexists. split; [vm_compute; reflexivity|]. split; [reflexivity|].
    apply (C5_no_detection_under_bottom log10_series Sample.two_echoes
             Sample.bottom_30_5 [30.5%float]).
    + reflexivity.
    + repeat constructor.
    + repeat constructor.
    + right. vm_compute. reflexivity.
Defined.

(** Without the bottom line, [detect_esp3] reports both echoes. *)
Lemma two_echoes_without_bottom :
  exists out,
    detect_esp3 log10_series Sample.two_echoes (Some Sample.Np5) = Ok out
    /\ idx_r out = [25; 40].
Proof. eexists. split; [vm_compute; reflexivity|]. reflexivity. Qed.

(** ** C6: minimum separation inside a ping *)

Lemma FOP_app {A : Type} (R : A -> A -> Prop) (l1 l2 : list A) :
  ForallOrdPairs R l1 -> ForallOrdPairs R l2 ->
  (forall a b, In a l1 -> In b l2 -> R a b) ->
  ForallOrdPairs R (l1 ++ l2).
Proof.
  intros H1 H2 H12. induction H1 as [|a l1 Ha H1 IH]; simpl; [exact H2|].
  constructor.
  - apply Forall_app. split; [exact Ha|].
    apply Forall_forall. intros b Hb. apply H12; [left; reflexivity|exact Hb].
  - apply IH. intros x y Hx Hy. apply H12; [right; exact Hx|exact Hy].
Qed.

Lemma FOP_flat_map {A B : Type} (R : A -> A -> Prop) (R' : B -> B -> Prop)
      (g : A -> list B) (l : list A) :
  ForallOrdPairs R l ->
  (forall a, In a l -> ForallOrdPairs R' (g a)) ->
  (forall a b x y, R a b -> In x (g a) -> In y (g b) -> R' x y) ->
  ForallOrdPairs R' (flat_map g l).
Proof.
  intros H Hin Hx. induction H as [|a l Ha H IH]; simpl; [constructor|].
  apply FOP_app.
  - apply Hin. left. reflexivity.
  - apply IH. intros b Hb. apply Hin. right. exact Hb.
  - intros x y Hxa Hy. apply in_flat_map in Hy as (b & Hb & Hy).
    rewrite Forall_forall in Ha. eapply Hx; [apply Ha; exact Hb| exact Hxa | exact Hy].
Qed.

Lemma FOP_map {A B : Type} (R : B -> B -> Prop) (f : A -> B) (l : list A) :
  ForallOrdPairs (fun a b => R (f a) (f b)) l -> ForallOrdPairs R (map f l).
Proof.
  induction 1 as [|a l Ha H IH]; simpl; constructor; [|exact IH].
  apply Forall_map. exact Ha.
Qed.

Lemma FOP_nth {A : Type} (R : A -> A -> Prop) (l : list A) (d : A) :
  ForallOrdPairs R l ->
  forall i j, (i < j < List.length l)%nat -> R (nth i l d) (nth j l d).
Proof.
  induction 1 as [|a l Ha H IH]; intros i j Hij; simpl in Hij; [lia|].
  destruct j as [|j]; [lia|]. destruct i as [|i]; simpl.
  - rewrite Forall_forall in Ha. apply Ha. apply nth_In. lia.
  - apply IH. lia.
Qed.

Lemma FOP_seq_lt s n : ForallOrdPairs (fun a b => (a < b)%nat) (seq s n).
Proof.
  revert s. induction n as [|n IH]; intros s; simpl; constructor; [|apply IH].
  apply Forall_forall. intros b Hb. apply in_seq in Hb. lia.
Qed.

Lemma FOP_impl {A : Type} (R R' : A -> A -> Prop) (l : list A) :
  (forall a b, R a b -> R' a b) -> ForallOrdPairs R l -> ForallOrdPairs R' l.
Proof.
  intros HR. induction 1 as [|a l Ha H IH]; constructor; [|exact IH].
  eapply Forall_impl; [|exact Ha]. apply HR.
Qed.

Lemma In_firstn {A : Type} (x : A) (l : list A) n : In x (firstn n l) -> In x l.
Proof.
  revert n. induction l as [|a l IH]; intros [|n]; simpl; try tauto.
  intros [H|H]; [auto | right; eapply IH; exact H].
Qed.

Lemma NoDup_firstn {A : Type} (l : list A) n : NoDup l -> NoDup (firstn n l).
Proof.
  intros H. revert n. induction H as [|a l Ha H IH]; intros [|n]; simpl; try constructor.
  - intros Hin. apply Ha. eapply In_firstn. exact Hin.
  - apply IH.
Qed.

Lemma NoDup_skipn {A : Type} (l : list A) n : NoDup l -> NoDup (skipn n l).
Proof.
  intros H. revert n. induction H as [|a l Ha H IH]; intros [|n]; simpl; try constructor;
    try assumption.
  apply IH.
Qed.

Lemma block_pings_NoDup n bs ui : NoDup (block_pings n bs ui).
Proof.
  unfold block_pings, py_slice. apply NoDup_firstn, NoDup_skipn, seq_NoDup.
Qed.

Lemma FOP_combine_fst {A B : Type} (l : list A) (l' : list B) :
  NoDup l -> ForallOrdPairs (fun a b => fst a <> fst b) (combine l l').
Proof.
  intros H. revert l'. induction H as [|a l Ha H IH]; intros [|b l']; simpl;
    try constructor.
  - apply Forall_forall. intros [x y] Hin. simpl. intros <-.
    apply Ha. eapply in_combine_l. exact Hin.
  - apply IH.
Qed.

(** Blocks of the loop share no ping, whatever the block size. *)
Lemma blocks_disjoint n bs nite :
  0 <= n ->
  ForallOrdPairs (fun b1 b2 => forall p : nat, In p b1 -> In p b2 -> False)
                 (blocks n bs nite).
Proof.
  intros Hn. unfold blocks, range. rewrite map_map. apply FOP_map.
  eapply FOP_impl; [|apply FOP_seq_lt].
  intros u1 u2 Hu p H1 H2. cbv beta in Hu.
  destruct (Z.lt_ge_cases bs 1) as [Hbs|Hbs].
  - rewrite (block_pings_nonpos n bs (Z.of_nat u2)) in H2 by lia. destruct H2.
  - rewrite block_pings_pos in H1, H2 by lia.
    apply in_seq in H1, H2.
    assert ((Z.of_nat u1 + 1) * bs <= Z.of_nat u2 * bs) by nia.
    lia.
Qed.

(** The minimum-separation scan keeps candidates [Np] or more apart. *)
Lemma min_separation_from_last Np : 0 <= Np -> forall cand last,
  Forall (fun k => Np <= Z.of_nat k - last) (min_separation Np cand last).
Proof.
  intros HNp. induction cand as [|c cand IH]; intros last; simpl; [constructor|].
  destruct (Z.geb_spec (Z.of_nat c - last) Np) as [H|H].
  - constructor; [exact H|].
    eapply Forall_impl; [|apply (IH (Z.of_nat c))]. simpl. intros k Hk. lia.
  - apply IH.
Qed.

Lemma min_separation_spaced Np : 0 <= Np -> forall cand last,
  ForallOrdPairs (fun a b => Np <= Z.of_nat b - Z.of_nat a) (min_separation Np cand last).
Proof.
  intros HNp. induction cand as [|c cand IH]; intros last; simpl; [constructor|].
  destruct (Z.of_nat c - last >=? Np).
  - constructor; [apply min_separation_from_last; exact HNp | apply IH].
  - apply IH.
Qed.

Lemma collect_flat_map {A B : Type} (f : A -> result (list B)) (l : list A) hs :
  collect f l = Ok hs ->
  hs = flat_map (fun a => match f a with Ok x => x | Raise _ => [] end) l.
Proof.
  revert hs. induction l as [|a l IH]; intros hs H; simpl in H.
  - injection H as <-. reflexivity.
  - apply bind_Ok in H as (h1 & H1 & H). apply bind_Ok in H as (h2 & H2 & H).
    injection H as <-. simpl. rewrite H1, <- (IH _ H2). reflexivity.
Qed.

Section Separation.

Variable log10 : float -> float.

Lemma esp3_ping_hits_spaced x rows ping z d :
  0 <= x_Np x ->
  ForallOrdPairs (fun h1 h2 => x_Np x <= Z.of_nat (hit_k h2) - Z.of_nat (hit_k h1))
                 (esp3_ping_hits log10 x rows ping z d).
Proof.
  intros HNp. unfold esp3_ping_hits.
  destruct (List.length z <? 3)%nat; [constructor|].
  eapply FOP_flat_map.
  - unfold esp3_keep. apply min_separation_spaced. exact HNp.
  - intros k _. destruct (esp3_peak log10 x z d k); repeat constructor.
  - intros a b h1 h2 Hab H1 H2. simpl in Hab.
    destruct (esp3_peak log10 x z d a); [|destruct H1].
    destruct (esp3_peak log10 x z d b); [|destruct H2].
    destruct H1 as [<-|[]], H2 as [<-|[]]. simpl. exact Hab.
Qed.

Lemma esp3_block_hits_spaced x ds bb idx_r_tot idx_pings :
  0 <= x_Np x -> NoDup idx_pings ->
  ForallOrdPairs (fun h1 h2 => hit_ping h1 = hit_ping h2 ->
                               x_Np x <= Z.of_nat (hit_k h2) - Z.of_nat (hit_k h1))
                 (esp3_block_hits log10 x ds bb idx_r_tot idx_pings).
Proof.
  intros HNp Hnd. unfold esp3_block_hits.
  destruct (negb _); [constructor|].
  eapply FOP_flat_map.
  - apply FOP_combine_fst. exact Hnd.
  - intros a _. eapply FOP_impl; [|apply esp3_ping_hits_spaced; exact HNp].
    intros h1 h2 H _. exact H.
  - intros a b h1 h2 Hab H1 H2 Heq. exfalso. apply Hab.
    apply esp3_ping_hits_inv in H1 as (_ & <- & _).
    apply esp3_ping_hits_inv in H2 as (_ & <- & _). exact Heq.
Qed.

Lemma blocks_In n bs nite blk :
  In blk (blocks n bs nite) -> exists ui, blk = block_pings n bs ui.
Proof.
  unfold blocks. intros H. apply in_map_iff in H as (ui & <- & _). eauto.
Qed.

Lemma ping_size_nonneg ds : 0 <= ping_size ds.
Proof. unfold ping_size. lia. Qed.

Lemma esp3_hits_spaced ds pl :
  0 <= x_Np (plan_ctx pl) ->
  ForallOrdPairs (fun h1 h2 => hit_ping h1 = hit_ping h2 ->
                               x_Np (plan_ctx pl)
                               <= Z.of_nat (hit_k h2) - Z.of_nat (hit_k h1))
                 (esp3_hits log10 ds pl).
Proof.
  intros HNp. unfold esp3_hits. eapply FOP_flat_map.
  - apply blocks_disjoint. apply ping_size_nonneg.
  - intros blk Hblk. apply blocks_In in Hblk as (ui & ->).
    apply esp3_block_hits_spaced; [exact HNp | apply block_pings_NoDup].
  - intros a b h1 h2 Hab H1 H2 Heq. exfalso.
    apply esp3_block_hits_inv in H1 as (n1 & H1). cbv zeta in H1.
    apply esp3_block_hits_inv in H2 as (n2 & H2). cbv zeta in H2.
    destruct H1 as (H1 & _), H2 as (H2 & _). rewrite Heq in H1.
    exact (Hab _ H1 H2).
Qed.

Lemma matecho_ping_hits_spaced m ds bb rows ip hs :
  matecho_ping_hits log10 m ds bb rows ip = Ok hs ->
  Forall (fun h => hit_ping h = ip) hs
  /\ ForallOrdPairs (fun h1 h2 => spaced m (hit_k h1) (hit_k h2)) hs.
Proof.
  unfold matecho_ping_hits. cbv zeta.
  destruct (negb _); [intros H; injection H as <-; split; constructor|].
  intros H. apply bind_Ok in H as ([keep' hs'] & Hs & H). injection H as <-. simpl.
  apply matecho_scan_hits_inv in Hs as (Hh & Hfop & _).
  split; [|exact Hfop].
  apply Forall_forall. intros h Hin. apply (Hh h Hin).
Qed.

Lemma matecho_block_hits_pings m ds bb idx_r_tot idx_pings hs :
  matecho_block_hits log10 m ds bb idx_r_tot idx_pings = Ok hs ->
  Forall (fun h => In (hit_ping h) idx_pings) hs.
Proof.
  intros H. unfold matecho_block_hits in H.
  apply Forall_forall. intros h Hin.
  destruct (collect_In _ _ _ _ H Hin) as (ip & hs' & Hip & Hf & Hin').
  apply matecho_ping_hits_spaced in Hf as (Hf & _).
  rewrite Forall_forall in Hf. rewrite (Hf h Hin'). exact Hip.
Qed.

Lemma matecho_block_hits_spaced m ds bb idx_r_tot idx_pings hs :
  NoDup idx_pings ->
  matecho_block_hits log10 m ds bb idx_r_tot idx_pings = Ok hs ->
  ForallOrdPairs (fun h1 h2 => hit_ping h1 = hit_ping h2 ->
                               spaced m (hit_k h1) (hit_k h2)) hs.
Proof.
  intros Hnd H. unfold matecho_block_hits in H.
  apply collect_flat_map in H. subst hs. eapply FOP_flat_map.
  - apply NoDup_iff_ForallOrdPairs. exact Hnd.
  - intros ip _.
    destruct (matecho_ping_hits log10 m ds bb _ ip) as [hs'|e] eqn:E; [|constructor].
    apply matecho_ping_hits_spaced in E as (_ & E).
    eapply FOP_impl; [|exact E]. intros h1 h2 Hs _. exact Hs.
  - intros a b h1 h2 Hab H1 H2 Heq. exfalso. apply Hab.
    destruct (matecho_ping_hits log10 m ds bb _ a) as [hs1|e] eqn:E1; [|destruct H1].
    destruct (matecho_ping_hits log10 m ds bb _ b) as [hs2|e] eqn:E2; [|destruct H2].
    apply matecho_ping_hits_spaced in E1 as (E1 & _).
    apply matecho_ping_hits_spaced in E2 as (E2 & _).
    rewrite Forall_forall in E1, E2.
    rewrite <- (E1 h1 H1), <- (E2 h2 H2). exact Heq.
Qed.

Lemma matecho_hits_spaced ds pl hs :
  matecho_hits log10 ds pl = Ok hs ->
  ForallOrdPairs (fun h1 h2 => hit_ping h1 = hit_ping h2 ->
                               spaced (mplan_ctx pl) (hit_k h1) (hit_k h2)) hs.
Proof.
  intros H. unfold matecho_hits in H. apply collect_flat_map in H. subst hs.
  eapply FOP_flat_map.
  - apply blocks_disjoint. apply ping_size_nonneg.
  - intros blk Hblk. apply blocks_In in Hblk as (ui & ->).
    destruct (matecho_block_hits log10 _ ds _ _ _) as [hs'|e] eqn:E; [|constructor].
    apply matecho_block_hits_spaced in E; [exact E|apply block_pings_NoDup].
  - intros a b h1 h2 Hab H1 H2 Heq. exfalso.
    destruct (matecho_block_hits log10 _ ds _ _ a) as [hs1|e] eqn:E1; [|destruct H1].
    destruct (matecho_block_hits log10 _ ds _ _ b) as [hs2|e] eqn:E2; [|destruct H2].
    apply matecho_block_hits_pings in E1, E2.
    rewrite Forall_forall in E1, E2.
    pose proof (E1 h1 H1) as P1. pose proof (E2 h2 H2) as P2. rewrite Heq in P1.
    exact (Hab _ P1 P2).
Qed.

End Separation.

(** C6: in the output of [detect_esp3] any two detections of the same ping
    are [Np] or more samples apart (the later one at least [Np] after the
    earlier); in the output of [detect_matecho] the spacing
    [round(MinEchoSpace * NechP)] is defined whenever a ping has two
    detections, and their distance is at least that spacing. *)
Theorem C6_minimum_separation log10 ds params out :
  (detect_esp3 log10 ds params = Ok out ->
   exists Np T,
     esp3_Np_T ds (merge_defaults (merged params no_params)) = Ok (Np, T)
     /\ forall i j, (i < j < List.length (idx_r out))%nat ->
          nth i (Ping_number out) 0 = nth j (Ping_number out) 0 ->
          Np <= nth j (idx_r out) 0 - nth i (idx_r out) 0)
  /\ (detect_matecho log10 ds params = Ok out ->
      exists pl,
        matecho_prepare log10 ds params = Ok pl
        /\ forall i j, (i < j < List.length (idx_r out))%nat ->
             nth i (Ping_number out) 0 = nth j (Ping_number out) 0 ->
             exists sp,
               Py.round (q_MinEchoSpace (m_p (mplan_ctx pl))
                         * Py.float_of_Z (m_NechP (mplan_ctx pl)))%float = Ok sp
               /\ sp <= Z.abs (nth j (idx_r out) 0 - nth i (idx_r out) 0)).
Proof.
  pose (dh := mk_hit 0 0 0 (mk_peak nan nan nan nan nan 0 0 0)).
  split.
  - intros H. apply detect_esp3_Ok in H as (pl & Hp & ->).
    pose proof (esp3_prepare_inv _ _ _ Hp) as Hi. cbv zeta in Hi.
    destruct Hi as (_ & _ & _ & _ & _ & _ & HN & _).
    exists (x_Np (plan_ctx pl)), (x_T (plan_ctx pl)). split; [exact HN|].
    change (Ping_number (finalize ?o)) with (Ping_number o).
    change (idx_r (finalize ?o)) with (idx_r o).
    rewrite esp3_Ping_number, esp3_idx_r. simpl.
    intros i j Hij Hping. rewrite length_map in Hij.
    rewrite (nth_map_lt _ _ i 0 dh), (nth_map_lt _ _ j 0 dh) in Hping by lia.
    rewrite (nth_map_lt _ _ i 0 dh), (nth_map_lt _ _ j 0 dh) by lia.
    destruct (esp3_hit_facts log10 _ _ _ (nth i (esp3_hits log10 ds pl) dh) Hp
                ltac:(apply nth_In; lia)) as (_ & _ & _ & _ & -> & _).
    destruct (esp3_hit_facts log10 _ _ _ (nth j (esp3_hits log10 ds pl) dh) Hp
                ltac:(apply nth_In; lia)) as (_ & _ & _ & _ & -> & _).
    apply esp3_Np_ge_3 in HN.
    apply (FOP_nth _ _ dh (esp3_hits_spaced log10 ds pl ltac:(lia)) i j Hij). lia.
  - intros H. apply detect_matecho_Ok in H as (pl & hs & Hp & Hh & ->).
    exists pl. split; [exact Hp|].
    change (Ping_number (finalize ?o)) with (Ping_number o).
    change (idx_r (finalize ?o)) with (idx_r o).
    rewrite matecho_Ping_number, matecho_idx_r. simpl.
    intros i j Hij Hping. rewrite length_map in Hij.
    rewrite (nth_map_lt _ _ i 0 dh), (nth_map_lt _ _ j 0 dh) in Hping by lia.
    rewrite (nth_map_lt _ _ i 0 dh), (nth_map_lt _ _ j 0 dh) by lia.
    destruct (matecho_hit_facts log10 _ _ _ _ (nth i hs dh) Hp Hh
                ltac:(apply nth_In; lia)) as (-> & _).
    destruct (matecho_hit_facts log10 _ _ _ _ (nth j hs dh) Hp Hh
                ltac:(apply nth_In; lia)) as (-> & _).
    destruct (FOP_nth _ _ dh (matecho_hits_spaced log10 ds pl hs Hh) i j Hij
                ltac:(lia)) as (sp & Hsp & Hle).
    exists sp. split; [exact Hsp|lia].
Qed.

(** Echoes at samples 15 and 25 of one ping: both detectors report both,
    ten samples apart, with [Np = 5] and a spacing of [round(1.0 * 3) = 3]. *)
Lemma C6_minimum_separation_example :
  (exists out,
      detect_esp3 log10_series Sample.shallow_echoes (Some Sample.Np5) = Ok out
      /\ idx_r out = [15; 25]
      /\ exists Np T,
          esp3_Np_T Sample.shallow_echoes (merge_defaults Sample.Np5) = Ok (Np, T)
          /\ forall i j, (i < j < List.length (idx_r out))%nat ->
               nth i (Ping_number out) 0 = nth j (Ping_number out) 0 ->
               Np <= nth j (idx_r out) 0 - nth i (idx_r out) 0)
  /\ (exists out,
         detect_matecho log10_series Sample.shallow_echoes (Some Sample.Np5) = Ok out
         /\ idx_r out = [15; 25]
         /\ exists pl,
             matecho_prepare log10_series Sample.shallow_echoes (Some Sample.Np5) = Ok pl
             /\ forall i j, (i < j < List.length (idx_r out))%nat ->
                  nth i (Ping_number out) 0 = nth j (Ping_number out) 0 ->
                  exists sp,
                    Py.round (q_MinEchoSpace (m_p (mplan_ctx pl))
                              * Py.float_of_Z (m_NechP (mplan_ctx pl)))%float = Ok sp
                    /\ sp <= Z.abs (nth j (idx_r out) 0 - nth i (idx_r out) 0)).
Proof.
  split.
  - eexists. split; [vm_compute; reflexivity|]. split; [reflexivity|].
    apply (proj1 (C6_minimum_separation log10_series Sample.shallow_echoes
                    (Some Sample.Np5) _)).
    vm_compute. reflexivity.
  - eexists. split; [vm_compute; reflexivity|]. split; [reflexivity|].
    apply (proj2 (C6_minimum_separation log10_series Sample.shallow_echoes
                    (Some Sample.Np5) _)).
    vm_compute. reflexivity.
Defined.

(** Two maxima three samples apart with [Np = 5]: the scan of
    [detect_esp3] keeps the first, and only it is reported. *)
Lemma close_maxima_first_wins :
  esp3_keep (mk_esp3_ctx 1500 1e-3 0 5 (-50) 6 3 8 50)
            (column (Sv Sample.close_maxima) 0) = [25%nat]
  /\ local_maxima (map (fun v => Py.gt v (-999)) (column (Sv Sample.close_maxima) 0))
                  (column (Sv Sample.close_maxima) 0) = [25; 28]%nat
  /\ exists out,
       detect_esp3 log10_series Sample.close_maxima (Some Sample.Np5) = Ok out
       /\ idx_r out = [25].
Proof.
  split; [vm_compute; reflexivity|]. split; [vm_compute; reflexivity|].
  eexists. split; [vm_compute; reflexivity|]. reflexivity.
Qed.

(** ** C7: configuration errors *)

(** What [detect_esp3] does about its configuration: without a channel
    selector it raises; with one, it raises a [ValueError] exactly when
    [_validate_params] finds a parameter out of range, before anything is
    computed from the dataset; and [_validate_params] accepts exactly the
    configurations inside all the ranges. *)
Theorem esp3_configuration_errors log10 ds params :
  let given := merged params no_params in
  let p := merge_defaults given in
  (channel given = None ->
   detect_esp3 log10 ds params = Raise (ValueError "params['channel'] is required."))
  /\ (channel given <> None ->
      forall e, _validate_params p = Raise e ->
                detect_esp3 log10 ds params = Raise e /\ exists msg, e = ValueError msg)
  /\ (_validate_params p = Ok tt <->
      p_DataType p = "CW"%string
      /\ Py.le (-120) (p_TS_threshold p) = true /\ Py.le (p_TS_threshold p) (-20) = true
      /\ Py.le 1 (p_PLDL p) = true /\ Py.le (p_PLDL p) 30 = true
      /\ Py.le 0 (p_MinNormPL p) = true /\ Py.le (p_MinNormPL p) 10 = true
      /\ Py.le 0 (p_MaxNormPL p) = true /\ Py.le (p_MaxNormPL p) 10 = true
      /\ Py.le (p_block_len p) 0 = false).
Proof.
  intros given p. split; [|split].
  - intros H. unfold detect_esp3, esp3_prepare. fold given. rewrite H. reflexivity.
  - intros Hc e He. split.
    + unfold detect_esp3, esp3_prepare. fold given.
      destruct (channel given); [|contradiction]. fold p. rewrite He. reflexivity.
    + unfold _validate_params in He.
      repeat match type of He with
             | (if ?c then _ else _) = _ => destruct c
             end;
        try discriminate; injection He as <-; eauto.
  - apply _validate_params_Ok.
Qed.

(** C7 (defect of the code): claimed is that the detector raises a
    configuration error when [TS_threshold] is outside [-120, -20] dB or the
    memory budget is not positive.  [detect_esp3] does; [detect_matecho]
    validates nothing but the presence of [params] and of the channel: with
    [TS_threshold = -10] it runs and reports a detection, and with
    [block_len = -1] it runs over empty blocks and reports none. *)
Theorem C7_matecho_runs_unvalidated :
  detect_esp3 log10_series Sample.one_ping (Some Sample.threshold_minus_10)
  = Raise (ValueError "TS_threshold must be in [-120, -20] dB.")
  /\ (exists out,
         detect_matecho log10_series Sample.one_ping (Some Sample.threshold_minus_10)
         = Ok out
         /\ nb_valid_targets out = 1)
  /\ detect_esp3 log10_series Sample.one_ping
       (Some (Sample.with_block_len (-1) Sample.Np5))
     = Raise (ValueError "block_len must be > 0.")
  /\ (exists out,
         detect_matecho log10_series Sample.one_ping
           (Some (Sample.with_block_len (-1) Sample.Np5)) = Ok out
         /\ nb_valid_targets out = 0)
  /\ detect_matecho log10_series Sample.one_ping None
     = Raise (ValueError "params is required.").
Proof.
  split; [vm_compute; reflexivity|].
  split; [eexists; split; [vm_compute; reflexivity|reflexivity]|].
  split; [vm_compute; reflexivity|].
  split; [eexists; split; [vm_compute; reflexivity|reflexivity]|].
  vm_compute; reflexivity.
Qed.

(** ** C8: navigation fields *)

Lemma nearest_from_spec t : forall src best s v,
  nearest_from t src best = (s, v) ->
  In (s, v) (best :: src)
  /\ forall sv, In sv (best :: src) -> Z.abs (s - t) <= Z.abs (fst sv - t).
Proof.
  induction src as [|[s0 v0] src IH]; intros best s v H; simpl in H.
  - subst best. split; [left; reflexivity|]. intros sv [<-|[]]. simpl. lia.
  - apply IH in H as (Hin & Hmin).
    destruct (Z.leb_spec (Z.abs (s0 - t)) (Z.abs (fst best - t))) as [Hle|Hgt].
    + split.
      * destruct Hin as [Hin|Hin]; [right; left; exact Hin | right; right; exact Hin].
      * intros sv [<-|[<-|Hsv]].
        -- specialize (Hmin (s0, v0) (or_introl eq_refl)). simpl in Hmin. lia.
        -- apply (Hmin (s0, v0)). left. reflexivity.
        -- apply Hmin. right. exact Hsv.
    + split.
      * destruct Hin as [Hin|Hin]; [left; exact Hin | right; right; exact Hin].
      * intros sv [<-|[<-|Hsv]].
        -- apply (Hmin best). left. reflexivity.
        -- specialize (Hmin best (or_introl eq_refl)). simpl. lia.
        -- apply Hmin. right. exact Hsv.
Qed.


(** A navigation variable that the dataset does not hold under any of its
    names is replaced by zeros, one per ping. *)
Theorem nav_field_absent ds names :
  (forall nm, In nm names -> lookup_var ds nm = None) ->
  nav_field ds names = repeat 0%float (Z.to_nat (ping_size ds)).
Proof.
  intros H. unfold nav_field.
  assert (E : _pull_nav ds names (ping_time ds) = None).
  { induction names as [|nm names IH]; simpl; [reflexivity|].
    rewrite (H nm (or_introl eq_refl)). apply IH.
    intros nm' Hin. apply H. right. exact Hin. }
  rewrite E. reflexivity.
Qed.

Lemma nav_field_absent_example :
  nav_field Sample.one_ping ["heading"; "Heading"]%string = [0%float].
Proof.
  apply (nav_field_absent Sample.one_ping ["heading"; "Heading"]%string).
  intros nm _. reflexivity.
Defined.

(** C8 (defect of the code): claimed is that a ping with no source sample
    within 500 ms gets the value zero.  The alignment leaves NaN there (the
    source comments that it "will be filled later"), and only a variable that
    is absent altogether is replaced by zeros: with a [roll] sample 2 s away
    from the ping, [detect_matecho] records [Roll = NaN] for the detection,
    next to [Heading = 0] for the absent heading. *)
Theorem C8_unmatched_ping_is_nan :
  nav_field Sample.late_roll ["roll"; "Roll"]%string = [nan]
  /\ nav_field Sample.late_roll ["heading"; "Heading"]%string = [0%float]
  /\ exists out,
       detect_matecho log10_series Sample.late_roll (Some Sample.Np5) = Ok out
       /\ nb_valid_targets out = 1
       /\ Roll out = [nan]
       /\ Heading out = [0%float].
Proof.
  split; [vm_compute; reflexivity|]. split; [vm_compute; reflexivity|].
  eexists. split; [vm_compute; reflexivity|]. repeat split.
Qed.

(** ** C10: a candidate that is kept and not recorded *)

(** A [log10] that is 0 at 1 is the function that tests for 1 first, so a
    run that only takes [log10] of 1 can be evaluated. *)
Lemma log10_at_one (log10 : float -> float) :
  log10 1%float = 0%float ->
  log10 = (fun x => if PrimFloat.Leibniz.eqb x 1 then 0%float else log10 x).
Proof.
  intros H. apply functional_extensionality. intros x.
  destruct (PrimFloat.Leibniz.eqb x 1) eqn:E; [|reflexivity].
  apply FloatAxioms.Leibniz.eqb_spec in E. subst x. exact H.
Qed.

(** C10: there is an input of [detect_matecho] (one ping whose depth is
    infinite at samples 11 to 13, echoes at samples 12 and 20, no upper depth
    limit, a spacing of [round(3.0 * 3) = 9] samples) on which the candidate
    at sample 12 passes every gate and is appended to [keep], its envelope
    rows 11..13 hold no finite range, and nothing is recorded for it; the
    candidate at sample 20, which on its own would be recorded, is then
    rejected by the spacing test against [keep = [12]]; the run returns an
    empty structure with [nb_valid_targets = 0]. *)
Theorem C10_kept_without_record (log10 : float -> float) :
  log10 1%float = 0%float ->
  let ds := Sample.infinite_depth in
  let params := Sample.no_depth_limit in
  exists pl,
    matecho_prepare log10 ds (Some params) = Ok pl
    /\ let m := mplan_ctx pl in
       let rows := block_rows ds (mplan_bb pl) (mplan_idx_r_tot pl) [0%nat] in
       let zP := masked_column (cell_Plike log10 m ds) ds (mplan_bb pl) rows 0 in
       let zTS := masked_column (cell_ts log10 m ds) ds (mplan_bb pl) rows 0 in
       let zTSU := masked_column (cell_tsu log10 m ds) ds (mplan_bb pl) rows 0 in
       let rcol := map (cell_R m ds 0) rows in
       let heave := nth 0%nat (m_heave m) nan in
       local_maxima (matecho_valid zP) zP = [12; 20]%nat
       /\ matecho_candidate m zP zTS zTSU rcol heave [] 12 = Ok ([12%nat], None)
       /\ filter Py.isfinite (py_slice 11 14 rcol) = []
       /\ (exists pk,
              matecho_candidate m zP zTS zTSU rcol heave [] 20 = Ok ([20%nat], Some pk))
       /\ Py.round (q_MinEchoSpace (m_p m) * Py.float_of_Z (m_NechP m))%float = Ok 9
       /\ matecho_candidate m zP zTS zTSU rcol heave [12%nat] 20 = Ok ([12%nat], None)
       /\ matecho_scan_hits m rows 0 zP zTS zTSU rcol [12; 20]%nat [] = Ok ([12%nat], [])
       /\ detect_matecho log10 ds (Some params) = Ok init_st_struct.
Proof.
  intros H ds params. rewrite (log10_at_one log10 H).
  eexists. split; [vm_compute; reflexivity|]. cbv zeta.
  split; [vm_compute; reflexivity|].
  split; [vm_compute; reflexivity|].
  split; [vm_compute; reflexivity|].
  split; [eexists; vm_compute; reflexivity|].
  split; [vm_compute; reflexivity|].
  split; [vm_compute; reflexivity|].
  split; vm_compute; reflexivity.
Qed.

Lemma C10_kept_without_record_example :
  log10_series 1 = 0%float
  /\ exists pl,
       matecho_prepare log10_series Sample.infinite_depth (Some Sample.no_depth_limit)
       = Ok pl
       /\ m_NechP (mplan_ctx pl) = 3
       /\ detect_matecho log10_series Sample.infinite_depth (Some Sample.no_depth_limit)
          = Ok init_st_struct.
Proof.
  split; [vm_compute; reflexivity|].
  destruct (C10_kept_without_record log10_series ltac:(vm_compute; reflexivity))
    as (pl & Hp & H).
  exists pl. split; [exact Hp|]. split.
  - vm_compute in Hp. injection Hp as <-. reflexivity.
  - apply H.
Defined.

(** * Further properties of the two detectors *)

(** ** The structure after a run, all fields at once *)

Lemma esp3_records x times : forall hs out,
  fold_left (record_esp3 x times) hs out
  = mk_st_struct
      (TS_comp out ++ map (fun h => pk_TS_comp (hit_peak h)) hs)
      (TS_uncomp out ++ map (fun h => pk_TS_uncomp (hit_peak h)) hs)
      (Target_range out ++ map (fun h => pk_r_peak (hit_peak h)) hs)
      (Target_range_disp out
         ++ map (fun h => (pk_r_peak (hit_peak h) + x_c x * x_T x / 4)%float) hs)
      (Target_range_min out ++ map (fun h => pk_r_min (hit_peak h)) hs)
      (Target_range_max out ++ map (fun h => pk_r_max (hit_peak h)) hs)
      (idx_r out ++ map hit_row hs)
      (StandDev_Angles_Minor_Axis out ++ map (fun _ => nan) hs)
      (StandDev_Angles_Major_Axis out ++ map (fun _ => nan) hs)
      (Angle_minor_axis out)
      (Angle_major_axis out)
      (Ping_number out ++ map (fun h => Z.of_nat (hit_ping h)) hs)
      (Time out ++ map (fun h => nth (hit_ping h) times 0) hs)
      (nb_valid_targets out)
      (idx_target_lin out
         ++ map (fun h => Z.of_nat (hit_ping h) * x_nb_samples_tot x + hit_row h) hs)
      (pulse_env_before_lin out ++ map (fun h => pk_left (hit_peak h)) hs)
      (pulse_env_after_lin out ++ map (fun h => pk_right (hit_peak h)) hs)
      (PulseLength_Normalized_PLDL out
         ++ map (fun h => (Py.float_of_Z (pk_plen (hit_peak h))
                           / Py.float_of_Z (x_Np x))%float) hs)
      (Transmitted_pulse_length out ++ map (fun h => pk_plen (hit_peak h)) hs)
      (Heave out) (Roll out) (Pitch out) (Heading out) (Dist out).
Proof.
  intros hs. induction hs as [|h hs IH]; intros out.
  - simpl. rewrite !app_nil_r. destruct out; reflexivity.
  - simpl fold_left. rewrite IH. unfold record_esp3, append_esp3.
    cbn [TS_comp TS_uncomp Target_range Target_range_disp Target_range_min
         Target_range_max idx_r StandDev_Angles_Minor_Axis StandDev_Angles_Major_Axis
         Angle_minor_axis Angle_major_axis Ping_number Time nb_valid_targets
         idx_target_lin pulse_env_before_lin pulse_env_after_lin
         PulseLength_Normalized_PLDL Transmitted_pulse_length Heave Roll Pitch
         Heading Dist map].
    rewrite <- !app_assoc, Nat2Z.id. reflexivity.
Qed.

Lemma matecho_records m times : forall hs out,
  fold_left (record_matecho m times) hs out
  = mk_st_struct
      (TS_comp out ++ map (fun h => pk_TS_comp (hit_peak h)) hs)
      (TS_uncomp out ++ map (fun h => pk_TS_uncomp (hit_peak h)) hs)
      (Target_range out ++ map (fun h => pk_r_peak (hit_peak h)) hs)
      (Target_range_disp out
         ++ map (fun h => (pk_r_peak (hit_peak h)
                           + q_SoundSpeed (m_p m) * m_T m / 4)%float) hs)
      (Target_range_min out ++ map (fun h => pk_r_min (hit_peak h)) hs)
      (Target_range_max out ++ map (fun h => pk_r_max (hit_peak h)) hs)
      (idx_r out ++ map hit_row hs)
      (StandDev_Angles_Minor_Axis out ++ map (fun _ => nan) hs)
      (StandDev_Angles_Major_Axis out ++ map (fun _ => nan) hs)
      (Angle_minor_axis out ++ map (fun _ => nan) hs)
      (Angle_major_axis out ++ map (fun _ => nan) hs)
      (Ping_number out ++ map (fun h => Z.of_nat (hit_ping h)) hs)
      (Time out ++ map (fun h => nth (hit_ping h) times 0) hs)
      (nb_valid_targets out)
      (idx_target_lin out
         ++ map (fun h => Z.of_nat (hit_ping h) * m_nb_samples_tot m + hit_row h) hs)
      (pulse_env_before_lin out ++ map (fun h => pk_left (hit_peak h)) hs)
      (pulse_env_after_lin out ++ map (fun h => pk_right (hit_peak h)) hs)
      (PulseLength_Normalized_PLDL out
         ++ map (fun h => (Py.float_of_Z (pk_plen (hit_peak h))
                           / Py.float_of_Z (m_NechP m))%float) hs)
      (Transmitted_pulse_length out ++ map (fun h => pk_plen (hit_peak h)) hs)
      (Heave out ++ map (fun h => nth (hit_ping h) (m_heave m) nan) hs)
      (Roll out ++ map (fun h => nth (hit_ping h) (m_roll m) nan) hs)
      (Pitch out ++ map (fun h => nth (hit_ping h) (m_pitch m) nan) hs)
      (Heading out ++ map (fun h => nth (hit_ping h) (m_heading m) nan) hs)
      (Dist out ++ map (fun h => nth (hit_ping h) (m_dist m) nan) hs).
Proof.
  intros hs. induction hs as [|h hs IH]; intros out.
  - simpl. rewrite !app_nil_r. destruct out; reflexivity.
  - simpl fold_left. rewrite IH. unfold record_matecho, append_matecho.
    cbn [TS_comp TS_uncomp Target_range Target_range_disp Target_range_min
         Target_range_max idx_r StandDev_Angles_Minor_Axis StandDev_Angles_Major_Axis
         Angle_minor_axis Angle_major_axis Ping_number Time nb_valid_targets
         idx_target_lin pulse_env_before_lin pulse_env_after_lin
         PulseLength_Normalized_PLDL Transmitted_pulse_length Heave Roll Pitch
         Heading Dist map].
    rewrite <- !app_assoc, Nat2Z.id. reflexivity.
Qed.

(** The result of a run that returns, as maps over its detections. *)
Lemma detect_esp3_records log10 ds params out :
  detect_esp3 log10 ds params = Ok out ->
  exists pl,
    esp3_prepare ds params = Ok pl
    /\ out = finalize (fold_left (record_esp3 (plan_ctx pl) (ping_time ds))
                                 (esp3_hits log10 ds pl) init_st_struct)
    /\ idx_r out = map hit_row (esp3_hits log10 ds pl)
    /\ Ping_number out = map (fun h => Z.of_nat (hit_ping h)) (esp3_hits log10 ds pl).
Proof.
  intros H. apply detect_esp3_Ok in H as (pl & Hp & ->).
  exists pl. split; [exact Hp|]. split; [reflexivity|].
  rewrite esp3_records. split; reflexivity.
Qed.

Lemma detect_matecho_records log10 ds params out :
  detect_matecho log10 ds params = Ok out ->
  exists pl hs,
    matecho_prepare log10 ds params = Ok pl
    /\ matecho_hits log10 ds pl = Ok hs
    /\ out = finalize (fold_left (record_matecho (mplan_ctx pl) (ping_time ds))
                                 hs init_st_struct)
    /\ idx_r out = map hit_row hs
    /\ Ping_number out = map (fun h => Z.of_nat (hit_ping h)) hs.
Proof.
  intros H. apply detect_matecho_Ok in H as (pl & hs & Hp & Hh & ->).
  exists pl, hs. split; [exact Hp|]. split; [exact Hh|]. split; [reflexivity|].
  rewrite matecho_records. split; reflexivity.
Qed.

(** ** Where a detection comes from, cell by cell *)

Lemma In_skipn {A : Type} (x : A) (l : list A) n : In x (skipn n l) -> In x l.
Proof.
  intros H. rewrite <- (firstn_skipn n l). apply in_or_app. right. exact H.
Qed.

Lemma block_pings_lt n bs ui p : In p (block_pings n bs ui) -> (p < Z.to_nat n)%nat.
Proof.
  unfold block_pings, py_slice, arange. intros H.
  apply In_firstn, In_skipn, in_seq in H. lia.
Qed.

Lemma blocks_ping_lt n bs nite blk p :
  In blk (blocks n bs nite) -> In p blk -> (p < Z.to_nat n)%nat.
Proof.
  intros Hb Hp. apply blocks_In in Hb as (ui & ->). eapply block_pings_lt; eassumption.
Qed.

Lemma esp3_cell_nth ds bb ip n k :
  (k < n)%nat ->
  nth k (mask_esp3 (bottom_at bb ip) (isel (column (Sv ds) ip) (seq 0 n))
                   (isel (column (depth ds) ip) (seq 0 n))) nan
  = esp3_cell ds bb ip k.
Proof.
  intros Hk.
  rewrite mask_esp3_nth by (rewrite !isel_length, ?length_seq; lia).
  rewrite !isel_seq_nth by assumption.
  unfold esp3_cell, under_bottom. destruct (bottom_at bb ip); reflexivity.
Qed.

Lemma matecho_cell_nth cell ds bb ip n k :
  (k < n)%nat ->
  nth k (masked_column cell ds bb (seq 0 n) ip) nan = matecho_cell cell ds bb ip k.
Proof.
  intros Hk. unfold masked_column. rewrite map_seq_nth by assumption. reflexivity.
Qed.

Section Origin.

Variable log10 : float -> float.

(** A detection of [detect_esp3]: the ping column it was found in, cell by
    cell, and the call of [esp3_peak] that accepted it. *)
Lemma esp3_hit_origin ds params pl h :
  esp3_prepare ds params = Ok pl ->
  In h (esp3_hits log10 ds pl) ->
  exists z d,
    esp3_peak log10 (plan_ctx pl) z d (hit_k h) = Some (hit_peak h)
    /\ In (hit_k h) (esp3_keep (plan_ctx pl) z)
    /\ hit_row h = Z.of_nat (hit_k h)
    /\ (hit_ping h < Z.to_nat (ping_size ds))%nat
    /\ List.length z = List.length d
    /\ (List.length z <= List.length (plan_idx_r_tot pl))%nat
    /\ (forall j, (j < List.length z)%nat ->
                  nth j z nan = esp3_cell ds (plan_bb pl) (hit_ping h) j)
    /\ (forall j, (j < List.length z)%nat ->
                  nth j d nan = nth j (column (depth ds) (hit_ping h)) nan).
Proof.
  intros Hp Hin.
  destruct (esp3_prepare_rows _ _ _ Hp) as (m & Hm).
  apply esp3_hits_inv in Hin as (idx_pings & n & H). cbv zeta in H.
  destruct H as (Hblk & Hip & Hlen & Hk & Hpk & Hrow).
  rewrite Hm in *.
  destruct (block_rows_seq ds (plan_bb pl) m idx_pings) as (m' & Hrows & Hm').
  rewrite Hrows in *.
  set (ip := hit_ping h) in *. set (k := hit_k h) in *.
  set (ts := isel (column (Sv ds) ip) (seq 0 m')) in *.
  set (dep := isel (column (depth ds) ip) (seq 0 m')) in *.
  assert (Hld : List.length ts = List.length dep)
    by (unfold ts, dep; rewrite !isel_length; reflexivity).
  assert (Hlt : List.length ts = m')
    by (unfold ts; rewrite isel_length, length_seq; reflexivity).
  pose proof (esp3_keep_In _ _ _ Hk) as (Hk1 & Hk2 & Hgt).
  assert (Hlz : List.length (firstn n (mask_esp3 (bottom_at (plan_bb pl) ip) ts dep))
                = Nat.min n m').
  { rewrite length_firstn, mask_esp3_length by assumption. lia. }
  rewrite Hlz in Hk2.
  eexists _, _. split; [exact Hpk|]. split; [exact Hk|].
  split; [|split; [|split; [|split; [|split]]]].
  - rewrite Hrow, firstn_seq0, seq_nth by lia. reflexivity.
  - eapply blocks_ping_lt; eassumption.
  - rewrite Hlz, length_firstn. lia.
  - rewrite Hlz, length_seq. lia.
  - intros j Hj. rewrite Hlz in Hj.
    rewrite nth_firstn. replace (j <? n)%nat with true by (symmetry; apply Nat.ltb_lt; lia).
    unfold ts, dep. apply esp3_cell_nth. lia.
  - intros j Hj. rewrite Hlz in Hj.
    rewrite nth_firstn. replace (j <? n)%nat with true by (symmetry; apply Nat.ltb_lt; lia).
    unfold dep. apply isel_seq_nth. lia.
Qed.

(** Every detection of one ping of [detect_matecho] is a candidate of [loc]
    on which [matecho_candidate] appended. *)
Lemma matecho_scan_hits_origin m rows ping zP zTS zTSU rcol :
  forall loc keep keep' hs,
  matecho_scan_hits m rows ping zP zTS zTSU rcol loc keep = Ok (keep', hs) ->
  forall h, In h hs ->
    hit_ping h = ping
    /\ hit_row h = Z.of_nat (nth (hit_k h) rows 0%nat)
    /\ In (hit_k h) loc
    /\ exists k0 k1,
         matecho_candidate m zP zTS zTSU rcol (nth ping (m_heave m) nan) k0 (hit_k h)
         = Ok (k1, Some (hit_peak h)).
Proof.
  induction loc as [|k rest IH]; intros keep keep' hs H h Hin; simpl in H.
  - injection H as <- <-. destruct Hin.
  - apply bind_Ok in H as ([keep1 o] & Hc & H).
    apply bind_Ok in H as ([keep2 hs'] & Hs & H).
    injection H as <- <-. cbn [fst snd] in *.
    assert (Hrest : In h hs' ->
              hit_ping h = ping
              /\ hit_row h = Z.of_nat (nth (hit_k h) rows 0%nat)
              /\ In (hit_k h) (k :: rest)
              /\ exists k0 k1,
                   matecho_candidate m zP zTS zTSU rcol (nth ping (m_heave m) nan) k0
                                     (hit_k h) = Ok (k1, Some (hit_peak h))).
    { intros Hin'. destruct (IH _ _ _ Hs h Hin') as (? & ? & ? & ?).
      repeat split; try assumption. right. assumption. }
    destruct o as [pk|]; [|auto].
    destruct Hin as [<-|Hin]; [|auto]. cbn [hit_ping hit_row hit_k hit_peak].
    repeat split. { left. reflexivity. }
    exists keep, keep1. exact Hc.
Qed.

(** A detection of [detect_matecho]: the ping columns it was found in and
    the call of [matecho_candidate] that accepted it. *)
Lemma matecho_hit_origin ds params pl hs h :
  matecho_prepare log10 ds params = Ok pl ->
  matecho_hits log10 ds pl = Ok hs ->
  In h hs ->
  let m := mplan_ctx pl in
  let bb := mplan_bb pl in
  let ip := hit_ping h in
  exists n k0 k1,
    let rows := seq 0 n in
    let zP := masked_column (cell_Plike log10 m ds) ds bb rows ip in
    let zTS := masked_column (cell_ts log10 m ds) ds bb rows ip in
    let zTSU := masked_column (cell_tsu log10 m ds) ds bb rows ip in
    let rcol := map (cell_R m ds ip) rows in
    (n <= List.length (mplan_idx_r_tot pl))%nat
    /\ (ip < Z.to_nat (ping_size ds))%nat
    /\ hit_row h = Z.of_nat (hit_k h)
    /\ In (hit_k h) (local_maxima (matecho_valid zP) zP)
    /\ matecho_candidate m zP zTS zTSU rcol (nth ip (m_heave m) nan) k0 (hit_k h)
       = Ok (k1, Some (hit_peak h)).
Proof.
  intros Hp Hhs Hin m bb ip.
  destruct (matecho_prepare_rows _ _ _ _ Hp) as (m0 & Hm).
  unfold matecho_hits in Hhs.
  destruct (collect_In _ _ _ _ Hhs Hin) as (idx_pings & hsb & Hblk & Hb & Hinb).
  unfold matecho_block_hits in Hb.
  destruct (collect_In _ _ _ _ Hb Hinb) as (ip' & hsp & Hip & Hpi & Hinp).
  rewrite Hm in *.
  destruct (block_rows_seq ds (mplan_bb pl) m0 idx_pings) as (n & Hrows & Hn).
  rewrite Hrows in Hpi. unfold matecho_ping_hits in Hpi. cbv zeta in Hpi.
  destruct (negb _) in Hpi; [injection Hpi as <-; destruct Hinp|].
  apply bind_Ok in Hpi as ([keep' hs'] & Hs & Hpi). injection Hpi as <-. simpl in Hinp.
  destruct (matecho_scan_hits_origin _ _ _ _ _ _ _ _ _ _ _ Hs h Hinp)
    as (Hping & Hrow & Hloc & k0 & k1 & Hc).
  fold ip in Hping. subst ip'.
  pose proof (local_maxima_In _ _ _ Hloc) as (_ & Hk2 & _).
  unfold masked_column in Hk2. rewrite length_map, length_seq in Hk2.
  exists n, k0, k1. cbv zeta.
  split; [rewrite length_seq; lia|].
  split; [eapply blocks_ping_lt; eassumption|].
  split; [rewrite Hrow, seq_nth by lia; reflexivity|].
  split; [exact Hloc|exact Hc].
Qed.

End Origin.

(** Everything [matecho_candidate] has checked and computed when it appends
    a detection. *)
Lemma matecho_candidate_Some m zP zTS zTSU rcol hv keep k keep' pk :
  matecho_candidate m zP zTS zTSU rcol hv keep k = Ok (keep', Some pk) ->
  let p := m_p m in
  let lim := (nth k zP nan - 6)%float in
  let i0 := width_left zP lim k in
  let i1 := width_right zP lim (List.length zP - 1 - k) k in
  let depth_here := (nth k rcol nan + m_TD m + hv)%float in
  let r_seg := filter Py.isfinite (py_slice (Z.of_nat i0) (Z.of_nat i1 + 1) rcol) in
  pk_TS_comp pk = nth k zTS nan
  /\ pk_TS_uncomp pk = nth k zTSU nan
  /\ pk_r_peak pk = nth k rcol nan
  /\ pk_r_min pk = fmin_list r_seg
  /\ pk_r_max pk = fmax_list r_seg
  /\ r_seg <> []
  /\ pk_left pk = Z.of_nat k - Z.of_nat i0
  /\ pk_right pk = Z.of_nat i1 - Z.of_nat k
  /\ pk_plen pk = Z.of_nat i1 - Z.of_nat i0 + 1
  /\ Py.isfinite (nth k zTS nan) = true
  /\ Py.le (nth k zTS nan) (q_TS_threshold p) = false
  /\ Py.gt (nth k zTS nan - nth k zTSU nan)%float
           (2 * q_MaxAngleOneWayCompression p)%float = false
  /\ Py.le (q_MinEchoDepthM p) depth_here = true
  /\ Py.le depth_here (q_MaxEchoDepthM p) = true
  /\ (exists lo hi,
        Py.round (Py.float_of_Z (m_NechP m) * q_MinEchoLength p)%float = Ok lo
        /\ Py.round (Py.float_of_Z (m_NechP m) * q_MaxEchoLength p)%float = Ok hi
        /\ lo <= pk_plen pk <= hi).
Proof.
  unfold matecho_candidate. cbv zeta. intros H.
  destruct (negb (Py.isfinite (nth k zTS nan))
            || Py.le (nth k zTS nan) (q_TS_threshold (m_p m))) eqn:E1; [discriminate|].
  apply orb_false_iff in E1 as [E1a E1b]. apply negb_false_iff in E1a.
  match type of H with (if ?c then _ else _) = _ => destruct c eqn:E2 end; [discriminate|].
  apply bind_Ok in H as (lo & Hlo & H).
  match type of H with (if ?c then _ else _) = _ => destruct c eqn:E3 end; [discriminate|].
  apply bind_Ok in H as (hi & Hhi & H).
  match type of H with (if ?c then _ else _) = _ => destruct c eqn:E4 end; [discriminate|].
  apply bind_Ok in H as (tc & Htc & H).
  destruct tc; [discriminate|].
  match type of H with (if ?c then _ else _) = _ => destruct c eqn:E5 end; [discriminate|].
  apply negb_false_iff, andb_true_iff in E5 as [E5a E5b].
  apply Z.ltb_ge in E3. rewrite Z.gtb_ltb in E4. apply Z.ltb_ge in E4.
  match type of H with
  | match ?s with [] => _ | _ => _ end = _ => destruct s eqn:Es
  end; [discriminate|].
  injection H as <- <-. cbn [pk_TS_comp pk_TS_uncomp pk_r_peak pk_r_min pk_r_max
                              pk_left pk_right pk_plen].
  repeat (split; [first [assumption | reflexivity | discriminate]|]).
  exists lo, hi. repeat split; assumption.
Qed.

(** ** The order of the detections *)

Lemma FOP_filter {A : Type} (R : A -> A -> Prop) (f : A -> bool) (l : list A) :
  ForallOrdPairs R l -> ForallOrdPairs R (filter f l).
Proof.
  induction 1 as [|a l Ha Hl IH]; simpl; [constructor|].
  destruct (f a); [|exact IH].
  constructor; [|exact IH].
  apply Forall_forall. intros x Hx. apply filter_In in Hx as [Hx _].
  rewrite Forall_forall in Ha. auto.
Qed.

Lemma FOP_firstn {A : Type} (R : A -> A -> Prop) (l : list A) : forall n,
  ForallOrdPairs R l -> ForallOrdPairs R (firstn n l).
Proof.
  intros n H. revert n. induction H as [|a l Ha Hl IH]; intros [|n]; simpl; try constructor.
  - apply Forall_forall. intros x Hx. apply In_firstn in Hx.
    rewrite Forall_forall in Ha. auto.
  - apply IH.
Qed.

Lemma FOP_skipn {A : Type} (R : A -> A -> Prop) (l : list A) : forall n,
  ForallOrdPairs R l -> ForallOrdPairs R (skipn n l).
Proof.
  intros n H. revert n. induction H as [|a l Ha Hl IH]; intros [|n]; simpl;
    try constructor; try assumption.
  apply IH.
Qed.

Lemma FOP_combine {A B : Type} (R : A -> A -> Prop) (l : list A) : forall (l' : list B),
  ForallOrdPairs R l -> ForallOrdPairs (fun a b => R (fst a) (fst b)) (combine l l').
Proof.
  intros l' H. revert l'. induction H as [|a l Ha Hl IH]; intros [|b l']; simpl;
    try constructor.
  - apply Forall_forall. intros [x y] Hx. apply in_combine_l in Hx.
    rewrite Forall_forall in Ha. simpl. auto.
  - apply IH.
Qed.

Lemma block_pings_sorted n bs ui :
  ForallOrdPairs (fun a b => (a < b)%nat) (block_pings n bs ui).
Proof.
  unfold block_pings, py_slice, arange. apply FOP_firstn, FOP_skipn, FOP_seq_lt.
Qed.

(** The blocks come in increasing order of their pings, whatever the block
    size. *)
Lemma blocks_increasing n bs nite :
  0 <= n ->
  ForallOrdPairs (fun b1 b2 => forall p q : nat, In p b1 -> In q b2 -> (p < q)%nat)
                 (blocks n bs nite).
Proof.
  intros Hn. unfold blocks, range. rewrite map_map. apply FOP_map.
  eapply FOP_impl; [|apply FOP_seq_lt].
  intros u1 u2 Hu p q H1 H2. cbv beta in Hu.
  destruct (Z.lt_ge_cases bs 1) as [Hbs|Hbs].
  - rewrite (block_pings_nonpos n bs (Z.of_nat u2)) in H2 by lia. destruct H2.
  - rewrite block_pings_pos in H1, H2 by lia.
    apply in_seq in H1, H2.
    assert ((Z.of_nat u1 + 1) * bs <= Z.of_nat u2 * bs) by nia.
    lia.
Qed.

Lemma local_maxima_sorted valid z :
  ForallOrdPairs (fun a b => (a < b)%nat) (local_maxima valid z).
Proof.
  unfold local_maxima. apply FOP_filter, FOP_seq_lt.
Qed.

Lemma min_separation_sorted Np : forall cand last,
  ForallOrdPairs (fun a b => (a < b)%nat) cand ->
  ForallOrdPairs (fun a b => (a < b)%nat) (min_separation Np cand last).
Proof.
  induction cand as [|k rest IH]; intros last H; simpl; [constructor|].
  inversion H as [|? ? Hk Hrest]; subst.
  destruct (Z.of_nat k - last >=? Np); [|apply IH; assumption].
  constructor; [|apply IH; assumption].
  apply Forall_forall. intros x Hx. apply min_separation_In in Hx.
  rewrite Forall_forall in Hk. auto.
Qed.

Section Order.

Variable log10 : float -> float.

Lemma esp3_ping_hits_sorted x rows ping z d :
  ForallOrdPairs hit_before (esp3_ping_hits log10 x rows ping z d).
Proof.
  unfold esp3_ping_hits. destruct (List.length z <? 3)%nat; [constructor|].
  apply FOP_flat_map with (R := fun a b => (a < b)%nat).
  - apply min_separation_sorted, local_maxima_sorted.
  - intros k _. destruct (esp3_peak log10 x z d k); repeat constructor.
  - intros a b h1 h2 Hab H1 H2.
    destruct (esp3_peak log10 x z d a); [|destruct H1].
    destruct (esp3_peak log10 x z d b); [|destruct H2].
    destruct H1 as [<-|[]], H2 as [<-|[]]. right. simpl. auto.
Qed.

Lemma esp3_block_hits_sorted x ds bb idx_r_tot idx_pings :
  ForallOrdPairs (fun a b => (a < b)%nat) idx_pings ->
  ForallOrdPairs hit_before (esp3_block_hits log10 x ds bb idx_r_tot idx_pings).
Proof.
  intros Hs. unfold esp3_block_hits. cbv zeta.
  destruct (negb _); [constructor|].
  apply FOP_flat_map with (R := fun a b => (fst a < fst b)%nat).
  - apply (FOP_combine (fun a b => (a < b)%nat)). exact Hs.
  - intros a _. apply esp3_ping_hits_sorted.
  - intros a b h1 h2 Hab H1 H2.
    apply esp3_ping_hits_inv in H1 as (_ & H1 & _).
    apply esp3_ping_hits_inv in H2 as (_ & H2 & _).
    left. lia.
Qed.

Lemma esp3_hits_sorted ds pl : ForallOrdPairs hit_before (esp3_hits log10 ds pl).
Proof.
  unfold esp3_hits.
  apply FOP_flat_map
    with (R := fun b1 b2 => forall p q : nat, In p b1 -> In q b2 -> (p < q)%nat).
  - apply blocks_increasing, ping_size_nonneg.
  - intros blk Hblk. apply blocks_In in Hblk as (ui & ->).
    apply esp3_block_hits_sorted, block_pings_sorted.
  - intros b1 b2 h1 h2 Hb H1 H2.
    apply esp3_block_hits_inv in H1 as (n1 & H1). cbv zeta in H1.
    apply esp3_block_hits_inv in H2 as (n2 & H2). cbv zeta in H2.
    left. apply Hb; [apply H1|apply H2].
Qed.

Lemma matecho_scan_hits_sorted m rows ping zP zTS zTSU rcol :
  forall loc keep keep' hs,
  ForallOrdPairs (fun a b => (a < b)%nat) loc ->
  matecho_scan_hits m rows ping zP zTS zTSU rcol loc keep = Ok (keep', hs) ->
  ForallOrdPairs hit_before hs.
Proof.
  induction loc as [|k rest IH]; intros keep keep' hs Hs H; simpl in H.
  - injection H as <- <-. constructor.
  - inversion Hs as [|? ? Hk Hrest]; subst.
    apply bind_Ok in H as ([keep1 o] & Hc & H).
    apply bind_Ok in H as ([keep2 hs'] & Hsc & H).
    injection H as <- <-. cbn [fst snd] in *.
    pose proof (IH _ _ _ Hrest Hsc) as Hfop.
    destruct o as [pk|]; [|exact Hfop].
    constructor; [|exact Hfop].
    apply Forall_forall. intros h Hin.
    destruct (matecho_scan_hits_origin _ _ _ _ _ _ _ _ _ _ _ Hsc h Hin)
      as (Hping & _ & Hloc & _).
    rewrite Forall_forall in Hk. right. simpl. split; [congruence|auto].
Qed.

Lemma matecho_ping_hits_sorted m ds bb rows ip hs :
  matecho_ping_hits log10 m ds bb rows ip = Ok hs -> ForallOrdPairs hit_before hs.
Proof.
  unfold matecho_ping_hits. cbv zeta.
  destruct (negb _); [intros H; injection H as <-; constructor|].
  intros H. apply bind_Ok in H as ([keep' hs'] & Hs & H). injection H as <-.
  eapply matecho_scan_hits_sorted; [|exact Hs]. apply local_maxima_sorted.
Qed.

Lemma matecho_block_hits_sorted m ds bb idx_r_tot idx_pings hs :
  ForallOrdPairs (fun a b => (a < b)%nat) idx_pings ->
  matecho_block_hits log10 m ds bb idx_r_tot idx_pings = Ok hs ->
  ForallOrdPairs hit_before hs.
Proof.
  intros Hs H. unfold matecho_block_hits in H.
  pose proof (collect_flat_map _ _ _ H) as ->.
  apply FOP_flat_map with (R := fun a b => (a < b)%nat).
  - exact Hs.
  - intros ip _.
    destruct (matecho_ping_hits log10 m ds bb _ ip) eqn:E; [|constructor].
    eapply matecho_ping_hits_sorted. exact E.
  - intros a b h1 h2 Hab H1 H2.
    destruct (matecho_ping_hits log10 m ds bb _ a) eqn:Ea; [|destruct H1].
    destruct (matecho_ping_hits log10 m ds bb _ b) eqn:Eb; [|destruct H2].
    apply matecho_ping_hits_spaced in Ea as (Ea & _).
    apply matecho_ping_hits_spaced in Eb as (Eb & _).
    rewrite Forall_forall in Ea, Eb. left.
    rewrite (Ea _ H1), (Eb _ H2). exact Hab.
Qed.

Lemma matecho_hits_sorted ds pl hs :
  matecho_hits log10 ds pl = Ok hs -> ForallOrdPairs hit_before hs.
Proof.
  intros H. unfold matecho_hits in H.
  pose proof (collect_flat_map _ _ _ H) as ->.
  apply FOP_flat_map
    with (R := fun b1 b2 => forall p q : nat, In p b1 -> In q b2 -> (p < q)%nat).
  - apply blocks_increasing, ping_size_nonneg.
  - intros blk Hblk. apply blocks_In in Hblk as (ui & ->).
    destruct (matecho_block_hits log10 _ ds _ _ (block_pings _ _ ui)) eqn:E; [|constructor].
    eapply matecho_block_hits_sorted; [|exact E]. apply block_pings_sorted.
  - intros b1 b2 h1 h2 Hb H1 H2.
    destruct (matecho_block_hits log10 _ ds _ _ b1) eqn:E1; [|destruct H1].
    destruct (matecho_block_hits log10 _ ds _ _ b2) eqn:E2; [|destruct H2].
    apply matecho_block_hits_pings in E1, E2.
    rewrite Forall_forall in E1, E2. left. apply Hb; auto.
Qed.

End Order.

(** ** The constants of a run of [detect_matecho] *)

Lemma matecho_prepare_ctx log10 ds given pl :
  matecho_prepare log10 ds (Some given) = Ok pl ->
  let p := merge_matecho_defaults given in
  let m := mplan_ctx pl in
  let T := merged (q_pulse_length p) 1e-3%float in
  m_p m = p
  /\ m_T m = T
  /\ m_alpha m = merged (sound_absorption ds) 0%float
  /\ m_TD m = merged (transducer_depth ds) 0%float
  /\ matecho_NechP ds p = Ok (m_NechP m)
  /\ m_nb_samples_tot m = Z.of_nat (range_sample_size ds)
  /\ m_sv2ts m = (10 * log10 (q_SoundSpeed p * T / 2) + q_psi_two_way p
                  + 2 * q_Sa_correction p + 2 * q_Sa_EK80_nominal p)%float
  /\ (exists dstep,
        matecho_dstep ds = Ok dstep
        /\ m_ts_range m
           = map (fun i => Py.maximum dstep
                             (Py.float_of_Z (i - q_tvg_start_sample p) * dstep)%float)
                 (range (Z.of_nat (range_sample_size ds))))
  /\ m_heave m = nav_field ds ["heave"; "Heave"; "vertical_offset"]%string.
Proof.
  unfold matecho_prepare. destruct (channel given); [|discriminate]. cbv zeta.
  intros H.
  apply bind_Ok in H as (dstep & Hd & H).
  apply bind_Ok in H as (dt & Hdt & H).
  apply bind_Ok in H as (n0 & _ & H).
  apply bind_Ok in H as (rows & _ & H).
  apply bind_Ok in H as (bs & _ & H).
  apply bind_Ok in H as (NechP & HN & H).
  injection H as <-. cbn [mplan_ctx m_p m_T m_alpha m_TD m_NechP m_nb_samples_tot
                          m_sv2ts m_ts_range m_heave].
  repeat (split; [reflexivity|]).
  split; [unfold matecho_NechP; rewrite Hd; cbn [bind]; rewrite Hdt; cbn [bind]; exact HN|].
  repeat (split; [reflexivity|]).
  split; [|reflexivity].
  exists dstep. split; [exact Hd|reflexivity].
Qed.

(** The row domain is never larger than the frame when the depth matrix has
    the frame's shape. *)
Lemma idx_r_tot_of_length ds bottom rows :
  Forall (fun col => List.length col = range_sample_size ds) (depth ds) ->
  idx_r_tot_of ds bottom = Ok rows ->
  (List.length rows <= range_sample_size ds)%nat.
Proof.
  intros Hwf H. destruct bottom as [b|].
  - eapply idx_r_tot_of_bottom_length; eassumption.
  - simpl in H. injection H as <-. unfold arange. rewrite length_seq. lia.
Qed.

Lemma esp3_Np_T_duration ds p n T :
  esp3_Np_T ds p = Ok (n, T) -> T = merged (p_pulse_length p) 1e-3%float.
Proof.
  unfold esp3_Np_T. intros H.
  destruct (p_Np p) as [k|]; [destruct (k >? 2)|];
    try (injection H as _ <-; reflexivity);
    apply bind_Ok in H as (? & _ & H); injection H as _ <-; reflexivity.
Qed.

Lemma map_const {A B : Type} (b : B) (l : list A) :
  map (fun _ => b) l = repeat b (List.length l).
Proof.
  induction l as [|a l IH]; simpl; [reflexivity|]. rewrite IH. reflexivity.
Qed.

(** ** More on the order of floats, and NaN through the operations *)

Lemma SFltb_false_leb (x y : spec_float) :
  x <> S754_nan -> y <> S754_nan -> SFltb x y = false -> SFleb y x = true.
Proof.
  intros Hx Hy. unfold SFleb, SFltb. rewrite (SFcompare_swap x y).
  destruct (SFcompare x y) as [[ | | ]|] eqn:E; simpl; try congruence.
  destruct x, y; simpl in E; congruence.
Qed.

Lemma not_lt_le (x y : float) :
  Py.isnan x = false -> Py.isnan y = false -> Py.lt x y = false -> Py.le y x = true.
Proof.
  rewrite !isnan_false. unfold Py.le, Py.lt. rewrite leb_spec, ltb_spec.
  apply SFltb_false_leb.
Qed.

Lemma le_refl (x : float) : Py.isnan x = false -> Py.le x x = true.
Proof.
  rewrite isnan_false. unfold Py.le. rewrite leb_spec. unfold SFleb. intros H.
  rewrite SFcompare_refl by assumption. reflexivity.
Qed.

Lemma lt_le (x y : float) : Py.lt x y = true -> Py.le x y = true.
Proof.
  unfold Py.lt, Py.le. rewrite ltb_spec, leb_spec. unfold SFltb, SFleb.
  destruct (SFcompare (Prim2SF x) (Prim2SF y)) as [[ | | ]|]; congruence.
Qed.

Lemma lex3_le_trans (a b c : Z * Z * Z) :
  lex3 a b <> Gt -> lex3 b c <> Gt -> lex3 a c <> Gt.
Proof.
  destruct a as [[a1 a2] a3], b as [[b1 b2] b3], c as [[c1 c2] c3]; unfold lex3.
  destruct (Z.compare_spec a1 b1), (Z.compare_spec b1 c1), (Z.compare_spec a1 c1);
    try lia; try congruence;
  destruct (Z.compare_spec a2 b2), (Z.compare_spec b2 c2), (Z.compare_spec a2 c2);
    try lia; try congruence;
  destruct (Z.compare_spec a3 b3), (Z.compare_spec b3 c3), (Z.compare_spec a3 c3);
    try lia; try congruence.
Qed.

Lemma le_trans (a b c : float) :
  Py.le a b = true -> Py.le b c = true -> Py.le a c = true.
Proof.
  intros H1 H2.
  pose proof (le_not_nan _ _ H1) as [Ha Hb]. pose proof (le_not_nan _ _ H2) as [_ Hc].
  rewrite isnan_false in Ha, Hb, Hc.
  unfold Py.le in *. rewrite leb_spec in *. unfold SFleb in *.
  rewrite SFcompare_key in * by assumption.
  pose proof (lex3_le_trans (SFkey (Prim2SF a)) (SFkey (Prim2SF b)) (SFkey (Prim2SF c))) as T.
  destruct (lex3 (SFkey (Prim2SF a)) (SFkey (Prim2SF b))); try discriminate;
  destruct (lex3 (SFkey (Prim2SF b)) (SFkey (Prim2SF c))); try discriminate;
  destruct (lex3 (SFkey (Prim2SF a)) (SFkey (Prim2SF c))); try reflexivity;
  exfalso; apply T; congruence.
Qed.

(** An operand that is NaN makes the result NaN. *)
Lemma add_not_nan (x y : float) :
  Py.isnan (x + y)%float = false -> Py.isnan x = false /\ Py.isnan y = false.
Proof.
  rewrite !isnan_false, add_spec. intros H.
  split; intros E; apply H; rewrite E; [|destruct (Prim2SF x)]; reflexivity.
Qed.

Lemma sub_not_nan (x y : float) :
  Py.isnan (x - y)%float = false -> Py.isnan x = false /\ Py.isnan y = false.
Proof.
  rewrite !isnan_false, sub_spec. intros H.
  split; intros E; apply H; rewrite E; [|destruct (Prim2SF x)]; reflexivity.
Qed.

Lemma mul_not_nan (x y : float) :
  Py.isnan (x * y)%float = false -> Py.isnan x = false /\ Py.isnan y = false.
Proof.
  rewrite !isnan_false, mul_spec. intros H.
  split; intros E; apply H; rewrite E; [|destruct (Prim2SF x)]; reflexivity.
Qed.

(** [clip(min=0.0)] leaves NaN or a value that is not below zero. *)
Lemma clip_min_ge (lo x : float) :
  Py.isnan lo = false -> Py.isnan (Py.clip_min lo x) = false ->
  Py.le lo (Py.clip_min lo x) = true.
Proof.
  unfold Py.clip_min. intros Hlo.
  destruct (Py.isnan x) eqn:En; [congruence|]. intros _.
  destruct (Py.lt x lo) eqn:E.
  - apply le_refl. exact Hlo.
  - apply not_lt_le; assumption.
Qed.

(** The smallest and the largest of a non-empty list of numbers. *)
Lemma fmin_list_spec (l : list float) :
  l <> [] -> Forall (fun v => Py.isnan v = false) l ->
  In (fmin_list l) l /\ Forall (fun v => Py.le (fmin_list l) v = true) l.
Proof.
  destruct l as [|x l]; [congruence|]. intros _ H. simpl fmin_list.
  inversion H as [|? ? Hx Hl]; subst. clear H.
  assert (G : forall l m seen,
            Forall (fun v => Py.isnan v = false) l ->
            Py.isnan m = false ->
            In m seen -> Forall (fun v => Py.le m v = true) seen ->
            let r := fold_left (fun m y => if Py.lt y m then y else m) l m in
            In r (seen ++ l) /\ Forall (fun v => Py.le r v = true) (seen ++ l)).
  { clear. induction l as [|y l IH]; intros m seen Hl Hm Hin Hle; simpl.
    - rewrite app_nil_r. auto.
    - inversion Hl as [|? ? Hy Hl']; subst.
      replace (seen ++ y :: l) with ((seen ++ [y]) ++ l) by (rewrite <- app_assoc; reflexivity).
      destruct (Py.lt y m) eqn:E.
      + apply IH; try assumption.
        * apply in_or_app. right. left. reflexivity.
        * apply Forall_app. split.
          -- eapply Forall_impl; [|exact Hle]. intros v Hv. simpl in Hv.
             eapply le_trans; [apply lt_le; exact E|exact Hv].
          -- constructor; [apply le_refl; assumption|constructor].
      + apply IH; try assumption.
        * apply in_or_app. left. assumption.
        * apply Forall_app. split; [assumption|].
          constructor; [apply not_lt_le; assumption|constructor]. }
  apply (G l x [x]); try assumption.
  - left. reflexivity.
  - constructor; [apply le_refl; assumption|constructor].
Qed.

Lemma fmax_list_spec (l : list float) :
  l <> [] -> Forall (fun v => Py.isnan v = false) l ->
  In (fmax_list l) l /\ Forall (fun v => Py.le v (fmax_list l) = true) l.
Proof.
  destruct l as [|x l]; [congruence|]. intros _ H. simpl fmax_list.
  inversion H as [|? ? Hx Hl]; subst. clear H.
  assert (G : forall l m seen,
            Forall (fun v => Py.isnan v = false) l ->
            Py.isnan m = false ->
            In m seen -> Forall (fun v => Py.le v m = true) seen ->
            let r := fold_left (fun m y => if Py.lt m y then y else m) l m in
            In r (seen ++ l) /\ Forall (fun v => Py.le v r = true) (seen ++ l)).
  { clear. induction l as [|y l IH]; intros m seen Hl Hm Hin Hle; simpl.
    - rewrite app_nil_r. auto.
    - inversion Hl as [|? ? Hy Hl']; subst.
      replace (seen ++ y :: l) with ((seen ++ [y]) ++ l) by (rewrite <- app_assoc; reflexivity).
      destruct (Py.lt m y) eqn:E.
      + apply IH; try assumption.
        * apply in_or_app. right. left. reflexivity.
        * apply Forall_app. split.
          -- eapply Forall_impl; [|exact Hle]. intros v Hv. simpl in Hv.
             eapply le_trans; [exact Hv|apply lt_le; exact E].
          -- constructor; [apply le_refl; assumption|constructor].
      + apply IH; try assumption.
        * apply in_or_app. left. assumption.
        * apply Forall_app. split; [assumption|].
          constructor; [apply not_lt_le; assumption|constructor]. }
  apply (G l x [x]); try assumption.
  - left. reflexivity.
  - constructor; [apply le_refl; assumption|constructor].
Qed.

Lemma isfinite_SF (x : float) : Py.isfinite x = SFfinite (Prim2SF x).
Proof.
  unfold Py.isfinite, is_finite, is_nan, is_infinity.
  rewrite !eqb_spec, abs_spec.
  change (Prim2SF infinity) with (S754_infinity false).
  destruct (Prim2SF x) as [[]|[]| |s m e]; try reflexivity.
  unfold SFeqb at 1. rewrite SFcompare_refl by discriminate. reflexivity.
Qed.

(** A float between two numbers is a number. *)
Lemma between_finite (lo hi x : float) :
  Py.isfinite lo = true -> Py.isfinite hi = true ->
  Py.le lo x = true -> Py.le x hi = true -> Py.isfinite x = true.
Proof.
  rewrite !isfinite_SF. unfold Py.le. rewrite !leb_spec.
  destruct (Prim2SF x) as [s|[]| |s m e]; try reflexivity; intros Hlo Hhi H1 H2.
  - destruct (Prim2SF lo) as [[]|[]| |[] ? ?]; simpl in *; discriminate.
  - destruct (Prim2SF hi) as [[]|[]| |[] ? ?]; simpl in *; discriminate.
  - destruct (Prim2SF lo); simpl in H1; discriminate.
Qed.

(** ** What [detect_matecho] has checked on a detection *)

Lemma matecho_valid_nth zP k :
  (k < List.length zP)%nat ->
  nth k (matecho_valid zP) false = negb (k <? dec_tir)%nat && Py.isfinite (nth k zP nan).
Proof.
  intros Hk. unfold matecho_valid.
  rewrite (nth_map_lt _ _ k false (0%nat, nan))
    by (rewrite length_combine, length_seq; lia).
  rewrite combine_nth by (rewrite length_seq; reflexivity).
  rewrite seq_nth by assumption. reflexivity.
Qed.

Lemma width_left_spec zP lim : forall k,
  (width_left zP lim k <= k)%nat
  /\ forall j, (width_left zP lim k <= j < k)%nat ->
               Py.isfinite (nth j zP nan) = true /\ Py.ge (nth j zP nan) lim = true.
Proof.
  induction k as [|k IH]; simpl; [split; [lia|intros; lia]|].
  destruct (Py.isfinite (nth k zP nan) && Py.ge (nth k zP nan) lim) eqn:E.
  - destruct IH as [IH1 IH2]. split; [lia|]. intros j Hj.
    destruct (Nat.eq_dec j k) as [->|Hne].
    + apply andb_true_iff in E. exact E.
    + apply IH2. lia.
  - split; [lia|intros; lia].
Qed.

Lemma width_right_spec zP lim : forall n i1,
  (i1 <= width_right zP lim n i1 <= i1 + n)%nat
  /\ forall j, (i1 < j <= width_right zP lim n i1)%nat ->
               Py.isfinite (nth j zP nan) = true /\ Py.ge (nth j zP nan) lim = true.
Proof.
  induction n as [|n IH]; intros i1; simpl; [split; [lia|intros; lia]|].
  destruct (Py.isfinite (nth (S i1) zP nan) && Py.ge (nth (S i1) zP nan) lim) eqn:E.
  - destruct (IH (S i1)) as [IH1 IH2]. split; [lia|]. intros j Hj.
    destruct (Nat.eq_dec j (S i1)) as [->|Hne].
    + apply andb_true_iff in E. exact E.
    + apply IH2. lia.
  - split; [lia|intros; lia].
Qed.

Section MatechoChecks.

Variable log10 : float -> float.

(** A detection of [detect_matecho] in terms of the cells of the frame: the
    values it records and the tests it has passed. *)
Lemma matecho_hit_checks ds given pl hs h :
  matecho_prepare log10 ds (Some given) = Ok pl ->
  matecho_hits log10 ds pl = Ok hs ->
  In h hs ->
  let m := mplan_ctx pl in
  let p := merge_matecho_defaults given in
  let ip := hit_ping h in
  let k := hit_k h in
  let pk := hit_peak h in
  let depth_here := (pk_r_peak pk + m_TD m + nth ip (m_heave m) nan)%float in
  hit_row h = Z.of_nat k
  /\ under_bottom ds (mplan_bb pl) ip k = false
  /\ pk_TS_comp pk = cell_ts log10 m ds ip k
  /\ Py.isfinite (pk_TS_comp pk) = true
  /\ pk_TS_uncomp pk = cell_tsu log10 m ds ip k
  /\ pk_r_peak pk = cell_R m ds ip k
  /\ Py.gt (pk_TS_comp pk - pk_TS_uncomp pk)%float
           (2 * q_MaxAngleOneWayCompression p)%float = false
  /\ Py.le (q_MinEchoDepthM p) depth_here = true
  /\ Py.le depth_here (q_MaxEchoDepthM p) = true
  /\ 0 <= pk_left pk
  /\ 0 <= pk_right pk
  /\ pk_plen pk = pk_left pk + pk_right pk + 1
  /\ (exists lo hi,
        Py.round (Py.float_of_Z (m_NechP m) * q_MinEchoLength p)%float = Ok lo
        /\ Py.round (Py.float_of_Z (m_NechP m) * q_MaxEchoLength p)%float = Ok hi
        /\ lo <= pk_plen pk <= hi).
Proof.
  intros Hp Hh Hin m p ip k pk depth_here.
  destruct (matecho_hit_origin log10 _ _ _ _ _ Hp Hh Hin)
    as (n & k0 & k1 & Hn & Hping & Hrow & Hloc & Hc).
  cbv zeta in Hloc, Hc. fold m ip k pk in Hloc, Hc.
  pose proof (local_maxima_In _ _ _ Hloc) as (_ & Hk2 & _).
  unfold masked_column in Hk2. rewrite length_map, length_seq in Hk2.
  assert (Hk : (k < n)%nat) by lia.
  apply matecho_candidate_Some in Hc. cbv zeta in Hc.
  destruct Hc as (Hts & Htsu & Hr & _ & _ & _ & Hl & Hri & Hpl & Hfin & _ & Hang
                  & Hd1 & Hd2 & Hwin).
  rewrite !matecho_cell_nth in * by assumption.
  rewrite map_seq_nth in * by assumption.
  unfold matecho_cell in Hts, Htsu, Hfin, Hang.
  destruct (under_bottom ds (mplan_bb pl) ip k) eqn:Hub;
    [vm_compute in Hfin; discriminate|].
  apply matecho_prepare_ctx in Hp. cbv zeta in Hp. destruct Hp as (Hmp & _).
  fold m in Hmp. fold p in Hmp. rewrite Hmp in *.
  pose proof (width_left_spec
                (masked_column (cell_Plike log10 m ds) ds (mplan_bb pl) (seq 0 n) ip)
                (matecho_cell (cell_Plike log10 m ds) ds (mplan_bb pl) ip k - 6)%float k)
    as [Hwl _].
  pose proof (width_right_spec
                (masked_column (cell_Plike log10 m ds) ds (mplan_bb pl) (seq 0 n) ip)
                (matecho_cell (cell_Plike log10 m ds) ds (mplan_bb pl) ip k - 6)%float
                (List.length (masked_column (cell_Plike log10 m ds) ds (mplan_bb pl)
                                            (seq 0 n) ip) - 1 - k) k)
    as [Hwr _].
  unfold depth_here. rewrite Hts, Htsu, Hr in *.
  repeat (split; [first [assumption | reflexivity | lia]|]).
  exact Hwin.
Qed.

End MatechoChecks.

Section MatechoEnvelope.

Variable log10 : float -> float.

(** The peak of a detection of [detect_matecho] on the masked [Plike]
    column of its ping, and the 6 dB envelope around it. *)
Lemma matecho_hit_envelope ds given pl hs h :
  matecho_prepare log10 ds (Some given) = Ok pl ->
  matecho_hits log10 ds pl = Ok hs ->
  In h hs ->
  let m := mplan_ctx pl in
  let ip := hit_ping h in
  let k := hit_k h in
  let pk := hit_peak h in
  let P := matecho_cell (cell_Plike log10 m ds) ds (mplan_bb pl) ip in
  (1 <= k)%nat
  /\ Z.of_nat k + pk_right pk < Z.of_nat (List.length (mplan_idx_r_tot pl))
  /\ (k + 1 < List.length (mplan_idx_r_tot pl))%nat
  /\ pk_left pk <= Z.of_nat k
  /\ Py.isfinite (P k) = true
  /\ Py.gt (P k) (P (k - 1)%nat) = true
  /\ Py.ge (P k) (P (k + 1)%nat) = true
  /\ (forall r : nat,
        Z.of_nat k - pk_left pk <= Z.of_nat r <= Z.of_nat k + pk_right pk -> r <> k ->
        Py.isfinite (P r) = true /\ Py.ge (P r) (P k - 6)%float = true).
Proof.
  intros Hp Hh Hin m ip k pk P.
  destruct (matecho_hit_origin log10 _ _ _ _ _ Hp Hh Hin)
    as (n & k0 & k1 & Hn & _ & _ & Hloc & Hc).
  cbv zeta in Hloc, Hc. fold m ip k pk in Hloc, Hc.
  set (zP := masked_column (cell_Plike log10 m ds) ds (mplan_bb pl) (seq 0 n) ip) in *.
  assert (HlP : List.length zP = n)
    by (unfold zP, masked_column; rewrite length_map, length_seq; reflexivity).
  assert (HzP : forall r, (r < n)%nat -> nth r zP nan = P r)
    by (intros r Hr; apply matecho_cell_nth; exact Hr).
  pose proof (local_maxima_In _ _ _ Hloc) as (Hk1 & Hk2 & Hv & Hprev & Hnext).
  rewrite HlP in Hk2.
  rewrite matecho_valid_nth in Hv by lia.
  apply andb_true_iff in Hv as [_ Hfin].
  apply matecho_candidate_Some in Hc. cbv zeta in Hc.
  destruct Hc as (_ & _ & _ & _ & _ & _ & Hl & Hri & _).
  rewrite HlP in Hri.
  destruct (width_left_spec zP (nth k zP nan - 6)%float k) as [Hwl Hwl'].
  destruct (width_right_spec zP (nth k zP nan - 6)%float (n - 1 - k) k) as [Hwr Hwr'].
  rewrite (HzP k) in * by lia.
  rewrite (HzP (k - 1)%nat) in Hprev by lia. rewrite (HzP (k + 1)%nat) in Hnext by lia.
  repeat (split; [first [assumption | lia]|]).
  intros r Hr Hne.
  assert (Hrn : (r < n)%nat) by lia.
  rewrite <- (HzP r Hrn).
  destruct (Nat.lt_ge_cases r k) as [Hlt|Hge]; [apply Hwl'|apply Hwr']; lia.
Qed.

Lemma cell_Plike_formula ds given pl dstep ip r :
  matecho_prepare log10 ds (Some given) = Ok pl ->
  matecho_dstep ds = Ok dstep ->
  (r < range_sample_size ds)%nat ->
  cell_Plike log10 (mplan_ctx pl) ds ip r
  = Plike_cell log10 ds (merge_matecho_defaults given) dstep ip r.
Proof.
  intros Hp Hd Hr.
  apply matecho_prepare_ctx in Hp. cbv zeta in Hp.
  destruct Hp as (Hmp & _ & Hal & _ & _ & _ & Hsv & (dstep' & Hd' & Hts) & _).
  rewrite Hd in Hd'. injection Hd' as <-.
  unfold cell_Plike, cell_tsu, cell_r_eff, Plike_cell.
  rewrite Hts, Hsv, Hal. unfold range.
  rewrite (nth_map_lt _ _ _ nan 0) by (rewrite length_map, length_seq; lia).
  rewrite (nth_map_lt _ _ _ 0 0%nat) by (rewrite length_seq; lia).
  rewrite seq_nth by lia. reflexivity.
Qed.

End MatechoEnvelope.

(** ** What [detect_esp3] has checked on a detection *)

Lemma expand_left_spec z thr max_len : forall i left,
  left <= expand_left z thr max_len i left
  /\ expand_left z thr max_len i left - left <= Z.of_nat i
  /\ (left <= max_len -> expand_left z thr max_len i left <= max_len)
  /\ forall j : nat,
       Z.of_nat i - (expand_left z thr max_len i left - left) <= Z.of_nat j < Z.of_nat i ->
       Py.isfinite (nth j z nan) = true /\ Py.ge (nth j z nan) thr = true.
Proof.
  induction i as [|i IH]; intros left; simpl expand_left.
  - repeat split; try lia.
  - destruct ((left <? max_len) && Py.isfinite (nth i z nan) && Py.ge (nth i z nan) thr)
      eqn:E.
    + apply andb_true_iff in E as [E E3]. apply andb_true_iff in E as [E1 E2].
      apply Z.ltb_lt in E1.
      destruct (IH (left + 1)) as (H1 & H2 & H3 & H4).
      split; [lia|]. split; [lia|]. split; [intros; apply H3; lia|].
      intros j Hj. destruct (Nat.eq_dec j i) as [->|Hne]; [auto|].
      apply H4. lia.
    + repeat split; try lia.
Qed.

Lemma expand_right_spec z thr max_len : forall n i right,
  right <= expand_right z thr max_len n i right
  /\ expand_right z thr max_len n i right - right <= Z.of_nat n
  /\ (right <= max_len -> expand_right z thr max_len n i right <= max_len)
  /\ forall j : nat,
       Z.of_nat i <= Z.of_nat j
       < Z.of_nat i + (expand_right z thr max_len n i right - right) ->
       Py.isfinite (nth j z nan) = true /\ Py.ge (nth j z nan) thr = true.
Proof.
  induction n as [|n IH]; intros i right; simpl expand_right.
  - repeat split; try lia.
  - destruct ((right <? max_len) && Py.isfinite (nth i z nan) && Py.ge (nth i z nan) thr)
      eqn:E.
    + apply andb_true_iff in E as [E E3]. apply andb_true_iff in E as [E1 E2].
      apply Z.ltb_lt in E1.
      destruct (IH (S i) (right + 1)) as (H1 & H2 & H3 & H4).
      split; [lia|]. split; [lia|]. split; [intros; apply H3; lia|].
      intros j Hj. destruct (Nat.eq_dec j i) as [->|Hne]; [auto|].
      apply H4. lia.
    + repeat split; try lia.
Qed.

Lemma esp3_max_len_pos Np p n : esp3_max_len Np p = Ok n -> 1 <= n.
Proof.
  unfold esp3_max_len. intros H. apply bind_Ok in H as (c & _ & H).
  injection H as <-. lia.
Qed.

Section Esp3Checks.

Variable log10 : float -> float.

(** A detection of [detect_esp3] in terms of the cells of the frame. *)
Lemma esp3_hit_checks ds params pl h :
  esp3_prepare ds params = Ok pl ->
  In h (esp3_hits log10 ds pl) ->
  let x := plan_ctx pl in
  let bb := plan_bb pl in
  let ip := hit_ping h in
  let k := hit_k h in
  let pk := hit_peak h in
  let v := nth k (column (Sv ds) ip) nan in
  hit_row h = Z.of_nat k
  /\ (1 <= k)%nat
  /\ under_bottom ds bb ip k = false
  /\ Py.isfinite v = true
  /\ Py.le v (x_TS_thr x) = false
  /\ Py.gt v (esp3_cell ds bb ip (k - 1)) = true
  /\ Py.ge v (esp3_cell ds bb ip (k + 1)) = true
  /\ pk_plen pk = 1 + pk_left pk + pk_right pk
  /\ 0 <= pk_left pk <= x_max_len x
  /\ 0 <= pk_right pk <= x_max_len x
  /\ pk_left pk <= Z.of_nat k
  /\ Z.of_nat k + pk_right pk < Z.of_nat (List.length (plan_idx_r_tot pl))
  /\ (forall r : nat,
        Z.of_nat k - pk_left pk <= Z.of_nat r <= Z.of_nat k + pk_right pk ->
        Py.isfinite (esp3_cell ds bb ip r) = true
        /\ (r <> k -> Py.ge (esp3_cell ds bb ip r) (v - x_PLDL x)%float = true)).
Proof.
  intros Hp Hin x bb ip k pk v.
  destruct (esp3_hit_origin log10 _ _ _ _ Hp Hin)
    as (z & d & Hpk & Hk & Hrow & _ & Hzd & Hlen & Hz & _).
  fold x bb ip k pk in Hpk, Hk, Hz.
  pose proof (esp3_keep_In _ _ _ Hk) as (Hk1 & Hk2 & Hgt).
  unfold esp3_keep in Hk. apply min_separation_In, local_maxima_In in Hk.
  destruct Hk as (_ & _ & _ & Hprev & Hnext).
  apply esp3_peak_inv in Hpk. cbv zeta in Hpk.
  destruct Hpk as (Hfin & Hthr & Hl & Hr & Hpl & _).
  rewrite (Hz k) in * by lia. rewrite (Hz (k - 1)%nat) in Hprev by lia.
  rewrite (Hz (k + 1)%nat) in Hnext by lia.
  assert (Hub : under_bottom ds bb ip k = false).
  { unfold esp3_cell in Hgt. destruct (under_bottom ds bb ip k); [|reflexivity].
    vm_compute in Hgt. discriminate. }
  assert (Hv : esp3_cell ds bb ip k = v) by (unfold esp3_cell; rewrite Hub; reflexivity).
  rewrite Hv in *.
  assert (Hmax : 1 <= x_max_len x).
  { apply esp3_prepare_inv in Hp. cbv zeta in Hp.
    destruct Hp as (_ & _ & _ & _ & _ & _ & _ & _ & Hmx & _).
    eapply esp3_max_len_pos. exact Hmx. }
  destruct (expand_left_spec z (v - x_PLDL x)%float (x_max_len x) k 0)
    as (L1 & L2 & L3 & L4).
  destruct (expand_right_spec z (v - x_PLDL x)%float (x_max_len x)
              (List.length z - (k + 1)) (k + 1) 0) as (R1 & R2 & R3 & R4).
  rewrite <- Hl in *. rewrite <- Hr in *.
  repeat (split; [first [assumption | lia]|]).
  intros r Hr'.
  destruct (Nat.eq_dec r k) as [->|Hne].
  - rewrite Hv. split; [assumption|congruence].
  - assert (Hrz : (r < List.length z)%nat) by lia.
    rewrite <- (Hz r Hrz).
    destruct (Nat.lt_ge_cases r k) as [Hlt|Hge].
    + destruct (L4 r ltac:(lia)). auto.
    + destruct (R4 r ltac:(lia)). auto.
Qed.

End Esp3Checks.

(** ** The range window of a detection *)

Lemma py_slice_In {A : Type} (a b : Z) (l : list A) (d x : A) :
  0 <= a -> 0 <= b ->
  (In x (py_slice a b l) <->
   exists j : nat, a <= Z.of_nat j < b /\ (j < List.length l)%nat /\ nth j l d = x).
Proof.
  intros Ha Hb. unfold py_slice.
  replace (a <? 0) with false by (symmetry; apply Z.ltb_ge; lia).
  replace (b <? 0) with false by (symmetry; apply Z.ltb_ge; lia).
  set (n := Z.of_nat (List.length l)).
  split.
  - intros H. apply (In_nth _ _ d) in H as (t & Ht & Hx).
    rewrite length_firstn, length_skipn in Ht.
    rewrite nth_firstn in Hx.
    replace (t <? Z.to_nat (Z.min b n - Z.min a n))%nat with true in Hx
      by (symmetry; apply Nat.ltb_lt; lia).
    rewrite nth_skipn in Hx.
    exists (Z.to_nat (Z.min a n) + t)%nat. split; [|split; [|exact Hx]]; unfold n in *; lia.
  - intros (j & Hj & Hl & Hx).
    assert (Hja : (Z.to_nat (Z.min a n) <= j)%nat) by (unfold n; lia).
    replace j with (Z.to_nat (Z.min a n) + (j - Z.to_nat (Z.min a n)))%nat in Hx by lia.
    rewrite <- nth_skipn in Hx.
    assert (Hf : nth (j - Z.to_nat (Z.min a n))
                     (firstn (Z.to_nat (Z.min b n - Z.min a n))
                             (skipn (Z.to_nat (Z.min a n)) l)) d = x).
    { rewrite nth_firstn.
      replace (j - Z.to_nat (Z.min a n) <? Z.to_nat (Z.min b n - Z.min a n))%nat with true
        by (symmetry; apply Nat.ltb_lt; unfold n; lia).
      exact Hx. }
    rewrite <- Hf. apply nth_In. rewrite length_firstn, length_skipn. unfold n. lia.
Qed.

(** The smallest and largest finite value of [col] over the rows
    [i0 .. i1]. *)
Lemma window_extrema (col : list float) (i0 i1 : Z) :
  0 <= i0 -> 0 <= i1 ->
  let seg := filter Py.isfinite (py_slice i0 (i1 + 1) col) in
  seg <> [] ->
  (exists r : nat, i0 <= Z.of_nat r <= i1 /\ nth r col nan = fmin_list seg)
  /\ (exists r : nat, i0 <= Z.of_nat r <= i1 /\ nth r col nan = fmax_list seg)
  /\ Py.isfinite (fmin_list seg) = true
  /\ Py.isfinite (fmax_list seg) = true
  /\ Py.le (fmin_list seg) (fmax_list seg) = true
  /\ forall r : nat,
       i0 <= Z.of_nat r <= i1 -> (r < List.length col)%nat ->
       Py.isfinite (nth r col nan) = true ->
       Py.le (fmin_list seg) (nth r col nan) = true
       /\ Py.le (nth r col nan) (fmax_list seg) = true.
Proof.
  intros H0 H1 seg Hne.
  assert (Hnan : Forall (fun v => Py.isnan v = false) seg).
  { apply Forall_forall. intros v Hv. apply filter_In in Hv as [_ Hv].
    apply isfinite_not_nan. exact Hv. }
  destruct (fmin_list_spec seg Hne Hnan) as [Hmin_in Hmin].
  destruct (fmax_list_spec seg Hne Hnan) as [Hmax_in Hmax].
  rewrite Forall_forall in Hmin, Hmax.
  assert (Hseg : forall v, In v seg ->
            Py.isfinite v = true
            /\ exists r : nat, i0 <= Z.of_nat r <= i1 /\ nth r col nan = v).
  { intros v Hv. apply filter_In in Hv as [Hv Hf]. split; [exact Hf|].
    apply (py_slice_In i0 (i1 + 1) col nan v) in Hv as (j & Hj & _ & Hx); try lia.
    exists j. split; [lia|exact Hx]. }
  destruct (Hseg _ Hmin_in) as [Hfmin Hrmin]. destruct (Hseg _ Hmax_in) as [Hfmax Hrmax].
  split; [exact Hrmin|]. split; [exact Hrmax|].
  split; [exact Hfmin|]. split; [exact Hfmax|].
  split; [apply Hmin; exact Hmax_in|].
  intros r Hr Hlen Hf.
  assert (Hin : In (nth r col nan) seg).
  { apply filter_In. split; [|exact Hf].
    apply (py_slice_In i0 (i1 + 1) col nan); try lia.
    exists r. split; [lia|]. split; [exact Hlen|reflexivity]. }
  split; [apply Hmin|apply Hmax]; exact Hin.
Qed.

Lemma esp3_peak_range log10 x z d k pk :
  esp3_peak log10 x z d k = Some pk ->
  let seg := filter Py.isfinite
               (py_slice (Z.of_nat k - pk_left pk) (Z.of_nat k + pk_right pk + 1) d) in
  seg <> []
  /\ pk_r_min pk = fmin_list seg
  /\ pk_r_max pk = fmax_list seg
  /\ pk_r_peak pk = (if Py.isfinite (nth k d nan) then nth k d nan
                     else (0.5 * (pk_r_min pk + pk_r_max pk))%float).
Proof.
  unfold esp3_peak. intros H.
  destruct (negb (Py.isfinite (nth k z nan)) || Py.le (nth k z nan) (x_TS_thr x));
    [discriminate|].
  match type of H with
  | (if ?c then _ else _) = _ => destruct c; [discriminate|]
  end.
  match type of H with
  | match ?s with [] => _ | _ => _ end = _ => destruct s eqn:Es; [discriminate|]
  end.
  match type of H with
  | (if ?c then _ else _) = _ => destruct c; [discriminate|]
  end.
  match type of H with
  | (if ?c then _ else _) = _ => destruct c; [discriminate|]
  end.
  injection H as <-. cbn [pk_left pk_right pk_r_min pk_r_max pk_r_peak]. cbv zeta.
  rewrite Es. repeat split. discriminate.
Qed.

Section Ranges.

Variable log10 : float -> float.

(** The recorded range window of a detection of [detect_esp3] in terms of
    the depth column of its ping. *)
Lemma esp3_hit_range ds params pl h :
  esp3_prepare ds params = Ok pl ->
  In h (esp3_hits log10 ds pl) ->
  let ip := hit_ping h in
  let k := hit_k h in
  let pk := hit_peak h in
  let dep := fun r : nat => nth r (column (depth ds) ip) nan in
  let inside := fun r : nat =>
    Z.of_nat k - pk_left pk <= Z.of_nat r <= Z.of_nat k + pk_right pk in
  (exists r, inside r /\ dep r = pk_r_min pk)
  /\ (exists r, inside r /\ dep r = pk_r_max pk)
  /\ Py.isfinite (pk_r_min pk) = true
  /\ Py.isfinite (pk_r_max pk) = true
  /\ Py.le (pk_r_min pk) (pk_r_max pk) = true
  /\ (forall r, inside r -> Py.isfinite (dep r) = true ->
                Py.le (pk_r_min pk) (dep r) = true /\ Py.le (dep r) (pk_r_max pk) = true)
  /\ pk_r_peak pk = (if Py.isfinite (dep k) then dep k
                     else (0.5 * (pk_r_min pk + pk_r_max pk))%float).
Proof.
  intros Hp Hin ip k pk dep inside.
  destruct (esp3_hit_origin log10 _ _ _ _ Hp Hin)
    as (z & d & Hpk & Hk & _ & _ & Hzd & _ & _ & Hd).
  fold ip k pk in Hpk, Hk, Hd.
  pose proof (esp3_keep_In _ _ _ Hk) as (_ & Hk2 & _).
  pose proof (esp3_peak_range _ _ _ _ _ _ Hpk) as Hrng. cbv zeta in Hrng.
  destruct Hrng as (Hne & Hmin & Hmax & Hpeak).
  apply esp3_peak_inv in Hpk. cbv zeta in Hpk.
  destruct Hpk as (_ & _ & Hl & Hr & _).
  destruct (expand_left_spec z (nth k z nan - x_PLDL (plan_ctx pl))%float
              (x_max_len (plan_ctx pl)) k 0) as (L1 & L2 & _).
  destruct (expand_right_spec z (nth k z nan - x_PLDL (plan_ctx pl))%float
              (x_max_len (plan_ctx pl)) (List.length z - (k + 1)) (k + 1) 0)
    as (R1 & R2 & _).
  rewrite <- Hl in L1, L2. rewrite <- Hr in R1, R2.
  destruct (window_extrema d (Z.of_nat k - pk_left pk) (Z.of_nat k + pk_right pk)
              ltac:(lia) ltac:(lia) Hne)
    as ((r1 & Hr1 & E1) & (r2 & Hr2 & E2) & Hf1 & Hf2 & Hle & Hall).
  rewrite <- Hmin in *. rewrite <- Hmax in *.
  assert (Hdep : forall r, inside r -> nth r d nan = dep r).
  { intros r Hr'. apply Hd. unfold inside in Hr'. lia. }
  split; [exists r1; split; [exact Hr1|rewrite <- Hdep by exact Hr1; exact E1]|].
  split; [exists r2; split; [exact Hr2|rewrite <- Hdep by exact Hr2; exact E2]|].
  split; [exact Hf1|]. split; [exact Hf2|]. split; [exact Hle|].
  split.
  - intros r Hr' Hf. rewrite <- (Hdep r Hr') in *.
    apply Hall; [exact Hr'| |exact Hf]. unfold inside in Hr'. lia.
  - rewrite Hpeak. rewrite (Hd k) by lia. reflexivity.
Qed.

(** The recorded range window of a detection of [detect_matecho] in terms
    of the range matrix [R] of the frame. *)
Lemma matecho_hit_range ds given pl hs h :
  matecho_prepare log10 ds (Some given) = Ok pl ->
  matecho_hits log10 ds pl = Ok hs ->
  In h hs ->
  let ip := hit_ping h in
  let k := hit_k h in
  let pk := hit_peak h in
  let rng := fun r : nat => cell_R (mplan_ctx pl) ds ip r in
  let inside := fun r : nat =>
    Z.of_nat k - pk_left pk <= Z.of_nat r <= Z.of_nat k + pk_right pk in
  (exists r, inside r /\ rng r = pk_r_min pk)
  /\ (exists r, inside r /\ rng r = pk_r_max pk)
  /\ Py.isfinite (pk_r_min pk) = true
  /\ Py.isfinite (pk_r_max pk) = true
  /\ Py.le (pk_r_min pk) (pk_r_max pk) = true
  /\ (forall r, inside r -> Py.isfinite (rng r) = true ->
                Py.le (pk_r_min pk) (rng r) = true /\ Py.le (rng r) (pk_r_max pk) = true)
  /\ pk_r_peak pk = rng k.
Proof.
  intros Hp Hh Hin ip k pk rng inside.
  destruct (matecho_hit_origin log10 _ _ _ _ _ Hp Hh Hin)
    as (n & k0 & k1 & _ & _ & _ & Hloc & Hc).
  cbv zeta in Hloc, Hc. fold ip k pk in Hloc, Hc.
  pose proof (local_maxima_In _ _ _ Hloc) as (_ & Hk2 & _).
  assert (HlP : List.length (masked_column (cell_Plike log10 (mplan_ctx pl) ds) ds
                                           (mplan_bb pl) (seq 0 n) ip) = n)
    by (unfold masked_column; rewrite length_map, length_seq; reflexivity).
  rewrite HlP in Hk2.
  apply matecho_candidate_Some in Hc. cbv zeta in Hc.
  destruct Hc as (_ & _ & Hr & Hmin & Hmax & Hne & Hl & Hri & _).
  rewrite HlP in *.
  set (zP := masked_column (cell_Plike log10 (mplan_ctx pl) ds) ds (mplan_bb pl)
                           (seq 0 n) ip) in *.
  set (lim := (nth k zP nan - 6)%float) in *.
  destruct (width_left_spec zP lim k) as [Hwl _].
  destruct (width_right_spec zP lim (n - 1 - k) k) as [Hwr _].
  set (i0 := width_left zP lim k) in *. set (i1 := width_right zP lim (n - 1 - k) k) in *.
  destruct (window_extrema (map (cell_R (mplan_ctx pl) ds ip) (seq 0 n))
              (Z.of_nat i0) (Z.of_nat i1) ltac:(lia) ltac:(lia) Hne)
    as ((r1 & Hr1 & E1) & (r2 & Hr2 & E2) & Hf1 & Hf2 & Hle & Hall).
  rewrite <- Hmin in *. rewrite <- Hmax in *.
  assert (Hcell : forall r, inside r ->
            nth r (map (cell_R (mplan_ctx pl) ds ip) (seq 0 n)) nan = rng r).
  { intros r Hr'. apply map_seq_nth. unfold inside in Hr'. lia. }
  assert (Hin1 : inside r1) by (unfold inside; lia).
  assert (Hin2 : inside r2) by (unfold inside; lia).
  split; [exists r1; split; [exact Hin1|rewrite <- Hcell by exact Hin1; exact E1]|].
  split; [exists r2; split; [exact Hin2|rewrite <- Hcell by exact Hin2; exact E2]|].
  split; [exact Hf1|]. split; [exact Hf2|]. split; [exact Hle|].
  split.
  - intros r Hr' Hf. rewrite <- (Hcell r Hr') in *.
    apply Hall; [unfold inside in Hr'; lia| |exact Hf].
    rewrite length_map, length_seq. unfold inside in Hr'. lia.
  - rewrite Hr. apply map_seq_nth. lia.
Qed.

End Ranges.

(** ** What the per-ping detection of [detect_matecho] depends on *)

Lemma matecho_candidate_without_blocking m zP zTS zTSU rcol hv keep k :
  matecho_candidate m zP zTS zTSU rcol hv keep k
  = matecho_candidate (without_blocking m) zP zTS zTSU rcol hv keep k.
Proof. reflexivity. Qed.

Lemma matecho_scan_hits_without_blocking m rows ping zP zTS zTSU rcol :
  forall loc keep,
  matecho_scan_hits m rows ping zP zTS zTSU rcol loc keep
  = matecho_scan_hits (without_blocking m) rows ping zP zTS zTSU rcol loc keep.
Proof.
  induction loc as [|k rest IH]; intros keep; simpl; [reflexivity|].
  rewrite <- matecho_candidate_without_blocking.
  change (m_heave (without_blocking m)) with (m_heave m).
  destruct (matecho_candidate m zP zTS zTSU rcol (nth ping (m_heave m) nan) keep k)
    as [[keep1 o]|e]; simpl; [|reflexivity].
  rewrite IH. reflexivity.
Qed.

Lemma collect_ext {A B : Type} (f g : A -> result (list B)) (l : list A) :
  (forall a, f a = g a) -> collect f l = collect g l.
Proof.
  intros H. induction l as [|a l IH]; simpl; [reflexivity|]. rewrite H, IH. reflexivity.
Qed.

Lemma collect_app {A B : Type} (f : A -> result (list B)) (l1 l2 : list A) :
  collect f (l1 ++ l2) = (h1 <- collect f l1 ;; h2 <- collect f l2 ;; Ok (h1 ++ h2)).
Proof.
  induction l1 as [|a l1 IH]; simpl.
  - destruct (collect f l2); reflexivity.
  - destruct (f a) as [ha|e]; simpl; [|reflexivity].
    rewrite IH. destruct (collect f l1) as [h1|e]; simpl; [|reflexivity].
    destruct (collect f l2) as [h2|e]; simpl; [|reflexivity].
    rewrite app_assoc. reflexivity.
Qed.

(** A loop over the blocks and then over the pings of each block is one loop
    over the pings of all blocks. *)
Lemma collect_concat {A B : Type} (f : A -> result (list B)) (ls : list (list A)) :
  collect (collect f) ls = collect f (List.concat ls).
Proof.
  induction ls as [|l ls IH]; simpl; [reflexivity|].
  rewrite collect_app, IH. reflexivity.
Qed.

Section Blocking.

Variable log10 : float -> float.

Lemma matecho_ping_hits_without_blocking m ds bb rows ip :
  matecho_ping_hits log10 m ds bb rows ip
  = matecho_ping_hits log10 (without_blocking m) ds bb rows ip.
Proof.
  unfold matecho_ping_hits. cbv zeta.
  change (cell_Plike log10 (without_blocking m)) with (cell_Plike log10 m).
  change (cell_ts log10 (without_blocking m)) with (cell_ts log10 m).
  change (cell_tsu log10 (without_blocking m)) with (cell_tsu log10 m).
  change (cell_R (without_blocking m)) with (cell_R m).
  rewrite <- matecho_scan_hits_without_blocking. reflexivity.
Qed.

Lemma record_matecho_without_blocking m times :
  record_matecho m times = record_matecho (without_blocking m) times.
Proof. reflexivity. Qed.

(** The detections of a run are those of the per-ping detection, taken over
    the pings of the blocks in order. *)
Lemma matecho_hits_unblocked ds pl :
  mplan_bb pl = None ->
  matecho_hits log10 ds pl
  = collect (matecho_ping_hits log10 (without_blocking (mplan_ctx pl)) ds None
               (mplan_idx_r_tot pl))
            (List.concat (blocks (ping_size ds) (mplan_block_size pl) (mplan_num_ite pl))).
Proof.
  intros Hbb. unfold matecho_hits, matecho_block_hits. rewrite Hbb.
  rewrite <- collect_concat. apply collect_ext. intros blk.
  apply collect_ext. intros ip. apply matecho_ping_hits_without_blocking.
Qed.

Lemma matecho_hits_without_blocking ds pl pl' :
  without_blocking (mplan_ctx pl) = without_blocking (mplan_ctx pl') ->
  mplan_bb pl = mplan_bb pl' ->
  mplan_idx_r_tot pl = mplan_idx_r_tot pl' ->
  mplan_block_size pl = mplan_block_size pl' ->
  mplan_num_ite pl = mplan_num_ite pl' ->
  matecho_hits log10 ds pl = matecho_hits log10 ds pl'.
Proof.
  intros Hm Hbb Hr Hbs Hn. unfold matecho_hits, matecho_block_hits.
  rewrite Hbb, Hr, Hbs, Hn. apply collect_ext. intros blk.
  apply collect_ext. intros ip.
  rewrite matecho_ping_hits_without_blocking, Hm, <- matecho_ping_hits_without_blocking.
  reflexivity.
Qed.

(** The result of a run in terms of its detections. *)
Lemma detect_matecho_eq ds params :
  detect_matecho log10 ds params
  = (pl <- matecho_prepare log10 ds params ;;
     hs <- matecho_hits log10 ds pl ;;
     Ok (finalize (fold_left (record_matecho (without_blocking (mplan_ctx pl))
                                             (ping_time ds)) hs init_st_struct))).
Proof.
  unfold detect_matecho.
  destruct (matecho_prepare log10 ds params) as [pl|e]; simpl; [|reflexivity].
  rewrite matecho_run_spec.
  destruct (matecho_hits log10 ds pl) as [hs|e]; simpl; reflexivity.
Qed.

End Blocking.

(** ** Which cells can hold a detection *)

Section Bounds.

Variable log10 : float -> float.

Lemma esp3_hit_bounds ds params pl h :
  Forall (fun col => List.length col = range_sample_size ds) (depth ds) ->
  esp3_prepare ds params = Ok pl ->
  In h (esp3_hits log10 ds pl) ->
  1 <= hit_row h <= Z.of_nat (range_sample_size ds) - 2
  /\ (hit_ping h < Z.to_nat (ping_size ds))%nat.
Proof.
  intros Hwf Hp Hin.
  destruct (esp3_hit_origin log10 _ _ _ _ Hp Hin)
    as (z & d & _ & Hk & Hrow & Hping & _ & Hlen & _).
  apply esp3_keep_In in Hk as (Hk1 & Hk2 & _).
  apply esp3_prepare_inv in Hp. cbv zeta in Hp.
  destruct Hp as (_ & _ & _ & Hrows & _).
  pose proof (idx_r_tot_of_length _ _ _ Hwf Hrows).
  rewrite Hrow. split; lia.
Qed.

Lemma matecho_hit_bounds ds params pl hs h :
  Forall (fun col => List.length col = range_sample_size ds) (depth ds) ->
  matecho_prepare log10 ds params = Ok pl ->
  matecho_hits log10 ds pl = Ok hs ->
  In h hs ->
  8 <= hit_row h <= Z.of_nat (range_sample_size ds) - 2
  /\ (hit_ping h < Z.to_nat (ping_size ds))%nat.
Proof.
  intros Hwf Hp Hh Hin.
  destruct (matecho_hit_origin log10 _ _ _ _ _ Hp Hh Hin)
    as (n & k0 & k1 & Hn & Hping & Hrow & Hloc & _).
  apply local_maxima_In in Hloc as (_ & Hk2 & Hv & _).
  rewrite matecho_valid_nth in Hv by lia.
  apply andb_true_iff in Hv as [Hv _]. apply negb_true_iff, Nat.ltb_ge in Hv.
  unfold dec_tir in Hv.
  unfold masked_column in Hk2. rewrite length_map, length_seq in Hk2.
  apply matecho_prepare_inv in Hp as (g & _ & _ & _ & _ & Hrows & _).
  pose proof (idx_r_tot_of_length _ _ _ Hwf Hrows).
  rewrite Hrow. split; lia.
Qed.

End Bounds.

(** The peak of a detection is never the first nor the last sample of the
    frame, [detect_matecho] reports none of the first eight samples, and the
    ping number is a ping of the frame. *)
Theorem detection_index_bounds log10 ds params out :
  Forall (fun col => List.length col = range_sample_size ds) (depth ds) ->
  let nb := Z.of_nat (range_sample_size ds) in
  (detect_esp3 log10 ds params = Ok out ->
   Forall (fun row => 1 <= row <= nb - 2) (idx_r out)
   /\ Forall (fun ping => 0 <= ping < ping_size ds) (Ping_number out))
  /\ (detect_matecho log10 ds params = Ok out ->
      Forall (fun row => 8 <= row <= nb - 2) (idx_r out)
      /\ Forall (fun ping => 0 <= ping < ping_size ds) (Ping_number out)).
Proof.
  intros Hwf nb. split.
  - intros H. apply detect_esp3_records in H as (pl & Hp & _ & -> & ->).
    assert (Hall := fun h => esp3_hit_bounds log10 ds params pl h Hwf Hp).
    split; apply Forall_forall; intros v Hv; apply in_map_iff in Hv as (h & <- & Hin);
      destruct (Hall h Hin); pose proof (ping_size_nonneg ds); unfold nb; lia.
  - intros H. apply detect_matecho_records in H as (pl & hs & Hp & Hh & _ & -> & ->).
    assert (Hall := fun h => matecho_hit_bounds log10 ds params pl hs h Hwf Hp Hh).
    split; apply Forall_forall; intros v Hv; apply in_map_iff in Hv as (h & <- & Hin);
      destruct (Hall h Hin); pose proof (ping_size_nonneg ds); unfold nb; lia.
Qed.

Lemma detection_index_bounds_example :
  (exists out,
      detect_esp3 log10_series Sample.two_pings (Some Sample.Np5) = Ok out
      /\ idx_r out = [15; 25; 25] /\ Ping_number out = [0; 0; 1]
      /\ Forall (fun row => 1 <= row <= 50 - 2) (idx_r out))
  /\ (exists out,
         detect_matecho log10_series Sample.two_pings (Some Sample.Np5) = Ok out
         /\ idx_r out = [15; 25; 25] /\ Ping_number out = [0; 0; 1]
         /\ Forall (fun row => 8 <= row <= 50 - 2) (idx_r out)).
Proof.
  assert (Hwf : Forall (fun col => List.length col = range_sample_size Sample.two_pings)
                       (depth Sample.two_pings))
    by (repeat constructor).
  split; eexists; (split; [vm_compute; reflexivity|]);
    (split; [reflexivity|]); (split; [reflexivity|]).
  - apply (proj1 (detection_index_bounds log10_series Sample.two_pings
                    (Some Sample.Np5) _ Hwf)).
    vm_compute. reflexivity.
  - apply (proj2 (detection_index_bounds log10_series Sample.two_pings
                    (Some Sample.Np5) _ Hwf)).
    vm_compute. reflexivity.
Defined.

(** [idx_target_lin] is the row-major position of the cell in the frame:
    dividing it by the number of samples gives back the ping number and the
    sample index; [Time] is the time stamp of that ping. *)
Theorem linear_index_round_trip log10 ds params out :
  Forall (fun col => List.length col = range_sample_size ds) (depth ds) ->
  detect_esp3 log10 ds params = Ok out \/ detect_matecho log10 ds params = Ok out ->
  let nb := Z.of_nat (range_sample_size ds) in
  forall i, (i < List.length (idx_target_lin out))%nat ->
    let lin := nth i (idx_target_lin out) 0 in
    lin = nth i (Ping_number out) 0 * nb + nth i (idx_r out) 0
    /\ lin / nb = nth i (Ping_number out) 0
    /\ lin mod nb = nth i (idx_r out) 0
    /\ nth i (Time out) 0 = nth (Z.to_nat (nth i (Ping_number out) 0)) (ping_time ds) 0.
Proof.
  intros Hwf H nb.
  pose (dh := mk_hit 0 0 0 (mk_peak nan nan nan nan nan 0 0 0)).
  assert (Hdiv : forall ping row, 0 <= row < nb ->
            let lin := ping * nb + row in
            lin = ping * nb + row /\ lin / nb = ping /\ lin mod nb = row).
  { intros ping row Hrow lin. split; [reflexivity|].
    unfold lin. split.
    - symmetry. apply (Z.div_unique _ _ ping row); lia.
    - symmetry. apply (Z.mod_unique _ _ ping row); lia. }
  destruct H as [H|H].
  - apply detect_esp3_records in H as (pl & Hp & -> & _ & _).
    rewrite esp3_records. cbn [finalize idx_target_lin Ping_number idx_r Time
                               init_st_struct app].
    intros i Hi. rewrite length_map in Hi.
    rewrite !(nth_map_lt _ _ i 0 dh) by assumption.
    rewrite Nat2Z.id.
    destruct (esp3_hit_bounds log10 _ _ _ _ Hwf Hp (nth_In _ dh Hi)) as [Hb _].
    apply esp3_prepare_inv in Hp. cbv zeta in Hp.
    destruct Hp as (_ & _ & _ & _ & _ & _ & _ & _ & _ & _ & _ & _ & _ & ->).
    fold nb.
    destruct (Hdiv (Z.of_nat (hit_ping (nth i (esp3_hits log10 ds pl) dh)))
                   (hit_row (nth i (esp3_hits log10 ds pl) dh)) ltac:(lia))
      as (? & ? & ?).
    auto.
  - apply detect_matecho_records in H as (pl & hs & Hp & Hh & -> & _ & _).
    rewrite matecho_records. cbn [finalize idx_target_lin Ping_number idx_r Time
                                  init_st_struct app].
    intros i Hi. rewrite length_map in Hi.
    rewrite !(nth_map_lt _ _ i 0 dh) by assumption.
    rewrite Nat2Z.id.
    destruct (matecho_hit_bounds log10 _ _ _ _ _ Hwf Hp Hh (nth_In _ dh Hi)) as [Hb _].
    pose proof (matecho_prepare_inv _ _ _ _ Hp) as (g & -> & _).
    apply matecho_prepare_ctx in Hp. cbv zeta in Hp.
    destruct Hp as (_ & _ & _ & _ & _ & -> & _).
    fold nb.
    destruct (Hdiv (Z.of_nat (hit_ping (nth i hs dh))) (hit_row (nth i hs dh)) ltac:(lia))
      as (? & ? & ?).
    auto.
Qed.

Lemma linear_index_round_trip_example :
  exists out,
    detect_matecho log10_series Sample.two_pings (Some Sample.Np5) = Ok out
    /\ idx_target_lin out = [15; 25; 75]
    /\ nth 2 (idx_target_lin out) 0 / 50 = nth 2 (Ping_number out) 0
    /\ nth 2 (idx_target_lin out) 0 mod 50 = nth 2 (idx_r out) 0
    /\ nth 2 (Time out) 0 = 1000000000.
Proof.
  eexists. split; [vm_compute; reflexivity|]. split; [reflexivity|].
  assert (Hwf : Forall (fun col => List.length col = range_sample_size Sample.two_pings)
                       (depth Sample.two_pings))
    by (repeat constructor).
  destruct (linear_index_round_trip log10_series Sample.two_pings (Some Sample.Np5) _ Hwf
              ltac:(right; vm_compute; reflexivity) 2%nat ltac:(vm_compute; lia))
    as (_ & Hd & Hm & Ht).
  split; [exact Hd|]. split; [exact Hm|exact Ht].
Defined.

(** The detections are recorded in the order the loops visit the cells:
    ping after ping, and down the column within a ping.  No cell is recorded
    twice. *)
Theorem detections_in_scan_order log10 ds params out :
  detect_esp3 log10 ds params = Ok out \/ detect_matecho log10 ds params = Ok out ->
  forall i j, (i < j < List.length (idx_r out))%nat ->
    visited_before (nth i (Ping_number out) 0) (nth i (idx_r out) 0)
                   (nth j (Ping_number out) 0) (nth j (idx_r out) 0).
Proof.
  intros H.
  pose (dh := mk_hit 0 0 0 (mk_peak nan nan nan nan nan 0 0 0)).
  assert (Hlex : forall hs : list hit,
            ForallOrdPairs hit_before hs ->
            (forall h, In h hs -> hit_row h = Z.of_nat (hit_k h)) ->
            forall i j, (i < j < List.length (map hit_row hs))%nat ->
              visited_before
                (nth i (map (fun h => Z.of_nat (hit_ping h)) hs) 0) (nth i (map hit_row hs) 0)
                (nth j (map (fun h => Z.of_nat (hit_ping h)) hs) 0) (nth j (map hit_row hs) 0)).
  { intros hs Hfop Hrow i j Hij. rewrite length_map in Hij.
    rewrite !(nth_map_lt _ _ i 0 dh), !(nth_map_lt _ _ j 0 dh) by lia.
    rewrite (Hrow (nth i hs dh)), (Hrow (nth j hs dh)) by (apply nth_In; lia).
    destruct (FOP_nth _ _ dh Hfop i j Hij) as [Hlt|[Heq Hlt]]; [left|right]; lia. }
  destruct H as [H|H].
  - apply detect_esp3_records in H as (pl & Hp & _ & -> & ->).
    apply Hlex; [apply esp3_hits_sorted|].
    intros h Hin. destruct (esp3_hit_origin log10 _ _ _ _ Hp Hin) as (z & d & _ & _ & Hr & _).
    exact Hr.
  - apply detect_matecho_records in H as (pl & hs & Hp & Hh & _ & -> & ->).
    apply Hlex; [eapply matecho_hits_sorted; eassumption|].
    intros h Hin.
    destruct (matecho_hit_origin log10 _ _ _ _ _ Hp Hh Hin) as (n & k0 & k1 & _ & _ & Hr & _).
    exact Hr.
Qed.

Lemma detections_in_scan_order_example :
  exists out,
    detect_esp3 log10_series Sample.two_pings (Some Sample.Np5) = Ok out
    /\ Ping_number out = [0; 0; 1] /\ idx_r out = [15; 25; 25]
    /\ visited_before (nth 1 (Ping_number out) 0) (nth 1 (idx_r out) 0)
                      (nth 2 (Ping_number out) 0) (nth 2 (idx_r out) 0).
Proof.
  eexists. split; [vm_compute; reflexivity|]. split; [reflexivity|]. split; [reflexivity|].
  apply (detections_in_scan_order log10_series Sample.two_pings (Some Sample.Np5) _
           ltac:(left; vm_compute; reflexivity) 1%nat 2%nat).
  vm_compute. lia.
Defined.

(** The linear indices of a result are strictly increasing: the structure
    lists each cell once, in row-major order of the frame. *)
Theorem linear_index_is_increasing log10 ds params out :
  Forall (fun col => List.length col = range_sample_size ds) (depth ds) ->
  detect_esp3 log10 ds params = Ok out \/ detect_matecho log10 ds params = Ok out ->
  forall i j, (i < j < List.length (idx_target_lin out))%nat ->
    nth i (idx_target_lin out) 0 < nth j (idx_target_lin out) 0.
Proof.
  intros Hwf H.
  pose (dh := mk_hit 0 0 0 (mk_peak nan nan nan nan nan 0 0 0)).
  assert (Hlin : forall (hs : list hit) (nb : Z),
            ForallOrdPairs hit_before hs ->
            (forall h, In h hs -> hit_row h = Z.of_nat (hit_k h) /\ 0 <= hit_row h < nb) ->
            forall i j, (i < j < List.length hs)%nat ->
              Z.of_nat (hit_ping (nth i hs dh)) * nb + hit_row (nth i hs dh)
              < Z.of_nat (hit_ping (nth j hs dh)) * nb + hit_row (nth j hs dh)).
  { intros hs nb Hfop Hrow i j Hij.
    destruct (Hrow (nth i hs dh) ltac:(apply nth_In; lia)) as [Ei Hi].
    destruct (Hrow (nth j hs dh) ltac:(apply nth_In; lia)) as [Ej Hj].
    destruct (FOP_nth _ _ dh Hfop i j Hij) as [Hlt|[Heq Hlt]]; [nia|].
    rewrite Heq. lia. }
  destruct H as [H|H].
  - apply detect_esp3_records in H as (pl & Hp & -> & _ & _).
    rewrite esp3_records. cbn [finalize idx_target_lin init_st_struct app].
    intros i j Hij. rewrite length_map in Hij.
    rewrite (nth_map_lt _ _ i 0 dh), (nth_map_lt _ _ j 0 dh) by lia.
    apply Hlin; [apply esp3_hits_sorted| |exact Hij].
    intros h Hin. destruct (esp3_hit_bounds log10 _ _ _ _ Hwf Hp Hin) as [Hb _].
    destruct (esp3_hit_origin log10 _ _ _ _ Hp Hin) as (z & d & _ & _ & Hr & _).
    apply esp3_prepare_inv in Hp. cbv zeta in Hp.
    destruct Hp as (_ & _ & _ & _ & _ & _ & _ & _ & _ & _ & _ & _ & _ & ->).
    split; [exact Hr|lia].
  - apply detect_matecho_records in H as (pl & hs & Hp & Hh & -> & _ & _).
    rewrite matecho_records. cbn [finalize idx_target_lin init_st_struct app].
    intros i j Hij. rewrite length_map in Hij.
    rewrite (nth_map_lt _ _ i 0 dh), (nth_map_lt _ _ j 0 dh) by lia.
    apply Hlin; [eapply matecho_hits_sorted; eassumption| |exact Hij].
    intros h Hin. destruct (matecho_hit_bounds log10 _ _ _ _ _ Hwf Hp Hh Hin) as [Hb _].
    destruct (matecho_hit_origin log10 _ _ _ _ _ Hp Hh Hin)
      as (n & k0 & k1 & _ & _ & Hr & _).
    pose proof (matecho_prepare_inv _ _ _ _ Hp) as (g & -> & _).
    apply matecho_prepare_ctx in Hp. cbv zeta in Hp.
    destruct Hp as (_ & _ & _ & _ & _ & -> & _).
    split; [exact Hr|lia].
Qed.

Lemma linear_index_is_increasing_example :
  exists out,
    detect_esp3 log10_series Sample.two_pings (Some Sample.Np5) = Ok out
    /\ idx_target_lin out = [15; 25; 75]
    /\ nth 1 (idx_target_lin out) 0 < nth 2 (idx_target_lin out) 0.
Proof.
  eexists. split; [vm_compute; reflexivity|]. split; [reflexivity|].
  assert (Hwf : Forall (fun col => List.length col = range_sample_size Sample.two_pings)
                       (depth Sample.two_pings))
    by (repeat constructor).
  apply (linear_index_is_increasing log10_series Sample.two_pings (Some Sample.Np5) _ Hwf
           ltac:(left; vm_compute; reflexivity) 1%nat 2%nat).
  vm_compute. lia.
Defined.

(** ** Variant B: echo length, depth band, target strength, navigation *)

(** The echo-length window of [detect_matecho]: the recorded pulse length of
    every detection is the width of its envelope, and lies between
    [round(NechP * MinEchoLength)] and [round(NechP * MaxEchoLength)], where
    [NechP >= 3] is the number of samples per pulse; the normalised length
    is that width divided by [NechP]. *)
Theorem matecho_echo_length_window log10 ds given out :
  detect_matecho log10 ds (Some given) = Ok out ->
  let p := merge_matecho_defaults given in
  exists NechP,
    matecho_NechP ds p = Ok NechP
    /\ 3 <= NechP
    /\ forall i, (i < List.length (Transmitted_pulse_length out))%nat ->
         let plen := nth i (Transmitted_pulse_length out) 0 in
         plen = nth i (pulse_env_before_lin out) 0 + nth i (pulse_env_after_lin out) 0 + 1
         /\ 0 <= nth i (pulse_env_before_lin out) 0
         /\ 0 <= nth i (pulse_env_after_lin out) 0
         /\ (exists lo hi,
               Py.round (Py.float_of_Z NechP * q_MinEchoLength p)%float = Ok lo
               /\ Py.round (Py.float_of_Z NechP * q_MaxEchoLength p)%float = Ok hi
               /\ lo <= plen <= hi)
         /\ nth i (PulseLength_Normalized_PLDL out) nan
            = (Py.float_of_Z plen / Py.float_of_Z NechP)%float.
Proof.
  intros H p. apply detect_matecho_records in H as (pl & hs & Hp & Hh & -> & _ & _).
  pose (dh := mk_hit 0 0 0 (mk_peak nan nan nan nan nan 0 0 0)).
  pose proof (matecho_prepare_ctx _ _ _ _ Hp) as Hctx. cbv zeta in Hctx.
  destruct Hctx as (_ & _ & _ & _ & HN & _).
  pose proof (matecho_prepare_inv _ _ _ _ Hp) as (g & _ & _ & _ & _ & _ & _ & _ & H3 & _).
  exists (m_NechP (mplan_ctx pl)). split; [exact HN|]. split; [exact H3|].
  rewrite matecho_records.
  cbn [finalize Transmitted_pulse_length pulse_env_before_lin pulse_env_after_lin
       PulseLength_Normalized_PLDL init_st_struct app].
  intros i Hi. rewrite length_map in Hi.
  rewrite !(nth_map_lt _ _ i 0 dh), (nth_map_lt _ _ i nan dh) by assumption.
  destruct (matecho_hit_checks log10 _ _ _ _ _ Hp Hh (nth_In _ dh Hi))
    as (_ & _ & _ & _ & _ & _ & _ & _ & _ & Hl & Hr & Hpl & Hwin).
  split; [exact Hpl|]. split; [exact Hl|]. split; [exact Hr|].
  split; [exact Hwin|reflexivity].
Qed.

Lemma matecho_echo_length_window_example :
  exists out,
    detect_matecho log10_series Sample.one_ping (Some Sample.Np5) = Ok out
    /\ Transmitted_pulse_length out = [5]
    /\ exists NechP,
         matecho_NechP Sample.one_ping (merge_matecho_defaults Sample.Np5) = Ok NechP
         /\ 3 <= NechP
         /\ exists lo hi,
              Py.round (Py.float_of_Z NechP * 0.8)%float = Ok lo
              /\ Py.round (Py.float_of_Z NechP * 1.8)%float = Ok hi
              /\ lo <= nth 0 (Transmitted_pulse_length out) 0 <= hi.
Proof.
  eexists. split; [vm_compute; reflexivity|]. split; [reflexivity|].
  destruct (matecho_echo_length_window log10_series Sample.one_ping Sample.Np5 _
              ltac:(vm_compute; reflexivity)) as (NechP & HN & H3 & Hi).
  exists NechP. split; [exact HN|]. split; [exact H3|].
  exact (proj1 (proj2 (proj2 (proj2 (Hi 0%nat ltac:(vm_compute; lia)))))).
Defined.

(** The depth band of [detect_matecho]: the recorded range of a detection is
    the depth of its cell less the transducer depth and the heave of its
    ping, clipped at zero; it is never negative, and range plus transducer
    depth plus heave lies within [MinEchoDepthM, MaxEchoDepthM]. *)
Theorem matecho_depth_band log10 ds given out :
  detect_matecho log10 ds (Some given) = Ok out ->
  let p := merge_matecho_defaults given in
  let TD := merged (transducer_depth ds) 0%float in
  let heave := nav_field ds ["heave"; "Heave"; "vertical_offset"]%string in
  forall i, (i < List.length (Target_range out))%nat ->
    let ping := Z.to_nat (nth i (Ping_number out) 0) in
    let row := Z.to_nat (nth i (idx_r out) 0) in
    let r := nth i (Target_range out) nan in
    let depth_here := (r + TD + nth ping heave nan)%float in
    r = Py.clip_min 0 (nth row (column (depth ds) ping) nan - (TD + nth ping heave nan))%float
    /\ Py.le 0 r = true
    /\ Py.le (q_MinEchoDepthM p) depth_here = true
    /\ Py.le depth_here (q_MaxEchoDepthM p) = true.
Proof.
  intros H p TD heave.
  apply detect_matecho_records in H as (pl & hs & Hp & Hh & -> & _ & _).
  pose (dh := mk_hit 0 0 0 (mk_peak nan nan nan nan nan 0 0 0)).
  pose proof (matecho_prepare_ctx _ _ _ _ Hp) as Hctx. cbv zeta in Hctx.
  destruct Hctx as (_ & _ & _ & HTD & _ & _ & _ & _ & Hhv).
  rewrite matecho_records.
  cbn [finalize Target_range Ping_number idx_r init_st_struct app].
  intros i Hi. rewrite length_map in Hi.
  rewrite !(nth_map_lt _ _ i 0 dh), (nth_map_lt _ _ i nan dh) by assumption.
  destruct (matecho_hit_checks log10 _ _ _ _ _ Hp Hh (nth_In _ dh Hi))
    as (Hrow & _ & _ & _ & _ & Hr & _ & Hd1 & Hd2 & _).
  rewrite Hrow, !Nat2Z.id. rewrite HTD, Hhv in Hd1, Hd2. fold TD heave in Hd1, Hd2.
  assert (HR : pk_r_peak (hit_peak (nth i hs dh))
               = Py.clip_min 0 (nth (hit_k (nth i hs dh))
                                    (column (depth ds) (hit_ping (nth i hs dh))) nan
                                - (TD + nth (hit_ping (nth i hs dh)) heave nan))%float).
  { rewrite Hr. unfold cell_R. rewrite HTD, Hhv. reflexivity. }
  split; [exact HR|]. split; [|split; assumption].
  rewrite HR. apply clip_min_ge; [reflexivity|]. rewrite <- HR.
  apply le_not_nan in Hd2 as [Hd2 _].
  apply add_not_nan in Hd2 as [Hd2 _]. apply add_not_nan in Hd2 as [Hd2 _].
  exact Hd2.
Qed.

Lemma matecho_depth_band_example :
  exists out,
    detect_matecho log10_series Sample.one_ping (Some Sample.Np5) = Ok out
    /\ Target_range out = [26%float]
    /\ Py.le 0 (nth 0 (Target_range out) nan) = true
    /\ Py.le 3 (nth 0 (Target_range out) nan + 0 + 0)%float = true
    /\ Py.le (nth 0 (Target_range out) nan + 0 + 0)%float 38 = true.
Proof.
  eexists. split; [vm_compute; reflexivity|]. split; [reflexivity|].
  destruct (matecho_depth_band log10_series Sample.one_ping Sample.Np5 _
              ltac:(vm_compute; reflexivity) 0%nat ltac:(vm_compute; lia))
    as (_ & H0 & H1 & H2).
  split; [exact H0|]. split; [exact H1|exact H2].
Defined.

(** The target strengths of [detect_matecho]: the uncompensated value is the
    cell of [Sv] plus [20 log10(r)] and the constant [sv2ts], with [r] the
    range of the sample from the gain start; the compensated value adds the
    one-way beam compensation computed from the two angles of the cell (zero
    when the dataset lacks one of them), is finite, and exceeds the
    uncompensated one by no more than twice [MaxAngleOneWayCompression]. *)
Theorem matecho_target_strength log10 ds given out :
  Forall (fun col => List.length col = range_sample_size ds) (depth ds) ->
  detect_matecho log10 ds (Some given) = Ok out ->
  let p := merge_matecho_defaults given in
  let T := merged (q_pulse_length p) 1e-3%float in
  let sv2ts := (10 * log10 (q_SoundSpeed p * T / 2) + q_psi_two_way p
                + 2 * q_Sa_correction p + 2 * q_Sa_EK80_nominal p)%float in
  exists dstep,
    matecho_dstep ds = Ok dstep
    /\ forall i, (i < List.length (TS_comp out))%nat ->
         let ping := Z.to_nat (nth i (Ping_number out) 0) in
         let row := Z.to_nat (nth i (idx_r out) 0) in
         let ts_range :=
           Py.maximum dstep
             (Py.float_of_Z (Z.of_nat row - q_tvg_start_sample p) * dstep)%float in
         let r_eff := Py.maximum ts_range 1e-6 in
         let tsu := nth i (TS_uncomp out) nan in
         let ts := nth i (TS_comp out) nan in
         tsu = (nth row (column (Sv ds) ping) nan + 20 * log10 r_eff + sv2ts)%float
         /\ (forall along athwt,
               angle_alongship ds = Some along -> angle_athwartship ds = Some athwt ->
               let x := (2 * ((nth row (column along ping) nan - q_steer_along_rad p)
                              / q_beamwidth_along_3dB_rad p))%float in
               let y := (2 * ((nth row (column athwt ping) nan - q_steer_athwart_rad p)
                              / q_beamwidth_athwart_3dB_rad p))%float in
               ts = (tsu + 6.0206 * ((x * x + y * y) - (0.18 * (x * x)) * (y * y)))%float)
         /\ (angle_alongship ds = None \/ angle_athwartship ds = None ->
             ts = (tsu + 0)%float)
         /\ Py.isfinite ts = true
         /\ Py.gt (ts - tsu)%float (2 * q_MaxAngleOneWayCompression p)%float = false.
Proof.
  intros Hwf H p T sv2ts.
  apply detect_matecho_records in H as (pl & hs & Hp & Hh & -> & _ & _).
  pose (dh := mk_hit 0 0 0 (mk_peak nan nan nan nan nan 0 0 0)).
  pose proof (matecho_prepare_ctx _ _ _ _ Hp) as Hctx. cbv zeta in Hctx.
  destruct Hctx as (Hmp & _ & _ & _ & _ & _ & Hsv & (dstep & Hd & Hts) & _).
  exists dstep. split; [exact Hd|].
  rewrite matecho_records.
  cbn [finalize TS_comp TS_uncomp Ping_number idx_r init_st_struct app].
  intros i Hi. rewrite length_map in Hi.
  rewrite !(nth_map_lt _ _ i 0 dh), !(nth_map_lt _ _ i nan dh) by assumption.
  set (h := nth i hs dh).
  assert (Hin : In h hs) by (apply nth_In; assumption).
  destruct (matecho_hit_checks log10 _ _ _ _ _ Hp Hh Hin)
    as (Hrow & _ & Hc & Hfin & Hu & _ & Hang & _).
  destruct (matecho_hit_bounds log10 _ _ _ _ _ Hwf Hp Hh Hin) as [Hb _].
  rewrite Hrow in Hb |- *. rewrite !Nat2Z.id.
  assert (Hrng : nth (hit_k h) (m_ts_range (mplan_ctx pl)) nan
                 = Py.maximum dstep
                     (Py.float_of_Z (Z.of_nat (hit_k h) - q_tvg_start_sample p)
                      * dstep)%float).
  { rewrite Hts. unfold range.
    rewrite (nth_map_lt _ _ _ nan 0) by (rewrite length_map, length_seq; lia).
    rewrite (nth_map_lt _ _ _ 0 0%nat) by (rewrite length_seq; lia).
    rewrite seq_nth by lia. reflexivity. }
  assert (Hu' : pk_TS_uncomp (hit_peak h)
                = (nth (hit_k h) (column (Sv ds) (hit_ping h)) nan
                   + 20 * log10 (Py.maximum
                                   (Py.maximum dstep
                                      (Py.float_of_Z (Z.of_nat (hit_k h)
                                                      - q_tvg_start_sample p) * dstep))
                                   1e-6)
                   + sv2ts)%float).
  { rewrite Hu. unfold cell_tsu, cell_r_eff. rewrite Hrng, Hsv. reflexivity. }
  split; [exact Hu'|].
  split; [|split; [|split]].
  - intros along athwt Hal Hat. cbv zeta.
    rewrite Hc. unfold cell_ts, one_way_comp. rewrite Hal, Hat, Hmp, <- Hu. reflexivity.
  - intros Hnone. rewrite Hc. unfold cell_ts, one_way_comp. rewrite <- Hu.
    destruct Hnone as [-> | ->]; [reflexivity|].
    destruct (angle_alongship ds); reflexivity.
  - exact Hfin.
  - exact Hang.
Qed.

Lemma matecho_target_strength_example :
  exists out,
    detect_matecho log10_series Sample.split_beam (Some Sample.Np5) = Ok out
    /\ idx_r out = [25]
    /\ let x := (2 * ((0.02 - 0) / 0.12217304763960307))%float in
       nth 0 (TS_comp out) nan
       = (nth 0 (TS_uncomp out) nan
          + 6.0206 * ((x * x + x * x) - (0.18 * (x * x)) * (x * x)))%float.
Proof.
  eexists. split; [vm_compute; reflexivity|]. split; [reflexivity|].
  assert (Hwf : Forall (fun col => List.length col = range_sample_size Sample.split_beam)
                       (depth Sample.split_beam))
    by (repeat constructor).
  destruct (matecho_target_strength log10_series Sample.split_beam Sample.Np5 _ Hwf
              ltac:(vm_compute; reflexivity)) as (dstep & _ & Hi).
  destruct (Hi 0%nat ltac:(vm_compute; lia)) as (_ & Hang & _).
  exact (Hang _ _ eq_refl eq_refl).
Defined.

(** The navigation values of a detection of [detect_matecho] are those of
    its ping in the per-ping arrays: the aligned variable of the dataset, or
    zeros. *)
Theorem matecho_navigation_of_ping log10 ds given out :
  detect_matecho log10 ds (Some given) = Ok out ->
  forall i, (i < List.length (Ping_number out))%nat ->
    let ping := Z.to_nat (nth i (Ping_number out) 0) in
    (ping < List.length (Sv ds))%nat
    /\ nth i (Heading out) nan = nth ping (nav_field ds ["heading"; "Heading"]%string) nan
    /\ nth i (Pitch out) nan = nth ping (nav_field ds ["pitch"; "Pitch"]%string) nan
    /\ nth i (Roll out) nan = nth ping (nav_field ds ["roll"; "Roll"]%string) nan
    /\ nth i (Heave out) nan
       = nth ping (nav_field ds ["heave"; "Heave"; "vertical_offset"]%string) nan
    /\ nth i (Dist out) nan = nth ping (nav_field ds ["dist"; "Dist"; "distance"]%string) nan.
Proof.
  intros H. apply detect_matecho_records in H as (pl & hs & Hp & Hh & -> & _ & _).
  pose (dh := mk_hit 0 0 0 (mk_peak nan nan nan nan nan 0 0 0)).
  pose proof (matecho_prepare_inv _ _ _ _ Hp)
    as (g & Hg & _ & _ & _ & _ & _ & _ & _ & Hhd & Hpi & Hro & Hhv & Hdi).
  rewrite matecho_records.
  cbn [finalize Ping_number Heading Pitch Roll Heave Dist init_st_struct app].
  intros i Hi. rewrite length_map in Hi.
  rewrite (nth_map_lt _ _ i 0 dh), !(nth_map_lt _ _ i nan dh) by assumption.
  rewrite Nat2Z.id, Hhd, Hpi, Hro, Hhv, Hdi.
  destruct (matecho_hit_origin log10 _ _ _ _ _ Hp Hh (nth_In _ dh Hi))
    as (n & k0 & k1 & _ & Hping & _).
  unfold ping_size in Hping. rewrite Nat2Z.id in Hping.
  repeat split; try reflexivity. exact Hping.
Qed.

Lemma matecho_navigation_of_ping_example :
  exists out,
    detect_matecho log10_series Sample.with_motion (Some Sample.Np5) = Ok out
    /\ Ping_number out = [0; 0; 1]
    /\ nav_field Sample.with_motion ["roll"; "Roll"]%string = [1.5; -2.5]%float
    /\ nth 2 (Roll out) nan
       = nth 1 (nav_field Sample.with_motion ["roll"; "Roll"]%string) nan
    /\ Heading out = [0; 0; 0]%float.
Proof.
  eexists. split; [vm_compute; reflexivity|]. split; [reflexivity|].
  split; [vm_compute; reflexivity|].
  split; [|reflexivity].
  destruct (matecho_navigation_of_ping log10_series Sample.with_motion Sample.Np5 _
              ltac:(vm_compute; reflexivity) 2%nat ltac:(vm_compute; lia))
    as (_ & _ & _ & Hroll & _).
  exact Hroll.
Defined.

(** A detection of [detect_matecho] sits on a local maximum of the masked
    [Plike] column of its ping (strictly above the cell before, not below
    the cell after), and every sample of its envelope is a finite cell no
    more than 6 dB under the peak. *)
Theorem matecho_peak_and_envelope log10 ds given out :
  Forall (fun col => List.length col = range_sample_size ds) (depth ds) ->
  detect_matecho log10 ds (Some given) = Ok out ->
  let p := merge_matecho_defaults given in
  exists dstep,
    matecho_dstep ds = Ok dstep
    /\ forall i, (i < List.length (idx_r out))%nat ->
         let ping := Z.to_nat (nth i (Ping_number out) 0) in
         let row := Z.to_nat (nth i (idx_r out) 0) in
         let before := nth i (pulse_env_before_lin out) 0 in
         let after := nth i (pulse_env_after_lin out) 0 in
         let P := fun r : nat =>
           if under_bottom ds (bottom_da given) ping r then nan
           else Plike_cell log10 ds p dstep ping r in
         Py.isfinite (P row) = true
         /\ Py.gt (P row) (P (row - 1)%nat) = true
         /\ Py.ge (P row) (P (row + 1)%nat) = true
         /\ forall r : nat,
              Z.of_nat row - before <= Z.of_nat r <= Z.of_nat row + after -> r <> row ->
              Py.isfinite (P r) = true /\ Py.ge (P r) (P row - 6)%float = true.
Proof.
  intros Hwf H p.
  apply detect_matecho_records in H as (pl & hs & Hp & Hh & -> & _ & _).
  pose (dh := mk_hit 0 0 0 (mk_peak nan nan nan nan nan 0 0 0)).
  pose proof (matecho_prepare_ctx _ _ _ _ Hp) as Hctx. cbv zeta in Hctx.
  destruct Hctx as (_ & _ & _ & _ & _ & _ & _ & (dstep & Hd & _) & _).
  exists dstep. split; [exact Hd|].
  pose proof (matecho_prepare_inv _ _ _ _ Hp) as (g & Hg & _ & _ & Hbb & Hrows & _).
  injection Hg as <-.
  pose proof (idx_r_tot_of_length _ _ _ Hwf Hrows) as Hlen.
  rewrite matecho_records.
  cbn [finalize idx_r Ping_number pulse_env_before_lin pulse_env_after_lin
       init_st_struct app].
  intros i Hi. rewrite length_map in Hi.
  rewrite !(nth_map_lt _ _ i 0 dh) by assumption.
  set (h := nth i hs dh).
  assert (Hin : In h hs) by (apply nth_In; assumption).
  destruct (matecho_hit_checks log10 _ _ _ _ _ Hp Hh Hin) as (Hrow & _).
  destruct (matecho_hit_envelope log10 _ _ _ _ _ Hp Hh Hin)
    as (Hk1 & Hkr & Hk2 & Hkl & Hfin & Hprev & Hnext & Henv).
  rewrite Hrow, !Nat2Z.id. rewrite Hbb in *.
  assert (HP : forall r, (r < range_sample_size ds)%nat ->
            matecho_cell (cell_Plike log10 (mplan_ctx pl) ds) ds (bottom_da given)
                         (hit_ping h) r
            = (if under_bottom ds (bottom_da given) (hit_ping h) r then nan
               else Plike_cell log10 ds p dstep (hit_ping h) r)).
  { intros r Hr. unfold matecho_cell.
    rewrite (cell_Plike_formula log10 _ _ _ _ _ _ Hp Hd Hr). reflexivity. }
  cbv zeta.
  rewrite <- !HP by lia.
  split; [exact Hfin|]. split; [exact Hprev|]. split; [exact Hnext|].
  intros r Hr Hne. rewrite <- HP by lia. apply Henv; assumption.
Qed.

Lemma matecho_peak_and_envelope_example :
  exists out,
    detect_matecho log10_series Sample.one_ping (Some Sample.Np5) = Ok out
    /\ idx_r out = [25]
    /\ pulse_env_before_lin out = [2]
    /\ let P := Plike_cell log10_series Sample.one_ping
                           (merge_matecho_defaults Sample.Np5) 1 0 in
       Py.gt (P 25%nat) (P 24%nat) = true
       /\ Py.ge (P 23%nat) (P 25%nat - 6)%float = true.
Proof.
  eexists. split; [vm_compute; reflexivity|]. do 2 (split; [reflexivity|]).
  assert (Hwf : Forall (fun col => List.length col = range_sample_size Sample.one_ping)
                       (depth Sample.one_ping))
    by (repeat constructor).
  destruct (matecho_peak_and_envelope log10_series Sample.one_ping Sample.Np5 _ Hwf
              ltac:(vm_compute; reflexivity)) as (dstep & Hd & Hi).
  assert (dstep = 1%float) by (vm_compute in Hd; congruence). subst dstep.
  destruct (Hi 0%nat ltac:(vm_compute; lia)) as (_ & Hprev & _ & Henv).
  split; [exact Hprev|].
  exact (proj2 (Henv 23%nat ltac:(vm_compute; split; discriminate) ltac:(discriminate))).
Defined.

(** ** The navigation accessor *)

Lemma combine_NoDup_fun {A B : Type} (l : list A) : forall (l' : list B) a b b',
  NoDup l -> In (a, b) (combine l l') -> In (a, b') (combine l l') -> b = b'.
Proof.
  induction l as [|x l IH]; intros [|y l'] a b b' Hnd H1 H2; simpl in *; try contradiction.
  inversion Hnd as [|? ? Hx Hl]; subst.
  destruct H1 as [H1|H1], H2 as [H2|H2].
  - congruence.
  - injection H1 as <- <-. apply in_combine_l in H2. contradiction.
  - injection H2 as <- <-. apply in_combine_l in H1. contradiction.
  - eapply IH; eassumption.
Qed.

Lemma reindex_nearest_exact coord vals tol i :
  NoDup coord -> List.length vals = List.length coord -> 0 <= tol ->
  (i < List.length coord)%nat ->
  reindex_nearest coord vals tol (nth i coord 0) = nth i vals nan.
Proof.
  intros Hnd Hlen Htol Hi.
  assert (Hin : In (nth i coord 0, nth i vals nan) (combine coord vals)).
  { rewrite <- combine_nth by (symmetry; exact Hlen).
    apply nth_In. rewrite length_combine. lia. }
  unfold reindex_nearest.
  destruct (combine coord vals) as [|b src] eqn:E; [destruct Hin|].
  destruct (nearest_from (nth i coord 0) src b) as [s v] eqn:En.
  apply nearest_from_spec in En as [Hsv Hmin].
  pose proof (Hmin _ Hin) as Hd. simpl in Hd.
  assert (s = nth i coord 0) by lia. subst s.
  replace (Z.abs (nth i coord 0 - nth i coord 0) <=? tol) with true
    by (symmetry; apply Z.leb_le; lia).
  rewrite <- E in Hsv, Hin.
  eapply combine_NoDup_fun; eassumption.
Qed.

Lemma increasing_times_ordered : forall coord,
  increasing_times coord = true -> ForallOrdPairs Z.lt coord.
Proof.
  induction coord as [|s rest IH]; intros H; [constructor|].
  destruct rest as [|s' rest'] eqn:E; [repeat constructor|].
  rewrite <- E in *.
  assert (Hs : s < s' /\ increasing_times rest = true).
  { subst rest. simpl in H. apply andb_true_iff in H as [H1 H2].
    apply Z.ltb_lt in H1. split; [exact H1|exact H2]. }
  destruct Hs as [Hlt Hrest]. specialize (IH Hrest).
  constructor; [|exact IH].
  subst rest. inversion IH as [|? ? Hall Hord]; subst.
  constructor; [exact Hlt|].
  eapply Forall_impl; [|exact Hall]. intros; simpl in *; lia.
Qed.

Lemma ordered_NoDup : forall coord : list Z, ForallOrdPairs Z.lt coord -> NoDup coord.
Proof.
  induction coord as [|s rest IH]; intros H; [constructor|].
  inversion H as [|? ? Hall Hord]; subst. constructor; [|auto].
  intros Hin. rewrite Forall_forall in Hall. specialize (Hall s Hin). lia.
Qed.

Lemma combine_ordered {B : Type} : forall (coord : list Z) (vals : list B),
  ForallOrdPairs Z.lt coord ->
  ForallOrdPairs (fun a b => fst a < fst b) (combine coord vals).
Proof.
  induction coord as [|s rest IH]; intros [|v vals] H; simpl; try constructor.
  - inversion H as [|? ? Hall Hord]; subst.
    apply Forall_forall. intros [s' v'] Hin. apply in_combine_l in Hin.
    rewrite Forall_forall in Hall. simpl. auto.
  - inversion H; subst. auto.
Qed.

Lemma ordered_before {A : Type} (R : A -> A -> Prop) : forall l1 x l2,
  ForallOrdPairs R (l1 ++ x :: l2) -> Forall (fun y => R y x) l1.
Proof.
  induction l1 as [|a l1 IH]; intros x l2 H; [constructor|].
  simpl in H. inversion H as [|? ? Hall Hord]; subst. constructor.
  - rewrite Forall_forall in Hall. apply Hall. apply in_or_app. right. left. reflexivity.
  - eapply IH; eassumption.
Qed.

(** Where [nearest_from] stops: every entry after the one it returns is
    strictly farther from [t]. *)
Lemma nearest_from_last t : forall src best s v,
  nearest_from t src best = (s, v) ->
  exists l1 l2,
    best :: src = l1 ++ (s, v) :: l2
    /\ Forall (fun sv => Z.abs (s - t) < Z.abs (fst sv - t)) l2.
Proof.
  induction src as [|[s0 v0] src IH]; intros best s v H; simpl in H.
  - subst best. exists [], []. split; [reflexivity|constructor].
  - destruct (Z.abs (s0 - t) <=? Z.abs (fst best - t)) eqn:Ec.
    + apply IH in H as (l1 & l2 & Heq & Hfar).
      exists (best :: l1), l2. split; [|exact Hfar].
      simpl. f_equal. exact Heq.
    + apply Z.leb_gt in Ec.
      apply IH in H as (l1 & l2 & Heq & Hfar).
      destruct l1 as [|a l1]; simpl in Heq.
      * injection Heq as Hb Hsrc. exists [], ((s0, v0) :: l2).
        split; [simpl; congruence|].
        constructor; [|exact Hfar]. subst best. simpl in *. lia.
      * injection Heq as Hb Hsrc. exists (best :: (s0, v0) :: l1), l2.
        split; [simpl; congruence|exact Hfar].
Qed.

(** What the alignment gives a ping at time [t], on a source whose time
    coordinate strictly increases: the value of the source sample nearest in
    time when that one is within the tolerance, the value of the later one
    when two samples are equally near, and NaN (not zero) when every source
    sample is farther away than the tolerance. *)
Theorem reindex_nearest_spec coord vals tol t :
  increasing_times coord = true ->
  ((exists sv, In sv (combine coord vals) /\ Z.abs (fst sv - t) <= tol) ->
   exists s v,
     In (s, v) (combine coord vals)
     /\ Z.abs (s - t) <= tol
     /\ (forall sv, In sv (combine coord vals) -> Z.abs (s - t) <= Z.abs (fst sv - t))
     /\ reindex_nearest coord vals tol t = v)
  /\ (forall s1 v1 s2 v2,
         In (s1, v1) (combine coord vals) -> In (s2, v2) (combine coord vals) ->
         s1 < s2 -> Z.abs (s1 - t) = Z.abs (s2 - t) -> Z.abs (s2 - t) <= tol ->
         (forall sv, In sv (combine coord vals) -> Z.abs (s2 - t) <= Z.abs (fst sv - t)) ->
         reindex_nearest coord vals tol t = v2)
  /\ ((forall sv, In sv (combine coord vals) -> tol < Z.abs (fst sv - t)) ->
      reindex_nearest coord vals tol t = nan).
Proof.
  intros Hinc. apply increasing_times_ordered in Hinc.
  pose proof (combine_ordered coord vals Hinc) as Hord.
  pose proof (ordered_NoDup _ Hinc) as Hnd.
  assert (Hfun : forall a b b', In (a, b) (combine coord vals) ->
                                In (a, b') (combine coord vals) -> b = b')
    by (intros a b b'; apply combine_NoDup_fun; exact Hnd).
  clear Hinc Hnd.
  unfold reindex_nearest. destruct (combine coord vals) as [|b src] eqn:E.
  - split; [intros (sv & [] & _) | split; [intros ? ? ? ? [] | reflexivity]].
  - destruct (nearest_from t src b) as [s v] eqn:En.
    pose proof (nearest_from_last _ _ _ _ _ En) as (l1 & l2 & Hsplit & Hlater).
    apply nearest_from_spec in En as (Hin & Hmin). split; [|split].
    + intros (sv & Hsv & Htol). exists s, v.
      specialize (Hmin sv Hsv) as Hs.
      destruct (Z.leb_spec (Z.abs (s - t)) tol); [|lia].
      repeat split; try assumption; lia.
    + intros s1 v1 s2 v2 H1 H2 Hlt Htie Htol Hnear.
      pose proof (Hmin _ H2) as Hs2. pose proof (Hnear _ Hin) as Hs. simpl in Hs2, Hs.
      destruct (Z.leb_spec (Z.abs (s - t)) tol); [|lia].
      destruct (Z.eq_dec s s2) as [->|Hne]; [eapply Hfun; eassumption|].
      exfalso. rewrite Hsplit in H2, Hord.
      apply in_app_or in H2 as [H2|[H2|H2]].
      * apply ordered_before in Hord. rewrite Forall_forall in Hord.
        specialize (Hord _ H2). simpl in Hord. lia.
      * congruence.
      * rewrite Forall_forall in Hlater. specialize (Hlater _ H2). simpl in Hlater. lia.
    + intros Hfar. specialize (Hfar (s, v) Hin). simpl in Hfar.
      destruct (Z.leb_spec (Z.abs (s - t)) tol); [lia|reflexivity].
Qed.

Lemma reindex_nearest_spec_example :
  increasing_times [0; 10; 40] = true
  /\ reindex_nearest [0; 10; 40] [1; 2; 3]%float 5 5 = 2%float
  /\ reindex_nearest [0; 10; 40] [1; 2; 3]%float 5 25 = nan.
Proof.
  split; [reflexivity|].
  destruct (reindex_nearest_spec [0; 10; 40] [1; 2; 3]%float 5 5 eq_refl)
    as (_ & Htie & _).
  destruct (reindex_nearest_spec [0; 10; 40] [1; 2; 3]%float 5 25 eq_refl)
    as (_ & _ & Hfar).
  split.
  - apply (Htie 0 1%float 10 2%float); simpl; try lia; auto.
    intros sv [<-|[<-|[<-|[]]]]; simpl; lia.
  - apply Hfar. intros sv [<-|[<-|[<-|[]]]]; simpl; lia.
Defined.



(** A variable that lives on the ping times themselves passes through the
    alignment unchanged: every ping finds its own sample at distance zero.
    It is the first candidate name held by the dataset that is used; later
    names are not looked at. *)
Theorem pull_nav_on_ping_times ds nm rest da :
  lookup_var ds nm = Some da ->
  has_time_dim da = true ->
  time_coord da = ping_time ds ->
  NoDup (ping_time ds) ->
  List.length (values da) = List.length (ping_time ds) ->
  _pull_nav ds (nm :: rest) (ping_time ds) = Some (values da)
  /\ nav_field ds (nm :: rest) = values da.
Proof.
  intros Hl Ht Hc Hnd Hlen.
  assert (H : _pull_nav ds (nm :: rest) (ping_time ds) = Some (values da)).
  { simpl. rewrite Hl, Ht, Hc. f_equal.
    apply (nth_ext _ _ nan nan); [rewrite length_map; congruence|].
    intros i Hi. rewrite length_map in Hi.
    rewrite (nth_map_lt _ _ i nan 0) by assumption.
    apply reindex_nearest_exact; try assumption. unfold tolerance_500ms. lia. }
  split; [exact H|]. unfold nav_field. rewrite H. reflexivity.
Qed.

Lemma pull_nav_on_ping_times_example :
  _pull_nav Sample.with_motion ["roll"; "Roll"]%string (ping_time Sample.with_motion)
  = Some [1.5; -2.5]%float
  /\ nav_field Sample.with_motion ["roll"; "Roll"]%string = [1.5; -2.5]%float.
Proof.
  apply (pull_nav_on_ping_times Sample.with_motion "roll"%string ["Roll"%string]
           (mkDataArray ["ping_time"%string] [0; 1000000000] [1.5%float; (-2.5)%float])).
  - reflexivity.
  - reflexivity.
  - reflexivity.
  - repeat constructor; simpl; intuition discriminate.
  - reflexivity.
Defined.

(** ** Variant A: the peak and its envelope *)

(** The pulse envelope of a detection of [detect_esp3]: the recorded pulse
    length is one plus the samples before and after the peak, neither side
    is longer than [max_len] nor leaves the column, and every sample of the
    envelope is a finite cell of the masked signal that is no more than
    [PLDL] dB under the peak. *)
Theorem esp3_pulse_envelope log10 ds params out :
  detect_esp3 log10 ds params = Ok out ->
  let given := merged params no_params in
  let p := merge_defaults given in
  exists Np T max_len,
    esp3_Np_T ds p = Ok (Np, T)
    /\ esp3_max_len Np p = Ok max_len
    /\ forall i, (i < List.length (idx_r out))%nat ->
         let ping := Z.to_nat (nth i (Ping_number out) 0) in
         let row := nth i (idx_r out) 0 in
         let before := nth i (pulse_env_before_lin out) 0 in
         let after := nth i (pulse_env_after_lin out) 0 in
         let peak := nth (Z.to_nat row) (column (Sv ds) ping) nan in
         nth i (Transmitted_pulse_length out) 0 = 1 + before + after
         /\ 0 <= before <= max_len
         /\ 0 <= after <= max_len
         /\ before <= row
         /\ nth i (PulseLength_Normalized_PLDL out) nan
            = (Py.float_of_Z (1 + before + after) / Py.float_of_Z Np)%float
         /\ forall r : nat,
              row - before <= Z.of_nat r <= row + after ->
              Py.isfinite (esp3_cell ds (bottom_da given) ping r) = true
              /\ (Z.of_nat r <> row ->
                  Py.ge (esp3_cell ds (bottom_da given) ping r) (peak - p_PLDL p)%float
                  = true).
Proof.
  intros H given p. apply detect_esp3_records in H as (pl & Hp & -> & _ & _).
  pose (dh := mk_hit 0 0 0 (mk_peak nan nan nan nan nan 0 0 0)).
  pose proof (esp3_prepare_inv _ _ _ Hp) as Hi. cbv zeta in Hi. fold given p in Hi.
  destruct Hi as (_ & _ & Hbb & _ & _ & _ & HN & _ & Hmx & _ & _ & _ & HPL & _).
  exists (x_Np (plan_ctx pl)), (x_T (plan_ctx pl)), (x_max_len (plan_ctx pl)).
  split; [exact HN|]. split; [exact Hmx|].
  rewrite esp3_records.
  cbn [finalize idx_r Ping_number pulse_env_before_lin pulse_env_after_lin
       Transmitted_pulse_length PulseLength_Normalized_PLDL init_st_struct app].
  intros i Hi. rewrite length_map in Hi.
  rewrite !(nth_map_lt _ _ i 0 dh), (nth_map_lt _ _ i nan dh) by assumption.
  set (h := nth i (esp3_hits log10 ds pl) dh).
  destruct (esp3_hit_checks log10 _ _ _ _ Hp (nth_In _ dh Hi))
    as (Hrow & _ & _ & _ & _ & _ & _ & Hpl & Hl & Hr & Hlk & _ & Henv).
  fold h in Hrow, Hpl, Hl, Hr, Hlk, Henv.
  rewrite Hrow, !Nat2Z.id. rewrite Hbb, HPL in Henv.
  split; [exact Hpl|]. split; [exact Hl|]. split; [exact Hr|]. split; [exact Hlk|].
  split; [rewrite Hpl; reflexivity|].
  intros r Hr'. destruct (Henv r Hr') as [Hf Hg]. split; [exact Hf|].
  intros Hne. apply Hg. lia.
Qed.

Lemma esp3_pulse_envelope_example :
  exists out,
    detect_esp3 log10_series Sample.one_ping (Some Sample.Np5) = Ok out
    /\ idx_r out = [25]
    /\ pulse_env_before_lin out = [2] /\ pulse_env_after_lin out = [2]
    /\ Transmitted_pulse_length out = [5]
    /\ Py.ge (esp3_cell Sample.one_ping None 0 23) (-30 - 6) = true.
Proof.
  eexists. split; [vm_compute; reflexivity|].
  do 4 (split; [reflexivity|]).
  destruct (esp3_pulse_envelope log10_series Sample.one_ping (Some Sample.Np5) _
              ltac:(vm_compute; reflexivity)) as (Np & T & mx & _ & _ & Hi).
  destruct (Hi 0%nat ltac:(vm_compute; lia)) as (_ & _ & _ & _ & _ & Henv).
  exact (proj2 (Henv 23%nat ltac:(vm_compute; split; discriminate))
               ltac:(vm_compute; discriminate)).
Defined.

(** A detection of [detect_esp3] sits on a cell that is not under the
    bottom, whose [Sv] is finite and above the threshold, strictly above the
    masked cell before it and not below the masked cell after it. *)
Theorem esp3_peak_is_local_maximum log10 ds params out :
  detect_esp3 log10 ds params = Ok out ->
  let given := merged params no_params in
  let p := merge_defaults given in
  forall i, (i < List.length (idx_r out))%nat ->
    let ping := Z.to_nat (nth i (Ping_number out) 0) in
    let row := Z.to_nat (nth i (idx_r out) 0) in
    let peak := nth row (column (Sv ds) ping) nan in
    under_bottom ds (bottom_da given) ping row = false
    /\ Py.isfinite peak = true
    /\ Py.gt peak (p_TS_threshold p) = true
    /\ Py.gt peak (esp3_cell ds (bottom_da given) ping (row - 1)) = true
    /\ Py.ge peak (esp3_cell ds (bottom_da given) ping (row + 1)) = true.
Proof.
  intros H given p. apply detect_esp3_records in H as (pl & Hp & -> & _ & _).
  pose (dh := mk_hit 0 0 0 (mk_peak nan nan nan nan nan 0 0 0)).
  pose proof (esp3_prepare_inv _ _ _ Hp) as Hi. cbv zeta in Hi. fold given p in Hi.
  destruct Hi as (_ & Hv & Hbb & _ & _ & _ & _ & _ & _ & _ & _ & Hthr & _).
  rewrite esp3_records. cbn [finalize idx_r Ping_number init_st_struct app].
  intros i Hi. rewrite length_map in Hi.
  rewrite !(nth_map_lt _ _ i 0 dh) by assumption.
  destruct (esp3_hit_checks log10 _ _ _ _ Hp (nth_In _ dh Hi))
    as (Hrow & _ & Hub & Hfin & Hle & Hprev & Hnext & _).
  rewrite Hrow, !Nat2Z.id. rewrite Hbb in Hub, Hprev, Hnext. rewrite Hthr in Hle.
  repeat (split; [assumption|]). split; [|split; assumption].
  apply not_le_gt; [apply isfinite_not_nan; assumption| |assumption].
  apply _validate_params_Ok in Hv. destruct Hv as (_ & H120 & _).
  apply le_not_nan in H120. tauto.
Qed.

Lemma esp3_peak_is_local_maximum_example :
  exists out,
    detect_esp3 log10_series Sample.one_ping (Some Sample.Np5) = Ok out
    /\ idx_r out = [25]
    /\ Py.gt (nth 25 Sample.echo25 nan) (-50) = true
    /\ Py.gt (nth 25 Sample.echo25 nan) (esp3_cell Sample.one_ping None 0 24) = true.
Proof.
  eexists. split; [vm_compute; reflexivity|]. split; [reflexivity|].
  destruct (esp3_peak_is_local_maximum log10_series Sample.one_ping (Some Sample.Np5) _
              ltac:(vm_compute; reflexivity) 0%nat ltac:(vm_compute; lia))
    as (_ & _ & Hthr & Hprev & _).
  split; [exact Hthr|exact Hprev].
Defined.

(** A frame without signal gives the empty structure: [detect_esp3] when no
    cell of [Sv] is finite and above the threshold, [detect_matecho] when
    every cell of [Sv] is NaN. *)
Theorem quiet_frame_has_no_detection log10 ds params out :
  (detect_esp3 log10 ds params = Ok out ->
   let thr := p_TS_threshold (merge_defaults (merged params no_params)) in
   (forall ip r, let v := nth r (column (Sv ds) ip) nan in
                 Py.isfinite v && Py.gt v thr = false) ->
   out = init_st_struct)
  /\ (detect_matecho log10 ds params = Ok out ->
      (forall ip r, Py.isnan (nth r (column (Sv ds) ip) nan) = true) ->
      out = init_st_struct).
Proof.
  split.
  - intros H thr Hq. apply detect_esp3_records in H as (pl & Hp & -> & _ & _).
    destruct (esp3_hits log10 ds pl) as [|h hs] eqn:E; [reflexivity|].
    exfalso.
    assert (Hin : In h (esp3_hits log10 ds pl)) by (rewrite E; left; reflexivity).
    destruct (esp3_hit_checks log10 _ _ _ _ Hp Hin)
      as (_ & _ & _ & Hfin & Hle & _).
    pose proof (esp3_prepare_inv _ _ _ Hp) as Hi. cbv zeta in Hi.
    destruct Hi as (_ & Hv & _ & _ & _ & _ & _ & _ & _ & _ & _ & Hthr & _).
    rewrite Hthr in Hle. fold thr in Hle.
    specialize (Hq (hit_ping h) (hit_k h)). cbv zeta in Hq. rewrite Hfin in Hq.
    rewrite not_le_gt in Hq; [discriminate|apply isfinite_not_nan; assumption| |assumption].
    apply _validate_params_Ok in Hv. destruct Hv as (_ & H120 & _).
    apply le_not_nan in H120. tauto.
  - intros H Hq. apply detect_matecho_records in H as (pl & hs & Hp & Hh & -> & _ & _).
    destruct hs as [|h hs]; [reflexivity|].
    exfalso.
    pose proof (matecho_prepare_inv _ _ _ _ Hp) as (g & -> & _).
    destruct (matecho_hit_checks log10 _ _ _ _ _ Hp Hh (or_introl eq_refl))
      as (_ & _ & Hc & Hfin & _).
    rewrite Hc in Hfin. apply isfinite_not_nan in Hfin.
    unfold cell_ts, cell_tsu in Hfin.
    apply add_not_nan in Hfin as [Hfin _]. apply add_not_nan in Hfin as [Hfin _].
    apply add_not_nan in Hfin as [Hfin _].
    rewrite Hq in Hfin. discriminate.
Qed.

Lemma quiet_frame_has_no_detection_example :
  detect_esp3 log10_series Sample.quiet (Some Sample.Np5) = Ok init_st_struct
  /\ detect_matecho log10_series Sample.blank (Some Sample.Np5) = Ok init_st_struct.
Proof.
  split.
  - destruct (detect_esp3 log10_series Sample.quiet (Some Sample.Np5)) as [out|e] eqn:E;
      [|vm_compute in E; discriminate].
    f_equal.
    apply (proj1 (quiet_frame_has_no_detection log10_series Sample.quiet
                    (Some Sample.Np5) out) E).
    intros ip r.
    destruct ip as [|ip]; [|destruct ip; destruct r; reflexivity].
    do 12 (destruct r as [|r]; [reflexivity|]). destruct r; reflexivity.
  - destruct (detect_matecho log10_series Sample.blank (Some Sample.Np5)) as [out|e] eqn:E;
      [|vm_compute in E; discriminate].
    f_equal.
    apply (proj2 (quiet_frame_has_no_detection log10_series Sample.blank
                    (Some Sample.Np5) out) E).
    intros ip r.
    destruct ip as [|ip]; [|destruct ip; destruct r; reflexivity].
    do 12 (destruct r as [|r]; [reflexivity|]). destruct r; reflexivity.
Defined.

(** ** The range window recorded with a detection *)

(** [detect_esp3] records with a detection the smallest and the largest
    finite depth of the rows of its envelope: both are finite depths of the
    ping's column inside the envelope and bound every finite depth there.
    The recorded range is the depth at the peak when that is finite, and
    then lies between the two; otherwise it is the middle of the two. *)
Theorem esp3_range_window log10 ds params out :
  detect_esp3 log10 ds params = Ok out ->
  forall i, (i < List.length (Target_range out))%nat ->
    let ping := Z.to_nat (nth i (Ping_number out) 0) in
    let row := nth i (idx_r out) 0 in
    let dep := fun r : nat => nth r (column (depth ds) ping) nan in
    let inside := fun r : nat =>
      row - nth i (pulse_env_before_lin out) 0 <= Z.of_nat r
      <= row + nth i (pulse_env_after_lin out) 0 in
    let lo := nth i (Target_range_min out) nan in
    let hi := nth i (Target_range_max out) nan in
    let rng := nth i (Target_range out) nan in
    (exists r, inside r /\ dep r = lo)
    /\ (exists r, inside r /\ dep r = hi)
    /\ Py.isfinite lo = true /\ Py.isfinite hi = true /\ Py.le lo hi = true
    /\ (forall r, inside r -> Py.isfinite (dep r) = true ->
                  Py.le lo (dep r) = true /\ Py.le (dep r) hi = true)
    /\ (Py.isfinite (dep (Z.to_nat row)) = true ->
        rng = dep (Z.to_nat row) /\ Py.le lo rng = true /\ Py.le rng hi = true)
    /\ (Py.isfinite (dep (Z.to_nat row)) = false -> rng = (0.5 * (lo + hi))%float).
Proof.
  intros H. apply detect_esp3_records in H as (pl & Hp & -> & _ & _).
  pose (dh := mk_hit 0 0 0 (mk_peak nan nan nan nan nan 0 0 0)).
  rewrite esp3_records.
  cbn [finalize idx_r Ping_number pulse_env_before_lin pulse_env_after_lin
       Target_range Target_range_min Target_range_max init_st_struct app].
  intros i Hi. rewrite length_map in Hi.
  rewrite !(nth_map_lt _ _ i 0 dh), !(nth_map_lt _ _ i nan dh) by assumption.
  set (h := nth i (esp3_hits log10 ds pl) dh).
  assert (Hin : In h (esp3_hits log10 ds pl)) by (apply nth_In; assumption).
  destruct (esp3_hit_checks log10 _ _ _ _ Hp Hin) as (Hrow & _ & _ & _ & _ & _ & _ & _
                                                     & Hl & Hr & _).
  destruct (esp3_hit_range log10 _ _ _ _ Hp Hin)
    as (H1 & H2 & Hf1 & Hf2 & Hle & Hall & Hpeak).
  rewrite Hrow, !Nat2Z.id. cbv zeta.
  split; [exact H1|]. split; [exact H2|].
  split; [exact Hf1|]. split; [exact Hf2|]. split; [exact Hle|]. split; [exact Hall|].
  split.
  - intros Hf. rewrite Hf in Hpeak. rewrite Hpeak.
    split; [reflexivity|]. apply Hall; [lia|exact Hf].
  - intros Hf. rewrite Hf in Hpeak. exact Hpeak.
Qed.

Lemma esp3_range_window_example :
  exists out,
    detect_esp3 log10_series Sample.one_ping (Some Sample.Np5) = Ok out
    /\ Target_range_min out = [24%float]
    /\ Target_range out = [26%float]
    /\ Target_range_max out = [28%float]
    /\ Py.le (nth 0 (Target_range_min out) nan) (nth 0 (Target_range out) nan) = true
    /\ Py.le (nth 0 (Target_range out) nan) (nth 0 (Target_range_max out) nan) = true.
Proof.
  eexists. split; [vm_compute; reflexivity|].
  do 3 (split; [reflexivity|]).
  destruct (esp3_range_window log10_series Sample.one_ping (Some Sample.Np5) _
              ltac:(vm_compute; reflexivity) 0%nat ltac:(vm_compute; lia))
    as (_ & _ & _ & _ & _ & _ & Hfin & _).
  destruct (Hfin ltac:(vm_compute; reflexivity)) as (_ & H1 & H2).
  split; [exact H1|exact H2].
Defined.

(** [detect_matecho] records the smallest and the largest finite range of
    the rows of the 6 dB envelope, taken from the range matrix
    [R = clip(depth - (TD + heave), min=0)]; the recorded range is the cell
    of [R] at the peak, and lies between the two when it is finite. *)
Theorem matecho_range_window log10 ds given out :
  detect_matecho log10 ds (Some given) = Ok out ->
  let TD := merged (transducer_depth ds) 0%float in
  let heave := nav_field ds ["heave"; "Heave"; "vertical_offset"]%string in
  forall i, (i < List.length (Target_range out))%nat ->
    let ping := Z.to_nat (nth i (Ping_number out) 0) in
    let row := nth i (idx_r out) 0 in
    let R := fun r : nat =>
      Py.clip_min 0 (nth r (column (depth ds) ping) nan - (TD + nth ping heave nan))%float in
    let inside := fun r : nat =>
      row - nth i (pulse_env_before_lin out) 0 <= Z.of_nat r
      <= row + nth i (pulse_env_after_lin out) 0 in
    let lo := nth i (Target_range_min out) nan in
    let hi := nth i (Target_range_max out) nan in
    let rng := nth i (Target_range out) nan in
    (exists r, inside r /\ R r = lo)
    /\ (exists r, inside r /\ R r = hi)
    /\ Py.isfinite lo = true /\ Py.isfinite hi = true /\ Py.le lo hi = true
    /\ (forall r, inside r -> Py.isfinite (R r) = true ->
                  Py.le lo (R r) = true /\ Py.le (R r) hi = true)
    /\ rng = R (Z.to_nat row)
    /\ (Py.isfinite rng = true -> Py.le lo rng = true /\ Py.le rng hi = true).
Proof.
  intros H TD heave. apply detect_matecho_records in H as (pl & hs & Hp & Hh & -> & _ & _).
  pose (dh := mk_hit 0 0 0 (mk_peak nan nan nan nan nan 0 0 0)).
  pose proof (matecho_prepare_ctx _ _ _ _ Hp) as Hctx. cbv zeta in Hctx.
  destruct Hctx as (_ & _ & _ & HTD & _ & _ & _ & _ & Hhv).
  rewrite matecho_records.
  cbn [finalize idx_r Ping_number pulse_env_before_lin pulse_env_after_lin
       Target_range Target_range_min Target_range_max init_st_struct app].
  intros i Hi. rewrite length_map in Hi.
  rewrite !(nth_map_lt _ _ i 0 dh), !(nth_map_lt _ _ i nan dh) by assumption.
  set (h := nth i hs dh).
  assert (Hin : In h hs) by (apply nth_In; assumption).
  destruct (matecho_hit_checks log10 _ _ _ _ _ Hp Hh Hin) as (Hrow & _ & _ & _ & _ & _ & _
                                                             & _ & _ & Hl & Hr & _).
  destruct (matecho_hit_range log10 _ _ _ _ _ Hp Hh Hin)
    as (H1 & H2 & Hf1 & Hf2 & Hle & Hall & Hpeak).
  unfold cell_R in H1, H2, Hall, Hpeak. rewrite HTD, Hhv in H1, H2, Hall, Hpeak.
  fold TD heave in H1, H2, Hall, Hpeak.
  rewrite Hrow, !Nat2Z.id. cbv zeta.
  split; [exact H1|]. split; [exact H2|].
  split; [exact Hf1|]. split; [exact Hf2|]. split; [exact Hle|]. split; [exact Hall|].
  split; [exact Hpeak|].
  intros Hf. rewrite Hpeak in Hf |- *. apply Hall; [lia|exact Hf].
Qed.

Lemma matecho_range_window_example :
  exists out,
    detect_matecho log10_series Sample.with_motion (Some Sample.Np5) = Ok out
    /\ Target_range_min out = [14.75; 24.75; 23.5]%float
    /\ Target_range out = [15.75; 25.75; 25.5]%float
    /\ Target_range_max out = [16.75; 26.75; 27.5]%float
    /\ Py.le (nth 2 (Target_range_min out) nan) (nth 2 (Target_range out) nan) = true
    /\ Py.le (nth 2 (Target_range out) nan) (nth 2 (Target_range_max out) nan) = true.
Proof.
  eexists. split; [vm_compute; reflexivity|].
  do 3 (split; [reflexivity|]).
  destruct (matecho_range_window log10_series Sample.with_motion Sample.Np5 _
              ltac:(vm_compute; reflexivity) 2%nat ltac:(vm_compute; lia))
    as (_ & _ & _ & _ & _ & _ & _ & Hfin).
  exact (Hfin ltac:(vm_compute; reflexivity)).
Defined.

(** ** Keys of the dict that do, or do not, change the result *)

Lemma matecho_prepare_set_Np log10 ds given n pl :
  matecho_prepare log10 ds (Some given) = Ok pl ->
  exists pl',
    matecho_prepare log10 ds (Some (set_Np n given)) = Ok pl'
    /\ without_blocking (mplan_ctx pl') = without_blocking (mplan_ctx pl)
    /\ mplan_bb pl' = mplan_bb pl
    /\ mplan_idx_r_tot pl' = mplan_idx_r_tot pl
    /\ mplan_block_size pl' = mplan_block_size pl
    /\ mplan_num_ite pl' = mplan_num_ite pl.
Proof.
  unfold matecho_prepare.
  change (channel (set_Np n given)) with (channel given).
  destruct (channel given); [|discriminate]. cbv zeta.
  intros H.
  apply bind_Ok in H as (dstep & Hd & H).
  apply bind_Ok in H as (dt & Hdt & H).
  apply bind_Ok in H as (n0 & _ & H).
  apply bind_Ok in H as (rows & Hrows & H).
  apply bind_Ok in H as (bs & Hbs & H).
  apply bind_Ok in H as (NechP & HN & H).
  injection H as <-.
  rewrite Hd. cbn [bind].
  change (q_SoundSpeed (merge_matecho_defaults (set_Np n given)))
    with (q_SoundSpeed (merge_matecho_defaults given)).
  rewrite Hdt. cbn [bind].
  change (q_pulse_length (merge_matecho_defaults (set_Np n given)))
    with (q_pulse_length (merge_matecho_defaults given)).
  rewrite HN.
  change (bottom_da (set_Np n given)) with (bottom_da given).
  rewrite Hrows.
  change (q_block_len (merge_matecho_defaults (set_Np n given)))
    with (q_block_len (merge_matecho_defaults given)).
  change (q_Np (merge_matecho_defaults (set_Np n given))) with n.
  cbn [bind]. rewrite Hbs. cbn [bind].
  destruct n as [k|]; [destruct (k >? 2)|]; cbn [bind];
    (eexists; split; [reflexivity|]; repeat split; reflexivity).
Qed.

(** [detect_matecho] never uses the key [Np]: once a run returns, it returns
    the same structure with [Np] set to anything, or removed.  The samples
    per pulse of its echo-length and spacing tests are always derived from
    the depth step. *)
Theorem matecho_ignores_Np log10 ds given n out :
  detect_matecho log10 ds (Some given) = Ok out ->
  detect_matecho log10 ds (Some (set_Np n given)) = Ok out.
Proof.
  rewrite !detect_matecho_eq. intros H.
  apply bind_Ok in H as (pl & Hp & H).
  destruct (matecho_prepare_set_Np _ _ _ n _ Hp) as (pl' & Hp' & Hm & Hbb & Hr & Hbs & Hn).
  rewrite Hp'. cbn [bind].
  rewrite (matecho_hits_without_blocking log10 ds pl' pl Hm Hbb Hr Hbs Hn), Hm.
  exact H.
Qed.

Lemma matecho_ignores_Np_example :
  exists out,
    detect_matecho log10_series Sample.one_ping (Some Sample.only_channel) = Ok out
    /\ nb_valid_targets out = 1
    /\ detect_matecho log10_series Sample.one_ping
         (Some (set_Np (Some 40) Sample.only_channel)) = Ok out.
Proof.
  eexists. split; [vm_compute; reflexivity|]. split; [reflexivity|].
  apply (matecho_ignores_Np log10_series Sample.one_ping Sample.only_channel (Some 40)).
  vm_compute. reflexivity.
Defined.

Lemma isfinite_ceil (q : float) : Py.isfinite q = true -> exists c, Py.ceil q = Ok c.
Proof.
  unfold Py.isfinite, is_finite, Py.ceil. intros H.
  apply negb_true_iff, orb_false_iff in H as [Hn Hi].
  destruct (Prim2SF q) as [s|s| |s m e] eqn:E; eauto.
  - exfalso. unfold is_infinity in Hi. rewrite eqb_spec, abs_spec, E in Hi.
    destruct s; vm_compute in Hi; discriminate.
  - exfalso. apply (isnan_spec q) in E. unfold Py.isnan in E. congruence.
Qed.

Lemma blocks_cover_matecho n bs :
  0 <= n -> 1 <= bs \/ n = 0 ->
  List.concat (blocks n bs (num_ite_matecho n bs)) = arange n.
Proof.
  intros Hn [Hbs| ->].
  - unfold blocks, range, num_ite_matecho, arange.
    replace (Z.max bs 1) with bs by lia.
    rewrite blocks_concat_pos by lia. f_equal.
    destruct (Z.eq_dec n 0) as [->|Hne].
    + rewrite Z.min_r; [reflexivity|]. unfold Py.ceil_div. simpl. lia.
    + pose proof (ceil_div_bounds n bs ltac:(lia) Hbs) as [H1 H2].
      rewrite Z2Nat.id by lia. f_equal. lia.
  - unfold blocks, num_ite_matecho, Py.ceil_div. simpl. reflexivity.
Qed.

Lemma matecho_prepare_set_block_len log10 ds given b1 b2 c2 pl :
  bottom_da given = None ->
  matecho_prepare log10 ds (Some (set_block_len (Some b1) given)) = Ok pl ->
  Py.ceil (b2 / Py.float_of_Z (Z.max 1 (Z.of_nat (range_sample_size ds))))%float = Ok c2 ->
  exists c1,
    Py.ceil (b1 / Py.float_of_Z (Z.max 1 (Z.of_nat (range_sample_size ds))))%float = Ok c1
    /\ mplan_bb pl = None
    /\ mplan_block_size pl = Z.min c1 (ping_size ds)
    /\ mplan_num_ite pl = num_ite_matecho (ping_size ds) (mplan_block_size pl)
    /\ exists pl',
         matecho_prepare log10 ds (Some (set_block_len (Some b2) given)) = Ok pl'
         /\ without_blocking (mplan_ctx pl') = without_blocking (mplan_ctx pl)
         /\ mplan_bb pl' = None
         /\ mplan_idx_r_tot pl' = mplan_idx_r_tot pl
         /\ mplan_block_size pl' = Z.min c2 (ping_size ds)
         /\ mplan_num_ite pl' = num_ite_matecho (ping_size ds) (mplan_block_size pl').
Proof.
  intros Hbot. unfold matecho_prepare.
  change (channel (set_block_len (Some b1) given)) with (channel given).
  change (channel (set_block_len (Some b2) given)) with (channel given).
  destruct (channel given); [|discriminate]. cbv zeta.
  change (bottom_da (set_block_len (Some b1) given)) with (bottom_da given).
  change (bottom_da (set_block_len (Some b2) given)) with (bottom_da given).
  rewrite Hbot. cbn [idx_r_tot_of].
  intros H Hc2.
  apply bind_Ok in H as (dstep & Hd & H).
  apply bind_Ok in H as (dt & Hdt & H).
  apply bind_Ok in H as (n0 & HNp & H).
  cbn [bind] in H.
  apply bind_Ok in H as (bs & Hbs & H).
  apply bind_Ok in H as (NechP & HN & H).
  injection H as <-.
  change (q_block_len (merge_matecho_defaults (set_block_len (Some b1) given)))
    with b1 in Hbs.
  unfold block_size_of in Hbs. unfold arange in Hbs. rewrite length_seq, !Nat2Z.id in Hbs.
  apply bind_Ok in Hbs as (c1 & Hc1 & Hbs). injection Hbs as <-.
  exists c1. split; [exact Hc1|]. cbn [mplan_bb mplan_block_size mplan_num_ite].
  split; [reflexivity|]. split; [reflexivity|]. split; [reflexivity|].
  rewrite Hd. cbn [bind].
  change (q_SoundSpeed (merge_matecho_defaults (set_block_len (Some b2) given)))
    with (q_SoundSpeed (merge_matecho_defaults (set_block_len (Some b1) given))).
  rewrite Hdt. cbn [bind].
  change (q_pulse_length (merge_matecho_defaults (set_block_len (Some b2) given)))
    with (q_pulse_length (merge_matecho_defaults (set_block_len (Some b1) given))).
  change (q_Np (merge_matecho_defaults (set_block_len (Some b2) given)))
    with (q_Np (merge_matecho_defaults (set_block_len (Some b1) given))).
  rewrite HNp, HN. cbn [bind].
  change (q_block_len (merge_matecho_defaults (set_block_len (Some b2) given))) with b2.
  unfold block_size_of, arange. rewrite length_seq, !Nat2Z.id, Hc2. cbn [bind].
  eexists. split; [reflexivity|]. repeat split; reflexivity.
Qed.

(** Without a bottom line the result of [detect_matecho] does not depend on
    [block_len]: cutting the pings into blocks of any size of at least one
    ping gives the detections of one pass over all pings. *)
Theorem matecho_result_is_independent_of_block_len log10 ds given b1 b2 out :
  bottom_da given = None ->
  let cells := Py.float_of_Z (Z.max 1 (Z.of_nat (range_sample_size ds))) in
  Py.gt (b1 / cells)%float 0 = true ->
  Py.gt (b2 / cells)%float 0 = true ->
  Py.isfinite (b2 / cells)%float = true ->
  detect_matecho log10 ds (Some (set_block_len (Some b1) given)) = Ok out ->
  detect_matecho log10 ds (Some (set_block_len (Some b2) given)) = Ok out.
Proof.
  intros Hbot cells Hq1 Hq2 Hfin. rewrite !detect_matecho_eq. intros H.
  apply bind_Ok in H as (pl & Hp & H).
  destruct (isfinite_ceil _ Hfin) as (c2 & Hc2).
  destruct (matecho_prepare_set_block_len _ _ _ _ _ _ _ Hbot Hp Hc2)
    as (c1 & Hc1 & Hbb & Hbs & Hn & pl' & Hp' & Hm & Hbb' & Hr' & Hbs' & Hn').
  rewrite Hp'. cbn [bind].
  pose proof (ceil_of_positive _ _ Hq1 Hc1) as H1.
  pose proof (ceil_of_positive _ _ Hq2 Hc2) as H2.
  pose proof (ping_size_nonneg ds) as Hn0.
  rewrite (matecho_hits_unblocked log10 ds pl Hbb) in H.
  rewrite (matecho_hits_unblocked log10 ds pl' Hbb').
  rewrite Hn, blocks_cover_matecho in H by lia.
  rewrite Hn', blocks_cover_matecho by lia.
  rewrite Hm, Hr'. exact H.
Qed.

Lemma matecho_result_is_independent_of_block_len_example :
  exists out,
    detect_matecho log10_series Sample.two_pings
      (Some (set_block_len (Some 50%float) Sample.Np5)) = Ok out
    /\ Ping_number out = [0; 0; 1]
    /\ detect_matecho log10_series Sample.two_pings
         (Some (set_block_len (Some 1e6%float) Sample.Np5)) = Ok out.
Proof.
  eexists. split; [vm_compute; reflexivity|]. split; [reflexivity|].
  apply (matecho_result_is_independent_of_block_len log10_series Sample.two_pings
           Sample.Np5 50%float 1e6%float).
  - reflexivity.
  - vm_compute. reflexivity.
  - vm_compute. reflexivity.
  - vm_compute. reflexivity.
  - vm_compute. reflexivity.
Defined.

(** The pulse length in samples of [detect_esp3]: a key [Np] above 2 is
    used as it is; a key [Np] of 2 or less is ignored, the run is that of a
    dict without the key; and the value used is never below 3.  The pulse
    duration is the key [pulse_length], or 1 ms. *)
Theorem esp3_Np_rule log10 ds given :
  (forall n, 2 < n ->
     esp3_Np_T ds (merge_defaults (set_Np (Some n) given))
     = Ok (n, merged (pulse_length given) 1e-3%float))
  /\ (forall n, n <= 2 ->
        detect_esp3 log10 ds (Some (set_Np (Some n) given))
        = detect_esp3 log10 ds (Some (set_Np None given)))
  /\ (forall Np T,
        esp3_Np_T ds (merge_defaults given) = Ok (Np, T) ->
        3 <= Np /\ T = merged (pulse_length given) 1e-3%float).
Proof.
  split; [|split].
  - intros n Hn. unfold esp3_Np_T.
    change (p_Np (merge_defaults (set_Np (Some n) given))) with (Some n).
    cbv beta iota.
    replace (n >? 2) with true by (symmetry; rewrite Z.gtb_ltb; apply Z.ltb_lt; lia).
    reflexivity.
  - intros n Hn. unfold detect_esp3, esp3_prepare. cbn [merged].
    change (channel (set_Np (Some n) given)) with (channel given).
    change (channel (set_Np None given)) with (channel given).
    destruct (channel given); [|reflexivity]. cbv zeta.
    change (_validate_params (merge_defaults (set_Np (Some n) given)))
      with (_validate_params (merge_defaults (set_Np None given))).
    destruct (_validate_params (merge_defaults (set_Np None given))); [|reflexivity].
    cbn [bind].
    change (bottom_da (set_Np (Some n) given)) with (bottom_da (set_Np None given)).
    destruct (idx_r_tot_of ds (bottom_da (set_Np None given))) as [rows|]; [|reflexivity].
    cbn [bind].
    change (p_block_len (merge_defaults (set_Np (Some n) given)))
      with (p_block_len (merge_defaults (set_Np None given))).
    destruct (block_size_of _ _ _) as [bs|]; [|reflexivity]. cbn [bind].
    assert (HN : esp3_Np_T ds (merge_defaults (set_Np (Some n) given))
                 = esp3_Np_T ds (merge_defaults (set_Np None given))).
    { unfold esp3_Np_T.
      change (p_Np (merge_defaults (set_Np (Some n) given))) with (Some n).
      change (p_Np (merge_defaults (set_Np None given))) with (@None Z).
      cbv beta iota.
      replace (n >? 2) with false by (symmetry; rewrite Z.gtb_ltb; apply Z.ltb_ge; lia).
      reflexivity. }
    rewrite HN. reflexivity.
  - intros Np T H. split; [eapply esp3_Np_ge_3; exact H|].
    apply esp3_Np_T_duration in H. exact H.
Qed.

Lemma esp3_Np_rule_example :
  esp3_Np_T Sample.one_ping (merge_defaults (set_Np (Some 5) Sample.only_channel))
  = Ok (5, 1e-3%float)
  /\ detect_esp3 log10_series Sample.one_ping (Some (set_Np (Some 2) Sample.only_channel))
     = detect_esp3 log10_series Sample.one_ping (Some (set_Np None Sample.only_channel))
  /\ esp3_Np_T Sample.one_ping (merge_defaults Sample.only_channel) = Ok (3, 1e-3%float).
Proof.
  split; [|split].
  - apply (proj1 (esp3_Np_rule log10_series Sample.one_ping Sample.only_channel)). lia.
  - apply (proj1 (proj2 (esp3_Np_rule log10_series Sample.one_ping Sample.only_channel))).
    lia.
  - vm_compute. reflexivity.
Defined.

(** A dict that sets none of the validated keys passes the validation of
    [detect_esp3]: the defaults are within their own bounds; and in whatever
    passes, the threshold, [PLDL] and the two normalised pulse lengths are
    finite numbers. *)
Theorem esp3_defaults_are_valid given :
  (TS_threshold given = None -> PLDL given = None -> MinNormPL given = None ->
   MaxNormPL given = None -> DataType given = None -> block_len given = None ->
   _validate_params (merge_defaults given) = Ok tt)
  /\ (_validate_params (merge_defaults given) = Ok tt ->
      let p := merge_defaults given in
      Py.isfinite (p_TS_threshold p) = true
      /\ Py.isfinite (p_PLDL p) = true
      /\ Py.isfinite (p_MinNormPL p) = true
      /\ Py.isfinite (p_MaxNormPL p) = true).
Proof.
  split.
  - intros H1 H2 H3 H4 H5 H6. unfold _validate_params, merge_defaults.
    cbn [p_DataType p_TS_threshold p_PLDL p_MinNormPL p_MaxNormPL p_block_len].
    rewrite H1, H2, H3, H4, H5, H6. vm_compute. reflexivity.
  - intros H p. apply _validate_params_Ok in H. fold p in H.
    destruct H as (_ & A1 & A2 & B1 & B2 & C1 & C2 & D1 & D2 & _).
    repeat split.
    + apply (between_finite (-120) (-20)); auto.
    + apply (between_finite 1 30); auto.
    + apply (between_finite 0 10); auto.
    + apply (between_finite 0 10); auto.
Qed.

Lemma esp3_defaults_are_valid_example :
  _validate_params (merge_defaults Sample.Np5) = Ok tt
  /\ Py.isfinite (p_TS_threshold (merge_defaults Sample.Np5)) = true.
Proof.
  assert (H : _validate_params (merge_defaults Sample.Np5) = Ok tt).
  { apply (proj1 (esp3_defaults_are_valid Sample.Np5)); reflexivity. }
  split; [exact H|].
  apply (proj2 (esp3_defaults_are_valid Sample.Np5) H).
Defined.

Lemma div_nan (x y : float) : Py.isnan x = true -> Py.isnan (x / y)%float = true.
Proof.
  rewrite !isnan_spec, div_spec. intros ->. reflexivity.
Qed.

(** A [block_len] that is NaN passes the validation of [detect_esp3]
    ([NaN <= 0] is false); the run then stops at [math.ceil] with the
    [ValueError] of the conversion, not with a message about [block_len]. *)
Theorem esp3_nan_block_len log10 ds given b :
  channel given <> None ->
  bottom_da given = None ->
  block_len given = Some b ->
  Py.isnan b = true ->
  _validate_params (merge_defaults (set_block_len None given)) = Ok tt ->
  _validate_params (merge_defaults given) = Ok tt
  /\ detect_esp3 log10 ds (Some given)
     = Raise (ValueError "cannot convert float NaN to integer").
Proof.
  intros Hch Hbot Hb Hnan Hv.
  assert (Hv' : _validate_params (merge_defaults given) = Ok tt).
  { apply _validate_params_Ok. apply _validate_params_Ok in Hv.
    destruct Hv as (H0 & H1 & H2 & H3 & H4 & H5 & H6 & H7 & H8 & _).
    repeat (split; [assumption|]).
    unfold merge_defaults. cbn [p_block_len]. rewrite Hb. cbn [merged].
    destruct (Py.le b 0) eqn:E; [|reflexivity].
    apply le_not_nan in E as [E _]. congruence. }
  split; [exact Hv'|].
  unfold detect_esp3, esp3_prepare. cbn [merged].
  destruct (channel given); [|congruence]. cbv zeta.
  rewrite Hv', Hbot. cbn [bind idx_r_tot_of].
  unfold block_size_of, merge_defaults. cbn [p_block_len]. rewrite Hb. cbn [merged].
  unfold Py.ceil.
  pose proof (div_nan b (Py.float_of_Z
                           (Z.max 1 (Z.of_nat (List.length
                                                 (arange (Z.of_nat (range_sample_size ds)))))))
                      Hnan) as Hq.
  apply isnan_spec in Hq. rewrite Hq. reflexivity.
Qed.

Lemma esp3_nan_block_len_example :
  detect_esp3 log10_series Sample.one_ping (Some (set_block_len (Some nan) Sample.Np5))
  = Raise (ValueError "cannot convert float NaN to integer").
Proof.
  apply (esp3_nan_block_len log10_series Sample.one_ping
           (set_block_len (Some nan) Sample.Np5) nan).
  - discriminate.
  - reflexivity.
  - reflexivity.
  - reflexivity.
  - vm_compute. reflexivity.
Defined.

(** ** Fields that carry no measurement of their own *)

(** The angle statistics of a detection are placeholders: NaN in both
    detectors, as are the two angles in [detect_matecho], whether or not
    the dataset has angles.  The displayed range is the range plus a quarter
    of the pulse length in metres, [c * T / 4], with [c] the key
    [SoundSpeed] (or its default) and [T] the key [pulse_length] (or 1 ms). *)
Theorem placeholder_fields log10 ds params out :
  let n := Z.to_nat (nb_valid_targets out) in
  let T := merged (pulse_length (merged params no_params)) 1e-3%float in
  (detect_esp3 log10 ds params = Ok out ->
   let c := merged (SoundSpeed (merged params no_params)) DEFAULTS.SoundSpeed in
   n = List.length (TS_comp out)
   /\ StandDev_Angles_Minor_Axis out = repeat nan n
   /\ StandDev_Angles_Major_Axis out = repeat nan n
   /\ Target_range_disp out = map (fun r => (r + c * T / 4)%float) (Target_range out))
  /\ (detect_matecho log10 ds params = Ok out ->
      let c := merged (SoundSpeed (merged params no_params)) 1500%float in
      n = List.length (TS_comp out)
      /\ StandDev_Angles_Minor_Axis out = repeat nan n
      /\ StandDev_Angles_Major_Axis out = repeat nan n
      /\ Angle_minor_axis out = repeat nan n
      /\ Angle_major_axis out = repeat nan n
      /\ Target_range_disp out = map (fun r => (r + c * T / 4)%float) (Target_range out)).
Proof.
  intros n T. split.
  - intros H c. apply detect_esp3_records in H as (pl & Hp & Hout & _ & _).
    pose proof (esp3_prepare_inv _ _ _ Hp) as Hi. cbv zeta in Hi.
    destruct Hi as (_ & _ & _ & _ & _ & _ & HN & _ & _ & Hc & _).
    apply esp3_Np_T_duration in HN.
    subst n. rewrite Hout, esp3_records.
    cbn [finalize nb_valid_targets TS_comp StandDev_Angles_Minor_Axis
         StandDev_Angles_Major_Axis Target_range_disp Target_range init_st_struct app].
    rewrite Nat2Z.id, !length_map, !map_const, map_map, Hc, HN.
    repeat split; reflexivity.
  - intros H c. apply detect_matecho_records in H as (pl & hs & Hp & Hh & Hout & _ & _).
    pose proof (matecho_prepare_inv _ _ _ _ Hp) as (g & -> & _).
    pose proof (matecho_prepare_ctx _ _ _ _ Hp) as Hctx. cbv zeta in Hctx.
    destruct Hctx as (Hmp & HT & _).
    subst n. rewrite Hout, matecho_records.
    cbn [finalize nb_valid_targets TS_comp StandDev_Angles_Minor_Axis
         StandDev_Angles_Major_Axis Angle_minor_axis Angle_major_axis
         Target_range_disp Target_range init_st_struct app].
    rewrite Nat2Z.id, !length_map, !map_const, map_map, Hmp, HT.
    repeat split; reflexivity.
Qed.

Lemma placeholder_fields_example :
  exists out,
    detect_matecho log10_series Sample.split_beam (Some Sample.Np5) = Ok out
    /\ nb_valid_targets out = 1
    /\ Angle_minor_axis out = [nan]
    /\ StandDev_Angles_Major_Axis out = [nan]
    /\ Target_range_disp out = map (fun r => (r + 1500 * 1e-3 / 4)%float) (Target_range out).
Proof.
  eexists. split; [vm_compute; reflexivity|]. split; [reflexivity|].
  destruct (proj2 (placeholder_fields log10_series Sample.split_beam (Some Sample.Np5) _)
                  ltac:(vm_compute; reflexivity)) as (_ & _ & Hmaj & Hmin & _ & Hdisp).
  split; [exact Hmin|]. split; [exact Hmaj|exact Hdisp].
Defined.

(** ** A bottom line that is NaN *)

Lemma ge_nan (x bv : float) : Py.isnan bv = true -> Py.ge x bv = false.
Proof.
  intros H. unfold Py.ge. destruct (PrimFloat.leb bv x) eqn:E; [|reflexivity].
  apply (le_not_nan bv x) in E as [E _]. congruence.
Qed.

Lemma first_under_nan bv d : forall i, Py.isnan bv = true -> first_under bv d i = None.
Proof.
  induction d as [|x d IH]; intros i H; simpl; [reflexivity|].
  rewrite ge_nan by exact H. rewrite andb_false_r. apply IH. exact H.
Qed.

Lemma nth_nan (b : list float) ip :
  Forall (fun v => Py.isnan v = true) b -> Py.isnan (nth ip b nan) = true.
Proof.
  intros H. destruct (nth_in_or_default ip b nan) as [Hin| ->]; [|reflexivity].
  rewrite Forall_forall in H. auto.
Qed.

Lemma idx_bot_nan ds b pings :
  Forall (fun v => Py.isnan v = true) b ->
  idx_bot ds b pings = map (fun _ => Z.of_nat (range_sample_size ds) - 1) pings.
Proof.
  intros H. unfold idx_bot. apply map_ext. intros ip.
  unfold idx_bot_ping. rewrite first_under_nan by (apply nth_nan; exact H). reflexivity.
Qed.

Lemma fold_left_max_const (c : Z) (l : list nat) :
  fold_left Z.max (map (fun _ => c) l) c = c.
Proof.
  induction l as [|a l IH]; simpl; [reflexivity|]. rewrite Z.max_id. exact IH.
Qed.

Lemma idx_r_tot_of_nan ds b :
  Forall (fun v => Py.isnan v = true) b ->
  1 <= ping_size ds ->
  idx_r_tot_of ds (Some b) = idx_r_tot_of ds None.
Proof.
  intros H Hn. unfold idx_r_tot_of. rewrite idx_bot_nan by exact H.
  unfold arange at 1. destruct (Z.to_nat (ping_size ds)) as [|k] eqn:E; [lia|].
  simpl seq. simpl map. simpl nanmax. cbn [bind].
  rewrite <- seq_shift, map_map.
  rewrite (fold_left_max_const (Z.of_nat (range_sample_size ds) - 1) (seq 0 k)).
  f_equal. f_equal. lia.
Qed.

Lemma block_rows_nan ds b n idx_pings :
  Forall (fun v => Py.isnan v = true) b ->
  block_rows ds (Some b) (arange (Z.of_nat n)) idx_pings = arange (Z.of_nat n)
  \/ n <> range_sample_size ds.
Proof.
  intros H. destruct (Nat.eq_dec n (range_sample_size ds)) as [->|Hne]; [left|right; exact Hne].
  unfold block_rows. rewrite idx_bot_nan by exact H.
  destruct idx_pings as [|ip rest]; [reflexivity|].
  simpl map. cbv beta iota zeta.
  rewrite (fold_left_max_const (Z.of_nat (range_sample_size ds) - 1) rest).
  unfold arange. rewrite filter_le_seq0. f_equal. lia.
Qed.

Lemma under_bottom_nan ds b ip r :
  Forall (fun v => Py.isnan v = true) b -> under_bottom ds (Some b) ip r = false.
Proof.
  intros H. unfold under_bottom, bottom_at. simpl. apply ge_nan, nth_nan. exact H.
Qed.

Lemma mask_esp3_nan bv ts dep :
  Py.isnan bv = true -> mask_esp3 (Some bv) ts dep = mask_esp3 None ts dep.
Proof.
  intros H. unfold mask_esp3. apply map_ext. intros [z d]. simpl.
  rewrite ge_nan by exact H. reflexivity.
Qed.

Lemma for_each_ext {A S : Type} (f g : S -> A -> result S) (l : list A) (s : S) :
  (forall s a, f s a = g s a) -> for_each f l s = for_each g l s.
Proof.
  intros H. revert s. induction l as [|a l IH]; intros s; simpl; [reflexivity|].
  rewrite H. destruct (g s a); simpl; [apply IH|reflexivity].
Qed.

Section NanBottom.

Variable log10 : float -> float.

Lemma esp3_block_nan x ds b out idx_pings :
  Forall (fun v => Py.isnan v = true) b ->
  esp3_block log10 x ds (Some b) (arange (Z.of_nat (range_sample_size ds))) out idx_pings
  = esp3_block log10 x ds None (arange (Z.of_nat (range_sample_size ds))) out idx_pings.
Proof.
  intros H. unfold esp3_block.
  destruct (block_rows_nan ds b (range_sample_size ds) idx_pings H) as [->|Hne];
    [|congruence].
  cbn [block_rows].
  assert (HTS : forall rows,
            esp3_TS ds (Some b) rows idx_pings = esp3_TS ds None rows idx_pings).
  { intros rows. unfold esp3_TS. apply map_ext. intros ip.
    unfold bottom_at. simpl. apply mask_esp3_nan, nth_nan. exact H. }
  rewrite HTS. reflexivity.
Qed.

Lemma matecho_block_nan m ds b out idx_pings :
  Forall (fun v => Py.isnan v = true) b ->
  matecho_block log10 m ds (Some b) (arange (Z.of_nat (range_sample_size ds))) out idx_pings
  = matecho_block log10 m ds None (arange (Z.of_nat (range_sample_size ds))) out idx_pings.
Proof.
  intros H. unfold matecho_block.
  destruct (block_rows_nan ds b (range_sample_size ds) idx_pings H) as [->|Hne];
    [|congruence].
  cbn [block_rows]. apply for_each_ext. intros s ip.
  unfold matecho_ping.
  assert (Hcol : forall cell rows,
            masked_column cell ds (Some b) rows ip = masked_column cell ds None rows ip).
  { intros cell rows. unfold masked_column. apply map_ext. intros r.
    rewrite under_bottom_nan by exact H. reflexivity. }
  rewrite !Hcol. reflexivity.
Qed.

End NanBottom.

(** A bottom line that is NaN at every ping (no bottom found) is no bottom
    line: on a frame with at least one ping both detectors return what they
    return without the key [bottom_da]. *)
Theorem nan_bottom_is_no_bottom log10 ds given b :
  Forall (fun v => Py.isnan v = true) b ->
  1 <= ping_size ds ->
  detect_esp3 log10 ds (Some (set_bottom_da (Some b) given))
  = detect_esp3 log10 ds (Some (set_bottom_da None given))
  /\ detect_matecho log10 ds (Some (set_bottom_da (Some b) given))
     = detect_matecho log10 ds (Some (set_bottom_da None given)).
Proof.
  intros H Hn. split.
  - unfold detect_esp3, esp3_prepare. cbn [merged].
    change (channel (set_bottom_da (Some b) given)) with (channel given).
    change (channel (set_bottom_da None given)) with (channel given).
    destruct (channel given); [|reflexivity]. cbv zeta.
    change (merge_defaults (set_bottom_da (Some b) given))
      with (merge_defaults (set_bottom_da None given)).
    destruct (_validate_params (merge_defaults (set_bottom_da None given)));
      [|reflexivity].
    cbn [bind].
    change (bottom_da (set_bottom_da (Some b) given)) with (Some b).
    change (bottom_da (set_bottom_da None given)) with (@None (list float)).
    rewrite (idx_r_tot_of_nan ds b H Hn). cbn [idx_r_tot_of bind].
    destruct (block_size_of _ _ _) as [bs|]; [|reflexivity]. cbn [bind].
    destruct (esp3_Np_T ds _) as [[n T]|]; [|reflexivity]. cbn [bind fst snd].
    destruct (esp3_min_len n _) as [mn|]; [|reflexivity]. cbn [bind].
    destruct (esp3_max_len n _) as [mx|]; [|reflexivity]. cbn [bind].
    f_equal. f_equal. unfold esp3_run.
    cbn [plan_ctx plan_bb plan_idx_r_tot plan_block_size plan_num_ite].
    apply fold_left_ext. intros out blk. apply esp3_block_nan. exact H.
  - unfold detect_matecho, matecho_prepare.
    change (channel (set_bottom_da (Some b) given)) with (channel given).
    change (channel (set_bottom_da None given)) with (channel given).
    destruct (channel given); [|reflexivity]. cbv zeta.
    change (merge_matecho_defaults (set_bottom_da (Some b) given))
      with (merge_matecho_defaults (set_bottom_da None given)).
    destruct (matecho_dstep ds) as [dstep|]; [|reflexivity]. cbn [bind].
    match goal with
    | |- context [bind ?r _] => destruct r as [dt|]; [|reflexivity]
    end.
    cbn [bind].
    match goal with
    | |- context [bind ?r _] => destruct r as [n0|]; [|reflexivity]
    end.
    cbn [bind].
    change (bottom_da (set_bottom_da (Some b) given)) with (Some b).
    change (bottom_da (set_bottom_da None given)) with (@None (list float)).
    rewrite (idx_r_tot_of_nan ds b H Hn). cbn [idx_r_tot_of bind].
    destruct (block_size_of _ _ _) as [bs|]; [|reflexivity]. cbn [bind].
    destruct (samples_per_pulse _ _) as [NechP|]; [|reflexivity]. cbn [bind].
    unfold matecho_run.
    cbn [mplan_ctx mplan_bb mplan_idx_r_tot mplan_block_size mplan_num_ite].
    rewrite (for_each_ext _ _ _ _ (fun s a => matecho_block_nan _ _ ds b s a H)).
    reflexivity.
Qed.

Lemma nan_bottom_is_no_bottom_example :
  exists out,
    detect_esp3 log10_series Sample.two_echoes
      (Some (set_bottom_da (Some [nan]) Sample.Np5)) = Ok out
    /\ idx_r out = [25; 40]
    /\ detect_esp3 log10_series Sample.two_echoes (Some (set_bottom_da None Sample.Np5))
       = Ok out.
Proof.
  eexists. split; [vm_compute; reflexivity|]. split; [reflexivity|].
  rewrite <- (proj1 (nan_bottom_is_no_bottom log10_series Sample.two_echoes Sample.Np5 [nan]
                       ltac:(repeat constructor) ltac:(vm_compute; discriminate))).
  vm_compute. reflexivity.
Defined.

(** ** The separation scan of variant A drops no more than it must *)

Lemma min_separation_dropped Np : forall cand last k,
  ForallOrdPairs (fun a b => (a < b)%nat) cand ->
  In k cand -> ~ In k (min_separation Np cand last) ->
  Z.of_nat k - last < Np
  \/ exists k', In k' (min_separation Np cand last)
                /\ (k' < k)%nat /\ Z.of_nat k - Z.of_nat k' < Np.
Proof.
  induction cand as [|c rest IH]; intros last k Hs Hin Hout; [destruct Hin|].
  inversion Hs as [|? ? Hc Hrest]; subst. rewrite Forall_forall in Hc.
  simpl in Hout |- *.
  destruct (Z.of_nat c - last >=? Np) eqn:E.
  - destruct Hin as [->|Hin]; [exfalso; apply Hout; left; reflexivity|].
    assert (Hout' : ~ In k (min_separation Np rest (Z.of_nat c)))
      by (intros H; apply Hout; right; exact H).
    right. destruct (IH (Z.of_nat c) k Hrest Hin Hout') as [Hlt|(k' & Hk' & Hlt & Hd)].
    + exists c. split; [left; reflexivity|]. split; [apply Hc; exact Hin|exact Hlt].
    + exists k'. split; [right; exact Hk'|]. split; assumption.
  - destruct Hin as [->|Hin].
    + left. rewrite Z.geb_leb in E. apply Z.leb_gt in E. lia.
    + apply IH; assumption.
Qed.

(** The separation scan of [detect_esp3] is greedy and first-wins: it keeps
    only local maxima of the column; with [Np] no larger than the start
    value [10**9] of the scan, the first local maximum is always kept, and a
    local maximum is dropped only when a kept one lies fewer than [Np]
    samples before it. *)
Theorem esp3_separation_is_greedy x z :
  x_Np x <= 10 ^ 9 ->
  let cand := local_maxima (map (fun v => Py.gt v (-999)) z) z in
  let keep := esp3_keep x z in
  (forall k, In k keep -> In k cand)
  /\ (forall k rest, cand = k :: rest -> In k keep)
  /\ (forall k, In k cand -> ~ In k keep ->
        exists k', In k' keep /\ (k' < k)%nat /\ Z.of_nat k - Z.of_nat k' < x_Np x).
Proof.
  intros HNp cand keep. unfold keep, esp3_keep. fold cand.
  change (10 ^ 9) with 1000000000 in *.
  split; [|split].
  - intros k. apply min_separation_In.
  - intros k rest E. rewrite E. cbn [min_separation].
    match goal with |- In _ (if ?c then _ else _) => destruct c eqn:Eg end.
    + left. reflexivity.
    + exfalso. rewrite Z.geb_leb in Eg. apply Z.leb_gt in Eg. lia.
  - intros k Hin Hout.
    destruct (min_separation_dropped (x_Np x) cand (- 1000000000) k
                (local_maxima_sorted _ _) Hin Hout) as [Hlt|H]; [lia|exact H].
Qed.

Lemma esp3_separation_is_greedy_example :
  let x := mk_esp3_ctx 1500 1e-3 0 5 (-50) 6 3 8 50 in
  let z := column (Sv Sample.close_maxima) 0 in
  local_maxima (map (fun v => Py.gt v (-999)) z) z = [25; 28]%nat
  /\ esp3_keep x z = [25%nat]
  /\ exists k', In k' (esp3_keep x z) /\ (k' < 28)%nat /\ 28 - Z.of_nat k' < 5.
Proof.
  intros x z. split; [vm_compute; reflexivity|]. split; [vm_compute; reflexivity|].
  destruct (esp3_separation_is_greedy x z ltac:(vm_compute; discriminate))
    as (_ & _ & Hdrop).
  apply (Hdrop 28%nat).
  - vm_compute. right. left. reflexivity.
  - vm_compute. intros [H|[]]. discriminate.
Defined.

(** ** The envelope of variant A is as wide as it can be *)

Lemma expand_left_stop z thr max_len : forall i acc,
  expand_left z thr max_len i acc - acc = Z.of_nat i
  \/ max_len <= expand_left z thr max_len i acc
  \/ exists j : nat,
       Z.of_nat j = Z.of_nat i - 1 - (expand_left z thr max_len i acc - acc)
       /\ Py.isfinite (nth j z nan) && Py.ge (nth j z nan) thr = false.
Proof.
  induction i as [|i IH]; intros acc; simpl expand_left; [left; lia|].
  destruct (acc <? max_len) eqn:E1; cbn [andb].
  - destruct (Py.isfinite (nth i z nan) && Py.ge (nth i z nan) thr) eqn:E2.
    + destruct (IH (acc + 1)) as [H|[H|(j & Hj & Ht)]].
      * left. lia.
      * right. left. exact H.
      * right. right. exists j. split; [lia|exact Ht].
    + right. right. exists i. split; [lia|exact E2].
  - right. left. apply Z.ltb_ge in E1. exact E1.
Qed.

Lemma expand_right_stop z thr max_len : forall n i acc,
  expand_right z thr max_len n i acc - acc = Z.of_nat n
  \/ max_len <= expand_right z thr max_len n i acc
  \/ exists j : nat,
       Z.of_nat j = Z.of_nat i + (expand_right z thr max_len n i acc - acc)
       /\ Py.isfinite (nth j z nan) && Py.ge (nth j z nan) thr = false.
Proof.
  induction n as [|n IH]; intros i acc; simpl expand_right; [left; lia|].
  destruct (acc <? max_len) eqn:E1; cbn [andb].
  - destruct (Py.isfinite (nth i z nan) && Py.ge (nth i z nan) thr) eqn:E2.
    + destruct (IH (S i) (acc + 1)) as [H|[H|(j & Hj & Ht)]].
      * left. lia.
      * right. left. exact H.
      * right. right. exists j. split; [lia|exact Ht].
    + right. right. exists i. split; [lia|exact E2].
  - right. left. apply Z.ltb_ge in E1. exact E1.
Qed.

(** The two [while] loops that expand the envelope of a peak at sample [k]
    of a column stop only for one of three reasons: the border of the column
    is reached, the side is [max_len] samples long, or the next sample is
    not a finite value of at least the threshold [pk - PLDL]. *)
Theorem esp3_envelope_is_maximal z thr max_len k :
  (k < List.length z)%nat ->
  let before := expand_left z thr max_len k 0 in
  let after := expand_right z thr max_len (List.length z - (k + 1)) (k + 1) 0 in
  (before = Z.of_nat k
   \/ max_len <= before
   \/ exists j : nat,
        Z.of_nat j = Z.of_nat k - before - 1
        /\ Py.isfinite (nth j z nan) && Py.ge (nth j z nan) thr = false)
  /\ (Z.of_nat k + after = Z.of_nat (List.length z) - 1
      \/ max_len <= after
      \/ exists j : nat,
           Z.of_nat j = Z.of_nat k + after + 1
           /\ Py.isfinite (nth j z nan) && Py.ge (nth j z nan) thr = false).
Proof.
  intros Hk before after. split.
  - destruct (expand_left_stop z thr max_len k 0) as [H|[H|(j & Hj & Ht)]].
    + left. unfold before. lia.
    + right. left. exact H.
    + right. right. exists j. split; [unfold before; lia|exact Ht].
  - destruct (expand_right_stop z thr max_len (List.length z - (k + 1)) (k + 1) 0)
      as [H|[H|(j & Hj & Ht)]].
    + left. unfold after. lia.
    + right. left. exact H.
    + right. right. exists j. split; [unfold after; lia|exact Ht].
Qed.

Lemma esp3_envelope_is_maximal_example :
  expand_left Sample.echo25 (-36) 8 25 0 = 2
  /\ expand_right Sample.echo25 (-36) 8 (50 - 26) 26 0 = 2
  /\ exists j : nat,
       Z.of_nat j = 25 - 2 - 1
       /\ Py.isfinite (nth j Sample.echo25 nan) && Py.ge (nth j Sample.echo25 nan) (-36)
          = false.
Proof.
  split; [vm_compute; reflexivity|]. split; [vm_compute; reflexivity|].
  destruct (proj1 (esp3_envelope_is_maximal Sample.echo25 (-36) 8 25
                     ltac:(vm_compute; lia))) as [H|[H|H]].
  - vm_compute in H. discriminate.
  - vm_compute in H. exfalso. apply H. reflexivity.
  - replace (expand_left Sample.echo25 (-36) 8 25 0) with 2 in H by (vm_compute; reflexivity).
    exact H.
Defined.
